(** * parrot: a static file server with on-the-fly MML conversion

    A shallow embedding of [parrot/utils.py], [parrot/mml_adapter.py],
    [parrot/static.py] and the request dispatch of [parrot/server.py], and
    the properties of the request-to-resource pipeline proved (or refuted)
    about it.

    Conventions of the embedding.
    - A Python [str] is a [string]; a [bytes] value is a [list byte].
      Text is identified with its UTF-8 encoding, so [encode_utf8] and
      [decode_utf8] are the Standard Library's conversions between the
      two: a [str] is one that has an encoding (no lone surrogate), and
      [encode] does not fail on it. Reading a file as text checks that
      its bytes are well-formed UTF-8 and translates the ends of lines.
    - A [pathlib.Path] that went through [resolve()] is the list of its
      components below ["/"]; the file system has no symbolic links, so
      [resolve()] is the lexical normalisation of [".."]. Path strings
      are those the operating system takes: no NUL byte, no name or path
      longer than its limits, no directory that may not be searched; on
      other strings [resolve()] and the [stat] calls of the program
      raise, which [resolve], [stat], [exists_], [is_dir] and [is_file]
      here do not. The properties of the handler below are stated for
      the requests it answers, or under hypotheses that make the paths
      involved paths of the file system.
    - Effects (file system, temporary files, [print], loading of the
      converter, the clock) are threaded through a [World]; Python
      exceptions are the [Raise] results of the monad [M]. An
      [except Exception] clause catches the instances of [Exception]
      and lets [SystemExit] and [KeyboardInterrupt] through, which the
      code of the converter may raise. Exceptions that a signal delivers
      at an arbitrary point are not modelled, and [print] does not fail.
    - The converter is not part of the program. A loaded module is a
      function from attribute names to objects; an entry point is given by
      what it returns or raises when called with two arguments and with
      one (a call ends), and by what it does to the output path it was
      handed (leave it, write it, remove it). Loading the module and
      running the script read the file system and do not change it.
    - The framework is not part of the program either. A route handler is
      given by what it returns or raises; a streamed response records the
      chunks written to it, and its transport takes a given number of
      writes before the client is gone. The event loop of [run] and
      [json.dumps] are left out. *)

From Stdlib Require Import ZArith Ascii String List Lia.
From Stdlib.Strings Require Import Byte.
From stdpp Require Import base option list strings gmap fin_maps.

Local Open Scope Z_scope.

(* ===================================================================== *)
(** ** Python string primitives *)
(* ===================================================================== *)

Module Py.

Definition bytes := list byte.

(** [s.encode("utf-8")] and [b.decode("utf-8")]. *)
Definition encode_utf8 (s : string) : bytes := String.list_byte_of_string s.
Definition decode_utf8 (b : bytes) : string := String.string_of_list_byte b.

(** Whether a byte string is well-formed UTF-8, as the strict decoder of
    [bytes.decode("utf-8")] and of text-mode [open(..., encoding="utf-8")]
    requires: no stray continuation byte, no overlong form, no surrogate,
    nothing above U+10FFFF. *)
Definition continuation (b : Z) : bool := (128 <=? b) && (b <=? 191).

Fixpoint utf8_valid_from (bs : list Z) : bool :=
  match bs with
  | [] => true
  | b0 :: rest =>
      if b0 <? 128 then utf8_valid_from rest
      else
        match rest with
        | [] => false
        | b1 :: rest1 =>
            if (194 <=? b0) && (b0 <=? 223)
            then continuation b1 && utf8_valid_from rest1
            else
              match rest1 with
              | [] => false
              | b2 :: rest2 =>
                  if (224 <=? b0) && (b0 <=? 239)
                  then (if b0 =? 224 then (160 <=? b1) && (b1 <=? 191)
                        else if b0 =? 237 then (128 <=? b1) && (b1 <=? 159)
                        else continuation b1)
                       && continuation b2 && utf8_valid_from rest2
                  else
                    match rest2 with
                    | [] => false
                    | b3 :: rest3 =>
                        (240 <=? b0) && (b0 <=? 244)
                        && (if b0 =? 240 then (144 <=? b1) && (b1 <=? 191)
                            else if b0 =? 244 then (128 <=? b1) && (b1 <=? 143)
                            else continuation b1)
                        && continuation b2 && continuation b3
                        && utf8_valid_from rest3
                    end
              end
        end
  end.

Definition utf8_valid (b : bytes) : bool :=
  utf8_valid_from (map (fun x => Z.of_N (Byte.to_N x)) b).

(** What reading in text mode does to the ends of lines: a carriage
    return followed by a line feed, and a carriage return alone, become
    one line feed. *)
Fixpoint universal_newlines (s : string) : string :=
  match s with
  | EmptyString => EmptyString
  | String c s' =>
      if Ascii.eqb c (ascii_of_nat 13) then
        match s' with
        | String c' s'' =>
            if Ascii.eqb c' (ascii_of_nat 10)
            then String (ascii_of_nat 10) (universal_newlines s'')
            else String (ascii_of_nat 10) (universal_newlines s')
        | EmptyString => String (ascii_of_nat 10) EmptyString
        end
      else String c (universal_newlines s')
  end.

(** [s.startswith(p)]. *)
Definition startswith (s p : string) : bool := String.prefix p s.

(** [str.isspace()] on the one-byte code points. *)
Definition isspace (c : ascii) : bool :=
  let n := Z.of_nat (nat_of_ascii c) in
  ((9 <=? n) && (n <=? 13)) || ((28 <=? n) && (n <=? 32)).

(** The white-space code points above U+007F, by their UTF-8 encodings:
    U+0085, U+00A0 (two bytes) and U+1680, U+2000..U+200A, U+2028, U+2029,
    U+202F, U+205F, U+3000 (three bytes). *)
Definition isspace2 (c1 c2 : ascii) : bool :=
  let a := Z.of_nat (nat_of_ascii c1) in
  let b := Z.of_nat (nat_of_ascii c2) in
  (a =? 194) && ((b =? 133) || (b =? 160)).

Definition isspace3 (c1 c2 c3 : ascii) : bool :=
  let a := Z.of_nat (nat_of_ascii c1) in
  let b := Z.of_nat (nat_of_ascii c2) in
  let c := Z.of_nat (nat_of_ascii c3) in
  ((a =? 225) && (b =? 154) && (c =? 128))
  || ((a =? 226) && (b =? 128)
      && (((128 <=? c) && (c <=? 138)) || (c =? 168) || (c =? 169) || (c =? 175)))
  || ((a =? 226) && (b =? 129) && (c =? 159))
  || ((a =? 227) && (b =? 128) && (c =? 128)).

(** Every character of [s] is white space. *)
Fixpoint all_space (s : string) : bool :=
  match s with
  | EmptyString => true
  | String c1 s1 =>
      if isspace c1 then all_space s1
      else match s1 with
           | String c2 s2 =>
               if isspace2 c1 c2 then all_space s2
               else match s2 with
                    | String c3 s3 => isspace3 c1 c2 c3 && all_space s3
                    | EmptyString => false
                    end
           | EmptyString => false
           end
  end.

(** Truth value of [s.strip()]: some character is not white space. *)
Definition strip_truthy (s : string) : bool := negb (all_space s).

(** Truth value of a [str] ([bool(s)]). *)
Definition truthy (s : string) : bool :=
  match s with EmptyString => false | _ => true end.

(** [s.lstrip("/")]. *)
Fixpoint lstrip_slash (s : string) : string :=
  match s with
  | String "/" s' => lstrip_slash s'
  | _ => s
  end.

(** [s.split("/")]. *)
Fixpoint split_slash (s : string) : list string :=
  match s with
  | EmptyString => [EmptyString]
  | String c s' =>
      if Ascii.eqb c "/" then EmptyString :: split_slash s'
      else match split_slash s' with
           | x :: xs => String c x :: xs
           | [] => [String c EmptyString]
           end
  end.

(** [sep.join(l)]. *)
Definition join (sep : string) (l : list string) : string := String.concat sep l.

(** [s.rfind(c)], with [None] for Python's [-1]. *)
Fixpoint rfind (c : ascii) (s : string) : option nat :=
  match s with
  | EmptyString => None
  | String a s' =>
      match rfind c s' with
      | Some i => Some (S i)
      | None => if Ascii.eqb a c then Some 0%nat else None
      end
  end.

End Py.

(* ===================================================================== *)
(** ** hashlib.sha1 (FIPS 180-4), as used by [compute_etag_bytes] *)
(* ===================================================================== *)

Module Sha1.

Definition w32 (x : Z) : Z := Z.land x 4294967295.
Definition rotl (n x : Z) : Z :=
  w32 (Z.lor (Z.shiftl x n) (Z.shiftr x (32 - n))).
Definition add32 (x y : Z) : Z := w32 (x + y).
Definition not32 (x : Z) : Z := Z.lxor x 4294967295.

(** Big-endian bytes of the low [8 * n] bits of [x]. *)
Fixpoint be_bytes (n : nat) (x : Z) : list Z :=
  match n with
  | O => []
  | S k => Z.land (Z.shiftr x (8 * Z.of_nat k)) 255 :: be_bytes k x
  end.

(** Message padding: [0x80], zeros up to 56 mod 64, 64-bit bit length. *)
Definition pad (msg : list Z) : list Z :=
  let len := Z.of_nat (length msg) in
  let zeros := Z.to_nat ((55 - len) mod 64) in
  msg ++ 128 :: repeat 0 zeros ++ be_bytes 8 (8 * len).

Fixpoint words_of (fuel : nat) (bs : list Z) : list Z :=
  match fuel, bs with
  | S k, b0 :: b1 :: b2 :: b3 :: rest =>
      (Z.shiftl b0 24 + Z.shiftl b1 16 + Z.shiftl b2 8 + b3) :: words_of k rest
  | _, _ => []
  end.

Fixpoint blocks_of (fuel : nat) (ws : list Z) : list (list Z) :=
  match fuel, ws with
  | S k, _ :: _ => firstn 16 ws :: blocks_of k (skipn 16 ws)
  | _, _ => []
  end.

(** The 80-word message schedule, from a sliding window of 16 words. *)
Fixpoint schedule (n : nat) (window : list Z) : list Z :=
  match n with
  | O => []
  | S k =>
      let w := rotl 1 (Z.lxor (Z.lxor (nth 13 window 0) (nth 8 window 0))
                              (Z.lxor (nth 2 window 0) (nth 0 window 0))) in
      w :: schedule k (tl window ++ [w])
  end.

Definition f_k (t : nat) (b c d : Z) : Z * Z :=
  if (t <? 20)%nat then (Z.lor (Z.land b c) (Z.land (not32 b) d), 1518500249)
  else if (t <? 40)%nat then (Z.lxor (Z.lxor b c) d, 1859775393)
  else if (t <? 60)%nat then
    (Z.lor (Z.lor (Z.land b c) (Z.land b d)) (Z.land c d), 2400959708)
  else (Z.lxor (Z.lxor b c) d, 3395469782).

Record state := mkState { ha : Z; hb : Z; hc : Z; hd : Z; he : Z }.

Definition round (st : state) (tw : nat * Z) : state :=
  let '(f, k) := f_k (fst tw) (hb st) (hc st) (hd st) in
  let temp := add32 (add32 (add32 (add32 (rotl 5 (ha st)) f) (he st)) k) (snd tw) in
  mkState temp (ha st) (rotl 30 (hb st)) (hc st) (hd st).

Definition compress (h : state) (block : list Z) : state :=
  let ws := block ++ schedule 64 block in
  let r := fold_left round (combine (seq 0 80) ws) h in
  mkState (add32 (ha h) (ha r)) (add32 (hb h) (hb r)) (add32 (hc h) (hc r))
          (add32 (hd h) (hd r)) (add32 (he h) (he r)).

Definition init : state :=
  mkState 1732584193 4023233417 2562383102 271733878 3285377520.

Definition digest (msg : Py.bytes) : state :=
  let bs := pad (map (fun b => Z.of_N (Byte.to_N b)) msg) in
  let ws := words_of (length bs) bs in
  fold_left compress (blocks_of (length ws) ws) init.

Definition hex_digit (x : Z) : ascii :=
  let d := Z.land x 15 in
  ascii_of_nat (Z.to_nat (if d <? 10 then 48 + d else 87 + d)).

Definition hex8 (w : Z) (rest : string) : string :=
  String (hex_digit (Z.shiftr w 28)) (String (hex_digit (Z.shiftr w 24))
  (String (hex_digit (Z.shiftr w 20)) (String (hex_digit (Z.shiftr w 16))
  (String (hex_digit (Z.shiftr w 12)) (String (hex_digit (Z.shiftr w 8))
  (String (hex_digit (Z.shiftr w 4)) (String (hex_digit w) rest))))))).

(** [hashlib.sha1(data).hexdigest()]. *)
Definition hexdigest (msg : Py.bytes) : string :=
  let h := digest msg in
  hex8 (ha h) (hex8 (hb h) (hex8 (hc h) (hex8 (hd h) (hex8 (he h) EmptyString)))).

End Sha1.

(* ===================================================================== *)
(** ** pathlib: resolved paths *)
(* ===================================================================== *)

Module Pathlib.

(** An absolute path, as the list of its components below ["/"]. *)
Definition Path := list string.

Definition is_abs (s : string) : bool := Py.startswith s "/".

(** The components of a path string: empty components and ["."] are
    dropped when a [PurePath] is parsed; [".."] is kept. *)
Definition keep_part (c : string) : bool :=
  negb (String.eqb c EmptyString) && negb (String.eqb c ".").

Definition parts_of (s : string) : list string :=
  List.filter keep_part (Py.split_slash s).

(** [Path(s)] made absolute against the working directory, which is the
    first thing [resolve()] does with a relative path. *)
Definition absolute (cwd : Path) (s : string) : Path :=
  (if is_abs s then [] else cwd) ++ parts_of s.

(** [p / s]: an absolute right operand replaces the left one. *)
Definition truediv (p : Path) (s : string) : Path :=
  if is_abs s then parts_of s else p ++ parts_of s.

(** [resolve()] without symbolic links: [".."] removes the component
    before it and is a no-op at ["/"]. *)
Definition resolve_step (acc : Path) (c : string) : Path :=
  if String.eqb c ".." then removelast acc else acc ++ [c].

Definition resolve (p : Path) : Path := fold_left resolve_step p [].

(** [str(p)]. *)
Definition str (p : Path) : string := "/" +:+ Py.join "/" p.

(** [p.name]: the last component, empty for ["/"]. *)
Definition name (p : Path) : string := List.last p EmptyString.

(** [PurePath.suffix] of a file name: from the last dot on, unless that
    dot is the first or the last character. *)
Definition name_suffix (nm : string) : string :=
  match Py.rfind "." nm with
  | Some i =>
      if (0 <? i)%nat && (i <? String.length nm - 1)%nat
      then String.substring i (String.length nm - i) nm
      else EmptyString
  | None => EmptyString
  end.

Definition suffix (p : Path) : string := name_suffix (name p).

(** [p.with_suffix(sfx)]: [None] stands for the [ValueError] raised on
    a path with an empty name. *)
Definition with_suffix (p : Path) (sfx : string) : option Path :=
  let nm := name p in
  if String.eqb nm EmptyString then None
  else
    let old := name_suffix nm in
    let stem := String.substring 0 (String.length nm - String.length old) nm in
    Some (removelast p ++ [stem +:+ sfx]).

End Pathlib.

Import Pathlib.

(* ===================================================================== *)
(** ** The world the server runs in *)
(* ===================================================================== *)

(** Python exceptions, of built-in classes. The first four are instances
    of [Exception]; [SystemExit] and [KeyboardInterrupt] derive from
    [BaseException] only, so that an [except Exception] clause lets them
    through. *)
Inductive Exn :=
| TypeError (msg : string)
| ValueError (msg : string)
| OSError (msg : string)
| RuntimeError (msg : string)
| SystemExit (code : string)
| KeyboardInterrupt.

(** [str(e)]. *)
Definition Exn_str (e : Exn) : string :=
  match e with
  | TypeError m | ValueError m | OSError m | RuntimeError m | SystemExit m => m
  | KeyboardInterrupt => EmptyString
  end.

(** [isinstance(e, Exception)]. *)
Definition is_Exception (e : Exn) : bool :=
  match e with
  | SystemExit _ | KeyboardInterrupt => false
  | _ => true
  end.

Definition is_TypeError (e : Exn) : bool :=
  match e with TypeError _ => true | _ => false end.

Inductive Result (A : Type) :=
| Ok (a : A)
| Raise (e : Exn).
Arguments Ok {A} a.
Arguments Raise {A} e.

(** A file-system entry, with its modification time (POSIX seconds). *)
Inductive node :=
| Dir (mtime : Z)
| File (content : Py.bytes) (mtime : Z).

Abbreviation FS := (gmap (list string) node).

(** [stat]: ["/"] is always a directory. *)
Definition stat (fs : FS) (p : Path) : option node :=
  match p with
  | [] => Some (Dir 0)
  | _ => fs !! p
  end.

Definition exists_ (fs : FS) (p : Path) : bool :=
  match stat fs p with Some _ => true | None => false end.

Definition is_dir (fs : FS) (p : Path) : bool :=
  match stat fs p with Some (Dir _) => true | _ => false end.

Definition is_file (fs : FS) (p : Path) : bool :=
  match stat fs p with Some (File _ _) => true | _ => false end.

(** [p.iterdir()]: the entries directly below [p]. *)
Definition iterdir (fs : FS) (p : Path) : list Path :=
  List.filter
    (fun q => match q with
              | [] => false
              | _ => bool_decide (removelast q = p)
              end)
    (map fst (map_to_list fs)).

(** What a conversion entry point returns. *)
Inductive PyValue :=
| VStr (s : string)
| VNone
| VObject.

(** What an entry point did to the output path it was handed. *)
Inductive OutEffect :=
| Untouched
| Written (data : Py.bytes)
| Removed.

(** A function object of the converter module: its behaviour when called
    with two positional arguments [(input_path, output_path)] and with one
    (a path, or the MML text). It may read the file system. *)
Record PyFunction := mkPyFunction {
  call2 : FS -> string -> string -> Result PyValue * OutEffect;
  call1 : FS -> string -> Result PyValue
}.

Inductive PyObject :=
| Callable (f : PyFunction)
| NotCallable.

(** A loaded module, through [getattr(module, name, None)]; looking a
    name up does not raise. *)
Definition PyModule := string -> option PyObject.

Record CompletedProcess := mkCompletedProcess {
  returncode : Z;
  stdout : string;
  stderr : string
}.

(** Everything the program takes from its platform. *)
Class Env := mkEnv {
  (** the working directory of the process *)
  cwd : Path;
  (** [mimetypes.guess_type(path)[0]] *)
  guess_type : string -> option string;
  (** [t.strftime("%a, %d %b %Y %H:%M:%S GMT")] *)
  strftime : Z -> string;
  (** [ROOT / "mml_converter.py"] *)
  CONVERTER_PATH : Path;
  (** [sys.executable] *)
  sys_executable : string;
  (** the name [NamedTemporaryFile] picks for the n-th temporary file, or
      [None] when the file cannot be created *)
  tmp_name : nat -> option string;
  (** executing the converter file as a module; the file's own code may
      raise anything, [SystemExit] included *)
  exec_module : FS -> Result PyModule;
  (** [subprocess.run(cmd, capture_output=True, check=False, text=True,
      timeout=10)]; a timeout is one of its exceptions *)
  subprocess_run : FS -> list string -> Result CompletedProcess;
  (** what [subprocess.run] raises is an instance of [Exception]: the
      converter then runs in another process *)
  subprocess_run_raises :
    forall fs cmd e, subprocess_run fs cmd = Raise e -> is_Exception e = true
}.

Inductive LogEntry :=
| Printed (line : string)
| Traceback (e : Exn).

Record World := mkWorld {
  fs : FS;
  (** temporary files requested so far *)
  tmp_seq : nat;
  (** what [print] and [traceback.print_exc] wrote, latest first *)
  log : list LogEntry;
  (** how many times the load routine executed the converter file as a
      module; its runs as a script in another process are not counted *)
  load_count : nat;
  (** [datetime.now()], in POSIX seconds *)
  now : Z
}.

Definition set_fs (f : FS -> FS) (w : World) : World :=
  mkWorld (f (fs w)) (tmp_seq w) (log w) (load_count w) (now w).

(** *** The monad of effectful Python code *)

Definition M (A : Type) : Type := World -> Result A * World.

Definition ret {A} (a : A) : M A := fun w => (Ok a, w).

Definition raise {A} (e : Exn) : M A := fun w => (Raise e, w).

Definition bind {A B} (m : M A) (k : A -> M B) : M B :=
  fun w =>
    match m w with
    | (Ok a, w1) => k a w1
    | (Raise e, w1) => (Raise e, w1)
    end.

Declare Scope py_scope.
Delimit Scope py_scope with py.
Notation "x <- m ;; k" := (bind m (fun x => k))
  (at level 100, m at next level, right associativity) : py_scope.
Notation "m ;; k" := (bind m (fun _ => k))
  (at level 100, right associativity) : py_scope.
Local Open Scope py_scope.

(** [try: body except Exception as e: handler e]: an exception that is
    not an instance of [Exception] goes through. *)
Definition try_except {A} (body : M A) (handler : Exn -> M A) : M A :=
  fun w =>
    match body w with
    | (Raise e, w1) => if is_Exception e then handler e w1 else (Raise e, w1)
    | r => r
    end.

(** [try: body except TypeError: handler]. *)
Definition try_except_TypeError {A} (body : M A) (handler : M A) : M A :=
  fun w =>
    match body w with
    | (Raise e, w1) => if is_TypeError e then handler w1 else (Raise e, w1)
    | r => r
    end.

(** [try: body finally: cleanup]. *)
Definition try_finally {A} (body : M A) (cleanup : M unit) : M A :=
  fun w =>
    let '(r, w1) := body w in
    match cleanup w1 with
    | (Ok _, w2) => (r, w2)
    | (Raise e, w2) => (Raise e, w2)
    end.

Definition get_fs : M FS := fun w => (Ok (fs w), w).

Definition print (line : string) : M unit :=
  fun w => (Ok tt, mkWorld (fs w) (tmp_seq w) (Printed line :: log w) (load_count w) (now w)).

Definition print_exc (e : Exn) : M unit :=
  fun w => (Ok tt, mkWorld (fs w) (tmp_seq w) (Traceback e :: log w) (load_count w) (now w)).

Definition datetime_now : M Z := fun w => (Ok (now w), w).

(* ===================================================================== *)
(** ** parrot/utils.py *)
(* ===================================================================== *)

Section Parrot.

Context {env : Env}.

Definition guess_mime_type (path : string) : string :=
  match guess_type path with
  | Some mime => if Py.truthy mime then mime else "application/octet-stream"
  | None => "application/octet-stream"
  end.

(** [datetime.utcfromtimestamp] raises outside the years 1..9999. *)
Definition utcfromtimestamp (t : Z) : Result Z :=
  if (-62135596800 <=? t) && (t <? 253402300800) then Ok t
  else Raise (ValueError "year is out of range").

(** [os.path.getmtime]. *)
Definition getmtime (fs : FS) (p : Path) : Result Z :=
  match stat fs p with
  | Some (Dir t) | Some (File _ t) => Ok t
  | None => Raise (OSError "No such file or directory")
  end.

Definition file_mtime (path : Path) : M (option Z) :=
  try_except
    (fs <- get_fs ;;
     match getmtime fs path with
     | Ok t => match utcfromtimestamp t with
               | Ok d => ret (Some d)
               | Raise e => raise e
               end
     | Raise e => raise e
     end)
    (fun _ => ret None).

Definition compute_etag_bytes (data : Py.bytes) : string :=
  Sha1.hexdigest data.

(* ===================================================================== *)
(** ** parrot/mml_adapter.py *)
(* ===================================================================== *)

(** How the operating system reads an absolute path string. *)
Definition os_path (s : string) : Path := resolve (absolute cwd s).

(** [open(path, "r", encoding="utf-8").read()]: bytes that are not
    well-formed UTF-8 raise [UnicodeDecodeError] (a [ValueError]), and
    the ends of lines are translated. *)
Definition read_text (path : string) : M string :=
  fun w =>
    match stat (fs w) (os_path path) with
    | Some (File content _) =>
        if Py.utf8_valid content
        then (Ok (Py.universal_newlines (Py.decode_utf8 content)), w)
        else (Raise (ValueError "'utf-8' codec can't decode byte: invalid start byte"), w)
    | Some (Dir _) => (Raise (OSError "Is a directory"), w)
    | None => (Raise (OSError "No such file or directory"), w)
    end.

(** [Path(path).unlink()]. *)
Definition unlink (path : string) : M unit :=
  fun w =>
    match stat (fs w) (os_path path) with
    | Some (File _ _) => (Ok tt, set_fs (delete (os_path path)) w)
    | Some (Dir _) => (Raise (OSError "Is a directory"), w)
    | None => (Raise (OSError "No such file or directory"), w)
    end.

(** [with NamedTemporaryFile("w+b", suffix=".html", delete=False) as tmp:
    tmp_path = tmp.name]: an empty file under a non-empty name that did
    not exist. *)
Definition NamedTemporaryFile : M string :=
  fun w =>
    match tmp_name (tmp_seq w) with
    | Some nm =>
        if negb (Py.truthy nm) || exists_ (fs w) (os_path nm)
        then (Raise (OSError "File exists"), w)
        else (Ok nm,
              mkWorld (<[os_path nm := File [] (now w)]> (fs w)) (S (tmp_seq w))
                      (log w) (load_count w) (now w))
    | None => (Raise (OSError "No usable temporary file name found"), w)
    end.

(** Calling an entry point with [(input_path, output_path)]. *)
Definition apply_effect (out : string) (eff : OutEffect) (w : World) : World :=
  match eff with
  | Untouched => w
  | Written data => set_fs (insert (os_path out) (File data (now w))) w
  | Removed => set_fs (delete (os_path out)) w
  end.

Definition py_call2 (fn : PyFunction) (a b : string) : M PyValue :=
  fun w => let '(r, eff) := call2 fn (fs w) a b in (r, apply_effect b eff w).

Definition py_call1 (fn : PyFunction) (a : string) : M PyValue :=
  fun w => (call1 fn (fs w) a, w).

Definition _load_converter_module : M (option PyModule) :=
  fs0 <- get_fs ;;
  if negb (exists_ fs0 CONVERTER_PATH) then
    print ("[parrot] mml_converter.py not found at " +:+ str CONVERTER_PATH) ;;
    ret None
  else
    try_except
      (fun w =>
         let w1 := mkWorld (fs w) (tmp_seq w) (log w) (S (load_count w)) (now w) in
         match exec_module (fs w) with
         | Ok module => (Ok (Some module), w1)
         | Raise e => (Raise e, w1)
         end)
      (fun e =>
         print ("[parrot] Failed to load mml_converter.py: " +:+ Exn_str e) ;;
         print_exc e ;;
         ret None).

Definition attempts (mml_path : string) : list (list string) :=
  [ [sys_executable; str CONVERTER_PATH; mml_path; "--stdout"];
    [sys_executable; str CONVERTER_PATH; mml_path; "-"];
    [sys_executable; str CONVERTER_PATH; mml_path] ].

(** One iteration of the loop of [_run_subprocess_and_capture]: [Some] is
    its [return], [None] goes on with the next command. *)
Definition subprocess_attempt (cmd : list string) : M (option string) :=
  try_except
    (fs0 <- get_fs ;;
     match subprocess_run fs0 cmd with
     | Raise e => raise e
     | Ok proc =>
         if (returncode proc =? 0) && Py.truthy (stdout proc)
            && Py.strip_truthy (stdout proc)
         then ret (Some (stdout proc))
         else
           (if Py.truthy (stderr proc)
            then print ("[parrot] converter stderr for " +:+ Py.join " " cmd
                        +:+ ":" +:+ String (ascii_of_nat 10) (stderr proc))
            else ret tt) ;;
           ret None
     end)
    (fun e =>
       print ("[parrot] subprocess attempt failed (" +:+ Py.join " " cmd
              +:+ "): " +:+ Exn_str e) ;;
       ret None).

Fixpoint run_attempts (cmds : list (list string)) : M (option string) :=
  match cmds with
  | [] => ret None
  | cmd :: rest =>
      r <- subprocess_attempt cmd ;;
      match r with
      | Some out => ret (Some out)
      | None => run_attempts rest
      end
  end.

Definition _run_subprocess_and_capture (mml_path : string) : M (option string) :=
  run_attempts (attempts mml_path).

Definition file_fn_candidates : list string :=
  ["compile_mml_to_html"; "convert_file"; "convert_mml_to_html"; "convert"].

(** [isinstance(ret, str) and ret.strip()], with the string it holds for. *)
Definition nonblank_str (v : PyValue) : option string :=
  match v with
  | VStr s => if Py.strip_truthy s then Some s else None
  | _ => None
  end.

(** The [try] block of one candidate, once the temporary file exists:
    [Some] is a [return], [None] falls out of the block. *)
Definition candidate_body (fn : PyFunction) (mml_path tmp_path : string)
  : M (option string) :=
  ret_ <- try_except_TypeError
            (py_call2 fn mml_path tmp_path)
            (try_except_TypeError (py_call1 fn mml_path) (ret VNone)) ;;
  match nonblank_str ret_ with
  | Some s => ret (Some s)
  | None =>
      try_except
        (data <- read_text tmp_path ;;
         if Py.truthy data && Py.strip_truthy data then ret (Some data) else ret None)
        (fun _ => ret None)
  end.

(** The [finally] clause: [if tmp_path: try unlink except: pass]. *)
Definition cleanup (tmp_path : option string) : M unit :=
  match tmp_path with
  | Some p => if Py.truthy p then try_except (unlink p) (fun _ => ret tt) else ret tt
  | None => ret tt
  end.

(** One callable candidate: the [try / except Exception / finally] of the
    loop body. [Some] is a [return] of the whole function, [None] moves
    on to the next candidate. *)
Definition candidate_attempt (fn_name : string) (fn : PyFunction) (mml_path : string)
  : M (option string) :=
  fun w =>
    let '(created, w1) := NamedTemporaryFile w in
    let tmp_path := match created with Ok p => Some p | Raise _ => None end in
    try_finally
      (try_except
         (match created with
          | Ok p => candidate_body fn mml_path p
          | Raise e => raise e
          end)
         (fun e =>
            print ("[parrot] Error when calling " +:+ fn_name +:+ ": " +:+ Exn_str e) ;;
            print_exc e ;;
            ret None))
      (cleanup tmp_path)
      w1.

Fixpoint try_candidates (module : PyModule) (names : list string) (mml_path : string)
  : M (option string) :=
  match names with
  | [] => ret None
  | fn_name :: rest =>
      match module fn_name with
      | Some (Callable fn) =>
          r <- candidate_attempt fn_name fn mml_path ;;
          match r with
          | Some html => ret (Some html)
          | None => try_candidates module rest mml_path
          end
      | _ => try_candidates module rest mml_path
      end
  end.

(** The content-based fallback: [Some] is its [return]. *)
Definition content_fallback (module : PyModule) (mml_path : string) : M (option string) :=
  match module "convert_mml_to_html" with
  | Some (Callable content_fn) =>
      try_except
        (mml_content <- read_text mml_path ;;
         ret_ <- py_call1 content_fn mml_content ;;
         ret (nonblank_str ret_))
        (fun e =>
           print ("[parrot] Fallback content conversion failed: " +:+ Exn_str e) ;;
           print_exc e ;;
           ret None)
  | _ => ret None
  end.

Definition convert_mml_file_to_html_string (mml_path : string) : M (option string) :=
  module <- _load_converter_module ;;
  match module with
  | None => _run_subprocess_and_capture mml_path
  | Some module =>
      r <- try_candidates module file_fn_candidates mml_path ;;
      match r with
      | Some html => ret (Some html)
      | None =>
          r <- content_fallback module mml_path ;;
          match r with
          | Some html => ret (Some html)
          | None => _run_subprocess_and_capture mml_path
          end
      end
  end.

(* ===================================================================== *)
(** ** parrot/static.py *)
(* ===================================================================== *)

(** The parts of an [aiohttp] request the handler reads. *)
Record Request := mkRequest {
  (** [request.match_info.get("tail")] *)
  match_tail : option string;
  (** [request.path] *)
  path : string;
  (** [request.headers], first value of a name wins *)
  req_headers : list (string * string)
}.

(** [headers.get(name)]. *)
Fixpoint headers_get (hs : list (string * string)) (name : string) : option string :=
  match hs with
  | [] => None
  | (k, v) :: rest => if String.eqb k name then Some v else headers_get rest name
  end.

(** The arguments a [web.Response] is built from. *)
Record Response := mkResponse {
  status : Z;
  text : option string;
  body : option Py.bytes;
  headers : list (string * string);
  content_type : option string
}.

(** The bytes a response sends. *)
Definition payload (r : Response) : Py.bytes :=
  match body r, text r with
  | Some b, _ => b
  | None, Some t => Py.encode_utf8 t
  | None, None => []
  end.

Definition read_file_bytes (p : Path) : M Py.bytes :=
  fun w =>
    match stat (fs w) p with
    | Some (File content _) => (Ok content, w)
    | Some (Dir _) => (Raise (OSError "Is a directory"), w)
    | None => (Raise (OSError "No such file or directory"), w)
    end.

Definition _serve_mml (mml_path : Path) (request : Request) : M Response :=
  html <- convert_mml_file_to_html_string (str mml_path) ;;
  match html with
  | None => ret (mkResponse 500 (Some "MML conversion failed") None [] None)
  | Some html =>
      let body_bytes := Py.encode_utf8 html in
      let etag := compute_etag_bytes body_bytes in
      mtime <- file_mtime mml_path ;;
      t <- match mtime with Some t => ret t | None => datetime_now end ;;
      let headers :=
        [ ("Content-Type", "text/html; charset=utf-8");
          ("ETag", etag);
          ("Cache-Control", "no-cache");
          ("Last-Modified", strftime t) ] in
      let if_none_match := headers_get (req_headers request) "If-None-Match" in
      if match if_none_match with
         | Some v => Py.truthy v && String.eqb v etag
         | None => false
         end
      then ret (mkResponse 304 None None headers None)
      else ret (mkResponse 200 None (Some body_bytes) headers None)
  end.

Definition _serve_file (p : Path) (request : Request) : M Response :=
  let mime := guess_mime_type (str p) in
  body_bytes <- read_file_bytes p ;;
  let etag := compute_etag_bytes body_bytes in
  let headers :=
    [ ("Content-Type", mime);
      ("ETag", etag);
      ("Cache-Control", "public, max-age=60") ] in
  if match headers_get (req_headers request) "If-None-Match" with
     | Some v => String.eqb v etag
     | None => false
     end
  then ret (mkResponse 304 None None headers None)
  else ret (mkResponse 200 None (Some body_bytes) headers None).

Definition dquote : string := String (ascii_of_nat 34) EmptyString.

(** The directory listing document. *)
Definition listing_body (request_path : string) (items : list string) : string :=
  "<html><body><h1>Directory listing for " +:+ request_path +:+ "</h1><ul>"
  +:+ Py.join EmptyString
        (map (fun name => "<li><a href=" +:+ dquote +:+ name +:+ dquote +:+ ">"
                          +:+ name +:+ "</a></li>") items)
  +:+ "</ul></body></html>".

Definition handle_static_request (request : Request) (filesystem_root : string)
    (enable_dir_listing : bool) : M Response :=
  let rel_url_path := default EmptyString (match_tail request) in
  let rel_url_path :=
    if String.eqb rel_url_path EmptyString then Py.lstrip_slash (path request)
    else rel_url_path in
  let root := resolve (absolute cwd filesystem_root) in
  let joined := resolve (truediv root rel_url_path) in
  if negb (Py.startswith (str joined) (str root)) then
    ret (mkResponse 403 (Some "Forbidden") None [] None)
  else
    fs0 <- get_fs ;;
    (* lines 69-83, on the final value of [joined] *)
    let finish (joined : Path) : M Response :=
      if String.eqb (suffix joined) ".mml" && exists_ fs0 joined then
        _serve_mml joined request
      else if exists_ fs0 joined && is_file fs0 joined then
        _serve_file joined request
      else
        (fix probe (exts : list string) : M Response :=
           match exts with
           | [] => ret (mkResponse 404 (Some "Not Found") None [] None)
           | ext :: rest =>
               match with_suffix joined ext with
               | None => raise (ValueError "path has an empty name")
               | Some p =>
                   if exists_ fs0 p then
                     if String.eqb ext ".mml" then _serve_mml p request
                     else _serve_file p request
                   else probe rest
               end
           end) [".mml"; ".html"] in
    (* lines 61-67 *)
    let bare (joined : Path) : M Response :=
      if String.eqb (suffix joined) EmptyString then
        match with_suffix joined ".mml", with_suffix joined ".html" with
        | Some mml_try, Some html_try =>
            if exists_ fs0 mml_try then _serve_mml mml_try request
            else if exists_ fs0 html_try then finish html_try
            else finish joined
        | _, _ => raise (ValueError "path has an empty name")
        end
      else finish joined in
    (* lines 44-59 *)
    if is_dir fs0 joined then
      match List.find (exists_ fs0) (map (truediv joined) ["index.mml"; "index.html"]) with
      | Some idx_path => bare idx_path
      | None =>
          if enable_dir_listing then
            let items :=
              map (fun p => name p +:+ (if is_dir fs0 p then "/" else EmptyString))
                  (iterdir fs0 joined) in
            ret (mkResponse 200 (Some (listing_body (path request) items)) None []
                            (Some "text/html"))
          else ret (mkResponse 404 (Some "Not Found") None [] None)
      end
    else bare joined.

End Parrot.

(* ===================================================================== *)
(** ** A concrete deployment, for the examples *)
(* ===================================================================== *)

Module Sample.

Definition sample_guess_type (p : string) : option string :=
  let ext := name_suffix p in
  if String.eqb ext ".html" then Some "text/html"
  else if String.eqb ext ".txt" then Some "text/plain"
  else if String.eqb ext ".css" then Some "text/css"
  else None.

Definition sample_strftime (t : Z) : string :=
  if t =? 0 then "Thu, 01 Jan 1970 00:00:00 GMT"
  else if t =? 86400 then "Fri, 02 Jan 1970 00:00:00 GMT"
  else "Sat, 03 Jan 1970 00:00:00 GMT".

(** A deployment with the converter at [/opt/parrot/mml_converter.py]. *)
Definition deployment (module : FS -> Result PyModule)
    (run : FS -> list string -> Result CompletedProcess)
    (run_raises : forall fs cmd e, run fs cmd = Raise e -> is_Exception e = true)
  : Env :=
  {| cwd := ["srv"];
     guess_type := sample_guess_type;
     strftime := sample_strftime;
     CONVERTER_PATH := ["opt"; "parrot"; "mml_converter.py"];
     sys_executable := "/usr/bin/python3";
     tmp_name := fun _ => Some "/tmp/tmpk3v9x1.html";
     exec_module := module;
     subprocess_run := run;
     subprocess_run_raises := run_raises |}.

Definition file_text (fs : FS) (p : string) : string :=
  match stat fs (resolve (parts_of p)) with
  | Some (File content _) => Py.decode_utf8 content
  | _ => EmptyString
  end.

(** A converter that only has the content-based function
    [convert_mml_to_html(text)]. *)
Definition content_only : PyModule :=
  fun name =>
    if String.eqb name "convert_mml_to_html" then
      Some (Callable
              {| call2 := fun _ _ _ =>
                   (Raise (TypeError "takes 1 positional argument but 2 were given"),
                    Untouched);
                 call1 := fun _ text => Ok (VStr ("<p>" +:+ text +:+ "</p>")) |})
    else None.

(** [compile_mml_to_html(input_path, output_path)], which writes the
    document to the output path and returns [None]. *)
Definition writer_fn : PyFunction :=
  {| call2 := fun fs inp _ =>
       (Ok VNone, Written (Py.encode_utf8 ("<p>" +:+ file_text fs inp +:+ "</p>")));
     call1 := fun _ _ => Raise (TypeError "missing 1 required positional argument") |}.

(** A converter that has only that function. *)
Definition file_writer : PyModule :=
  fun name =>
    if String.eqb name "compile_mml_to_html" then Some (Callable writer_fn) else None.

(** [convert(input_path)], which fails on every input. *)
Definition failing_fn : PyFunction :=
  {| call2 := fun _ _ _ =>
       (Raise (TypeError "takes 1 positional argument but 2 were given"), Untouched);
     call1 := fun _ _ => Raise (RuntimeError "parse error") |}.

(** A converter that has only that function. *)
Definition failing : PyModule :=
  fun name => if String.eqb name "convert" then Some (Callable failing_fn) else None.

(** [convert_file(input_path, output_path)], which returns the document
    and leaves the output path alone. *)
Definition returning_fn : PyFunction :=
  {| call2 := fun fs inp _ => (Ok (VStr ("<p>" +:+ file_text fs inp +:+ "</p>")), Untouched);
     call1 := fun _ _ => Raise (TypeError "missing 1 required positional argument") |}.

(** An entry point without parameters. *)
Definition nullary_fn : PyFunction :=
  {| call2 := fun _ _ _ =>
       (Raise (TypeError "takes 0 positional arguments but 2 were given"), Untouched);
     call1 := fun _ _ => Raise (TypeError "takes 0 positional arguments but 1 was given") |}.

(** An entry point that starts writing the output file and fails. *)
Definition crashing_fn : PyFunction :=
  {| call2 := fun _ _ _ =>
       (Raise (RuntimeError "parse error"), Written (Py.encode_utf8 "   "));
     call1 := fun _ _ => Raise (RuntimeError "parse error") |}.

Definition no_process (_ : FS) (_ : list string) : Result CompletedProcess :=
  Raise (OSError "No such file or directory").

(** A converter script that rejects [--stdout], hangs on [-] and prints
    the document when it is given the source alone. *)
Definition picky_process (fs : FS) (cmd : list string) : Result CompletedProcess :=
  match cmd with
  | [_; _; src; flag] =>
      if String.eqb flag "--stdout"
      then Ok (mkCompletedProcess 2 EmptyString "unrecognized arguments: --stdout")
      else Raise (RuntimeError "timed out after 10 seconds")
  | [_; _; src] => Ok (mkCompletedProcess 0 ("<p>" +:+ file_text fs src +:+ "</p>") EmptyString)
  | _ => Raise (OSError "No such file or directory")
  end.

Definition site : FS :=
  list_to_map
    [ (["srv"], Dir 0);
      (["srv"; "www"], Dir 0);
      (["srv"; "www"; "index.mml"], File (Py.encode_utf8 "home") 0);
      (["srv"; "www"; "index.html"], File (Py.encode_utf8 "<p>stale home</p>") 0);
      (["srv"; "www"; "foo.mml"], File (Py.encode_utf8 "hello") 86400);
      (["srv"; "www"; "foo.html"], File (Py.encode_utf8 "<p>stale</p>") 0);
      (["srv"; "www"; "docs"], Dir 0);
      (["srv"; "www"; "docs.mml"], File (Py.encode_utf8 "manual") 0);
      (["srv"; "www"; "docs.html"], File (Py.encode_utf8 "<p>old manual</p>") 0);
      (["srv"; "www"; "style.css"], File (Py.encode_utf8 "p { }") 0);
      (["srv"; "www2"], Dir 0);
      (["srv"; "www2"; "secret.txt"], File (Py.encode_utf8 "secret") 0);
      (["opt"; "parrot"; "mml_converter.py"], File (Py.encode_utf8 "# converter") 0) ].

Definition world0 : World := mkWorld site 0 [] 0 172800.

Definition get (url_tail : string) (hs : list (string * string)) : Request :=
  mkRequest (Some url_tail) ("/" +:+ url_tail) hs.

Definition no_process_raises (fs : FS) (cmd : list string) (e : Exn)
    (H : no_process fs cmd = Raise e) : is_Exception e = true :=
  match H in (_ = r) return (match r with Raise x => is_Exception x = true | Ok _ => True end)
  with eq_refl => eq_refl end.

Definition picky_process_raises (fs : FS) (cmd : list string) (e : Exn) :
  picky_process fs cmd = Raise e -> is_Exception e = true.
Proof.
  unfold picky_process.
  destruct cmd as [| a [| b [| c [| d [| x l]]]]];
    try (intros H; injection H as <-; reflexivity).
  - intros H; discriminate H.
  - destruct (String.eqb d "--stdout"); intros H;
      [discriminate H | injection H as <-; reflexivity].
Defined.

Definition env_content_only : Env :=
  deployment (fun _ => Ok content_only) no_process no_process_raises.
Definition env_file_writer : Env :=
  deployment (fun _ => Ok file_writer) no_process no_process_raises.
Definition env_failing : Env :=
  deployment (fun _ => Ok failing) no_process no_process_raises.
Definition env_script : Env :=
  deployment (fun _ => Raise (RuntimeError "cannot import")) picky_process
    picky_process_raises.

(** [convert(input_path, output_path)], which ends in [sys.exit(1)]. *)
Definition exiting_fn : PyFunction :=
  {| call2 := fun _ _ _ => (Raise (SystemExit "1"), Untouched);
     call1 := fun _ _ => Raise (SystemExit "1") |}.




End Sample.

(* ===================================================================== *)
(** ** Vocabulary of the specification *)
(* ===================================================================== *)

(** [m] never raises. *)
Definition safe {A} (m : M A) : Prop :=
  forall w, exists a, fst (m w) = Ok a.

(** Whatever [m] raises satisfies [P]. *)
Definition raises_only {A} (P : Exn -> Prop) (m : M A) : Prop :=
  forall w e, fst (m w) = Raise e -> P e.

(** The entry point [fn] raises [e] on the argument [arg], called with an
    output path or without one. *)
Definition raised_by (fn : PyFunction) (arg : string) (e : Exn) : Prop :=
  (exists f out eff, call2 fn f arg out = (Raise e, eff))
  \/ (exists f, call1 fn f arg = Raise e).

(** A function of [module] raises [e], outside [Exception]. *)
Definition module_exits (module : PyModule) (e : Exn) : Prop :=
  is_Exception e = false
  /\ exists name fn arg, module name = Some (Callable fn) /\ raised_by fn arg e.

(** Every run of [m] takes a world to an [R]-related one, whatever the
    result. *)
Definition frame (R : relation World) {A} (m : M A) : Prop :=
  forall w, R w (snd (m w)).

(** Every value [m] returns satisfies [P]. *)
Definition yields {A} (P : A -> Prop) (m : M A) : Prop :=
  forall w a, fst (m w) = Ok a -> P a.

(** A conversion outcome is [None] or a document that is not blank. *)
Definition nonblank_outcome (o : option string) : Prop :=
  forall html, o = Some html -> Py.strip_truthy html = true.

(** Nothing but the log and the temporary-file counter changed. *)
Definition same_files : relation World :=
  fun w w' => fs w' = fs w /\ load_count w' = load_count w /\ now w' = now w.

(** As [same_files], except for a regular file that may have appeared,
    changed or disappeared at [p]. *)
Definition tmp_only (p : Path) : relation World :=
  fun w w' =>
    delete p (fs w') = delete p (fs w)
    /\ (is_dir (fs w) p = false -> is_dir (fs w') p = false)
    /\ load_count w' = load_count w /\ now w' = now w.

(** When one subprocess attempt wins, in the words of the specification:
    it exits with status zero and its standard output is not blank. *)
Definition attempt_wins (r : Result CompletedProcess) : option string :=
  match r with
  | Ok proc =>
      if (returncode proc =? 0) && Py.strip_truthy (stdout proc)
      then Some (stdout proc) else None
  | Raise _ => None
  end.

(** The standard output of the first winning attempt. *)
Fixpoint first_success (outcomes : list (Result CompletedProcess)) : option string :=
  match outcomes with
  | [] => None
  | r :: rest =>
      match attempt_wins r with
      | Some out => Some out
      | None => first_success rest
      end
  end.

(** A single path component that names an entry: not empty, not ["."],
    not [".."], without a slash. *)
Fixpoint no_slash (s : string) : bool :=
  match s with
  | EmptyString => true
  | String c s' => negb (Ascii.eqb c "/") && no_slash s'
  end.

(** [p] is [root] or lies below it, component by component. *)
Fixpoint descendant_of (root p : Path) : bool :=
  match root, p with
  | [], _ => true
  | r :: root', c :: p' => String.eqb r c && descendant_of root' p'
  | _ :: _, [] => false
  end.

(** No component of the path is [".."]. *)
Definition clean (p : Path) : Prop := Forall (fun c => c <> "..") p.

Definition simple_name (s : string) : bool :=
  negb (String.eqb s EmptyString) && negb (String.eqb s ".")
  && negb (String.eqb s "..") && no_slash s.

Section Vocabulary.

Context {env : Env}.

(** The URL path the handler maps: the route's tail, or the request path
    without its leading slashes when the tail is empty. *)
Definition rel_url_path (request : Request) : string :=
  let tail := default EmptyString (match_tail request) in
  if String.eqb tail EmptyString then Py.lstrip_slash (path request) else tail.

(** The canonical root and the canonical join of the handler. *)
Definition root_of (filesystem_root : string) : Path :=
  resolve (absolute cwd filesystem_root).

Definition joined_of (request : Request) (filesystem_root : string) : Path :=
  resolve (truediv (root_of filesystem_root) (rel_url_path request)).

(** The code of the converter raises [e], outside [Exception]: when the
    file is executed as a module, or in a call of one of the functions of
    the module. *)
Definition converter_exits (f : FS) (e : Exn) : Prop :=
  is_Exception e = false
  /\ (exec_module f = Raise e
      \/ exists module, exec_module f = Ok module /\ module_exits module e).

(** [n] requests in a row, each served by [m]. *)
Fixpoint repeat_request {A} (m : M A) (n : nat) : M (list A) :=
  match n with
  | O => ret []
  | S k =>
      a <- m ;;
      rest <- repeat_request m k ;;
      ret (a :: rest)
  end.

(** Several calls of the conversion, one after the other, each with its
    outcome. *)
Fixpoint convert_each (paths : list string) (w : World)
  : list (Result (option string)) * World :=
  match paths with
  | [] => ([], w)
  | p :: rest =>
      let '(r, w1) := convert_mml_file_to_html_string p w in
      let '(rs, w2) := convert_each rest w1 in
      (r :: rs, w2)
  end.

(** The header set of a converted document. *)
Definition mml_headers (body_bytes : Py.bytes) (t : Z) : list (string * string) :=
  [ ("Content-Type", "text/html; charset=utf-8");
    ("ETag", compute_etag_bytes body_bytes);
    ("Cache-Control", "no-cache");
    ("Last-Modified", strftime t) ].

(** The header set of a static file. *)
Definition file_headers (p : Path) (body_bytes : Py.bytes) : list (string * string) :=
  [ ("Content-Type", guess_mime_type (str p));
    ("ETag", compute_etag_bytes body_bytes);
    ("Cache-Control", "public, max-age=60") ].

(** The time [_serve_mml] formats into [Last-Modified]: the modification
    time of the source when [file_mtime] has one, the clock otherwise. *)
Definition last_modified_time (w : World) (p : Path) : Z :=
  match getmtime (fs w) p with
  | Ok t => match utcfromtimestamp t with Ok d => d | Raise _ => now w end
  | Raise _ => now w
  end.

End Vocabulary.

(* ===================================================================== *)
(** ** parrot/static.py: streaming *)
(* ===================================================================== *)

Definition CHUNK_SIZE : nat := (64 * 1024)%nat.

(** A [web.StreamResponse] on its connection: the chunks written so far,
    whether the end of the body was sent, and how many more writes the
    transport takes before the client is gone ([None]: it stays). *)
Record StreamResponse := mkStreamResponse {
  sent : list Py.bytes;
  eof_sent : bool;
  writes_left : option nat
}.

(** [await response.write(chunk)]. *)
Definition response_write (response : StreamResponse) (chunk : Py.bytes)
  : Result StreamResponse :=
  match writes_left response with
  | Some O => Raise (OSError "Cannot write to closing transport")
  | Some (S k) =>
      Ok (mkStreamResponse (sent response ++ [chunk]) (eof_sent response) (Some k))
  | None =>
      Ok (mkStreamResponse (sent response ++ [chunk]) (eof_sent response) None)
  end.

(** [await response.write_eof()]. *)
Definition response_write_eof (response : StreamResponse) : Result StreamResponse :=
  match writes_left response with
  | Some O => Raise (OSError "Cannot write to closing transport")
  | Some (S k) => Ok (mkStreamResponse (sent response) true (Some k))
  | None => Ok (mkStreamResponse (sent response) true None)
  end.

(** The [while True] loop of [stream_file] over what is left of the open
    file; [f.read(CHUNK_SIZE)] takes the next bytes, at most [CHUNK_SIZE]
    of them. [None] is a loop that did not end within [fuel] rounds. *)
Fixpoint stream_loop (fuel : nat) (rest : Py.bytes) (response : StreamResponse)
  : option (Result unit * StreamResponse) :=
  match fuel with
  | O => None
  | S fuel' =>
      let chunk := firstn CHUNK_SIZE rest in
      match chunk with
      | [] => Some (Ok tt, response)
      | _ :: _ =>
          match response_write response chunk with
          | Raise e => Some (Raise e, response)
          | Ok response' => stream_loop fuel' (skipn CHUNK_SIZE rest) response'
          end
      end
  end.

(** [stream_file(response, path)]: the loop gets one round for each byte
    of the file and one for the empty read that ends it. *)
Definition stream_file (response : StreamResponse) (p : Path) (w : World)
  : option (Result unit * StreamResponse) :=
  match stat (fs w) p with
  | Some (File content _) =>
      match stream_loop (S (length content)) content response with
      | Some (Ok _, response') =>
          match response_write_eof response' with
          | Ok response'' => Some (Ok tt, response'')
          | Raise e => Some (Raise e, response')
          end
      | other => other
      end
  | Some (Dir _) => Some (Raise (OSError "Is a directory"), response)
  | None => Some (Raise (OSError "No such file or directory"), response)
  end.

(** The chunks a body of bytes is cut into: [size] bytes each, the last
    one possibly shorter. *)
Fixpoint chunks_of (fuel size : nat) (data : Py.bytes) : list Py.bytes :=
  match fuel with
  | O => []
  | S fuel' =>
      match firstn size data with
      | [] => []
      | chunk => chunk :: chunks_of fuel' size (skipn size data)
      end
  end.

Definition file_chunks (content : Py.bytes) : list Py.bytes :=
  chunks_of (S (length content)) CHUNK_SIZE content.

(* ===================================================================== *)
(** ** The resolver of [handle_static_request], as a function *)
(* ===================================================================== *)

(** What answers a request. *)
Inductive Target :=
| Forbidden
| NotFound
| Listing (items : list string)
| Converted (p : Path)
| StaticFile (p : Path)
| Fault (e : Exn).

(** A component of a real path: not empty and without a slash. *)
Definition part_ok (c : string) : Prop :=
  c <> EmptyString /\ no_slash c = true.

Section Resolver.

Context {env : Env}.

(** Lines 75-83: the [.mml] sibling, then the [.html] sibling. *)
Definition probe_siblings (fs : FS) (p : Path) : Target :=
  match with_suffix p ".mml" with
  | None => Fault (ValueError "path has an empty name")
  | Some m =>
      if exists_ fs m then Converted m
      else match with_suffix p ".html" with
           | None => Fault (ValueError "path has an empty name")
           | Some h => if exists_ fs h then StaticFile h else NotFound
           end
  end.

(** Lines 69-83. *)
Definition resolve_candidate (fs : FS) (p : Path) : Target :=
  if String.eqb (suffix p) ".mml" && exists_ fs p then Converted p
  else if exists_ fs p && is_file fs p then StaticFile p
  else probe_siblings fs p.

(** Lines 61-83. *)
Definition resolve_bare (fs : FS) (p : Path) : Target :=
  if String.eqb (suffix p) EmptyString then
    match with_suffix p ".mml", with_suffix p ".html" with
    | Some mml_try, Some html_try =>
        if exists_ fs mml_try then Converted mml_try
        else if exists_ fs html_try then resolve_candidate fs html_try
        else resolve_candidate fs p
    | _, _ => Fault (ValueError "path has an empty name")
    end
  else resolve_candidate fs p.

(** The items of a directory listing. *)
Definition listing_items (fs : FS) (p : Path) : list string :=
  map (fun q => name q +:+ (if is_dir fs q then "/" else EmptyString)) (iterdir fs p).

Definition resolve_target (request : Request) (filesystem_root : string)
    (enable_dir_listing : bool) (fs : FS) : Target :=
  let root := root_of filesystem_root in
  let joined := joined_of request filesystem_root in
  if negb (Py.startswith (str joined) (str root)) then Forbidden
  else if is_dir fs joined then
    if exists_ fs (joined ++ ["index.mml"]) then resolve_bare fs (joined ++ ["index.mml"])
    else if exists_ fs (joined ++ ["index.html"])
         then resolve_bare fs (joined ++ ["index.html"])
    else if enable_dir_listing then Listing (listing_items fs joined)
    else NotFound
  else resolve_bare fs joined.

(** The response to a resolved request. *)
Definition answer (t : Target) (request : Request) : M Response :=
  match t with
  | Forbidden => ret (mkResponse 403 (Some "Forbidden") None [] None)
  | NotFound => ret (mkResponse 404 (Some "Not Found") None [] None)
  | Listing items =>
      ret (mkResponse 200 (Some (listing_body (path request) items)) None []
                      (Some "text/html"))
  | Converted p => _serve_mml p request
  | StaticFile p => _serve_file p request
  | Fault e => raise e
  end.

End Resolver.

(* ===================================================================== *)
(** ** parrot/server.py *)
(* ===================================================================== *)

Module Server.

(** What [aiohttp] can send back: a [web.Response], or a
    [web.FileResponse] for a path (both are [web.StreamResponse]s). *)
Inductive WebResponse :=
| Plain (r : Response)
| FileResponse (file_path : Path).

(** What a route handler does: it returns a response, returns some other
    value (given by its [str()]), raises a [web.HTTPException] with a
    status, or raises another exception. *)
Inductive HandlerOutcome :=
| ReturnsResponse (r : WebResponse)
| ReturnsValue (repr : string)
| RaisesHTTP (http_status : Z)
| RaisesError (e : Exn).

(** [HandlerType]: called with [(method, path, request)]. *)
Definition HandlerType : Type :=
  string -> string -> Request -> World -> HandlerOutcome * World.

Record HTTPServer := mkHTTPServer {
  host : string;
  port : Z;
  root : Path;
  enable_dir_listing : bool;
  _routes : gmap string HandlerType
}.

(** A request with its method; HTTP methods are ASCII tokens. *)
Record HttpRequest := mkHttpRequest {
  method : string;
  request : Request
}.

(** What leaves [_catch_all]: a response, or an exception on its way to
    [aiohttp]. *)
Inductive Outcome :=
| Responded (r : WebResponse)
| PropagatedHTTP (http_status : Z)
| Propagated (e : Exn).

(** [c.upper()] on an ASCII character. *)
Definition upper_char (c : ascii) : ascii :=
  let n := nat_of_ascii c in
  if (97 <=? n)%nat && (n <=? 122)%nat then ascii_of_nat (n - 32) else c.

Fixpoint upper (s : string) : string :=
  match s with
  | EmptyString => EmptyString
  | String c s' => String (upper_char c) (upper s')
  end.

(** [logger.info(msg)], with the format ["[parrot] %(message)s"]. *)
Definition logger_info (msg : string) : M unit := print ("[parrot] " +:+ msg).

(** [logger.exception(msg)] inside an [except] block. *)
Definition logger_exception (msg : string) (e : Exn) : M unit :=
  bind (print ("[parrot] " +:+ msg)) (fun _ => print_exc e).

Definition default_methods : list string :=
  ["GET"; "POST"; "PUT"; "DELETE"; "PATCH"; "OPTIONS"].

Section WithEnv.

Context {env : Env}.

(** [HTTPServer(host, port, root, enable_dir_listing)]. *)
Definition __init__ (host : string) (port : Z) (root : string)
    (enable_dir_listing : bool) : M HTTPServer :=
  let self_root := resolve (absolute cwd root) in
  let self := mkHTTPServer host port self_root enable_dir_listing ∅ in
  bind (logger_info ("Parrot root set to " +:+ str self_root))
       (fun _ => ret self).

(** [@server.route(path, methods)] applied to [fn]: the server with the
    handler registered. *)
Definition route (self : HTTPServer) (path : string) (methods : option (list string))
    (fn : HandlerType) : M HTTPServer :=
  let methods :=
    match methods with
    | Some (m :: ms) => m :: ms
    | _ => default_methods
    end in
  let self' := mkHTTPServer (host self) (port self) (root self)
                            (enable_dir_listing self) (<[path := fn]> (_routes self)) in
  bind (logger_info ("Registered route " +:+ path +:+ " ["
                     +:+ Py.join "," methods +:+ "]"))
       (fun _ => ret self').

Definition _catch_all (self : HTTPServer) (req : HttpRequest) : World -> Outcome * World :=
  fun w =>
    let path := path (request req) in
    let method := upper (method req) in
    match _routes self !! path with
    | Some handler =>
        match handler method path (request req) w with
        | (ReturnsResponse r, w1) => (Responded r, w1)
        | (ReturnsValue repr, w1) =>
            (Responded (Plain (mkResponse 200 (Some repr) None [] None)), w1)
        | (RaisesHTTP st, w1) => (PropagatedHTTP st, w1)
        | (RaisesError e, w1) =>
            if is_Exception e then
              match logger_exception "Route handler error" e w1 with
              | (_, w2) =>
                  (Responded (Plain (mkResponse 500 (Some "Internal Server Error")
                                                None [] None)), w2)
              end
            else (Propagated e, w1)
        end
    | None =>
        match handle_static_request (request req) (str (root self))
                (enable_dir_listing self) w with
        | (Ok r, w1) => (Responded (Plain r), w1)
        | (Raise e, w1) => (Propagated e, w1)
        end
    end.




End WithEnv.

End Server.

(** A server with four routes: one answers with a response, one returns
    the method it was called with, one fails and one redirects. *)
Module SampleServer.

Definition pong : Response :=
  mkResponse 200 (Some "{}") None [] (Some "application/json").

Definition ping : Server.HandlerType :=
  fun _ _ _ w => (Server.ReturnsResponse (Server.Plain pong), w).

Definition broken : Server.HandlerType :=
  fun _ _ _ w => (Server.RaisesError (RuntimeError "boom"), w).

Definition echo_method : Server.HandlerType :=
  fun method _ _ w => (Server.ReturnsValue method, w).

Definition redirect : Server.HandlerType :=
  fun _ _ _ w => (Server.RaisesHTTP 302, w).

Definition server : Server.HTTPServer :=
  Server.mkHTTPServer "127.0.0.1" 8080 ["srv"; "www"] false
    (<["/api/ping" := ping]> (<["/style.css" := echo_method]>
       (<["/broken" := broken]> (<["/old" := redirect]> ∅)))).

End SampleServer.

(** What follows the first component in the string of a path. *)
Definition path_tail (q : list string) : string :=
  match q with
  | [] => EmptyString
  | _ :: _ => "/" +:+ String.concat "/" q
  end.

(** [joined] lies below a sibling of [root] whose name extends the name
    of [root]. *)
Definition name_extension (root joined : Path) : Prop :=
  exists parent r y q,
    y <> EmptyString /\ root = parent ++ [r] /\ joined = parent ++ (r +:+ y) :: q.

(** A second site: a directory whose name ends in [.html], an
    extensionless file with and without an [.html] sibling, and a
    directory without an index. *)
Module SampleTree.

Definition tree : FS :=
  list_to_map
    [ (["srv"], Dir 0);
      (["srv"; "www"], Dir 0);
      (["srv"; "www"; "pics.html"], Dir 0);
      (["srv"; "www"; "pics.html"; "cat.png"], File (Py.encode_utf8 "png") 0);
      (["srv"; "www"; "notes"], File (Py.encode_utf8 "plain notes") 0);
      (["srv"; "www"; "notes.html"], File (Py.encode_utf8 "<p>notes</p>") 0);
      (["srv"; "www"; "LICENSE"], File (Py.encode_utf8 "MIT") 0);
      (["srv"; "www"; "page.mml"], File (Py.encode_utf8 "page") 0);
      (["srv"; "www"; "page.txt"], File (Py.encode_utf8 "text") 0);
      (["srv"; "www"; "assets"], Dir 0);
      (["srv"; "www"; "assets"; "img"], Dir 0);
      (["srv"; "www"; "assets"; "app.js"], File (Py.encode_utf8 "void 0") 0) ].

Definition world1 : World := mkWorld tree 0 [] 0 172800.

End SampleTree.

(** A lowercase hexadecimal digit. *)
Definition is_hex_digit (c : ascii) : bool :=
  let n := nat_of_ascii c in
  ((48 <=? n)%nat && (n <=? 57)%nat) || ((97 <=? n)%nat && (n <=? 102)%nat).

(* ===================================================================== *)
(** ** Test vectors *)
(* ===================================================================== *)

Example sha1_empty :
  Sha1.hexdigest [] = "da39a3ee5e6b4b0d3255bfef95601890afd80709".
Proof. vm_compute. reflexivity. Qed.

Example sha1_abc :
  Sha1.hexdigest (Py.encode_utf8 "abc") = "a9993e364706816aba3e25717850c26c9cd0d89d".
Proof. vm_compute. reflexivity. Qed.

Example sha1_two_blocks :
  Sha1.hexdigest
    (Py.encode_utf8 "abcdbcdecdefdefgefghfghighijhijkijkljklmklmnlmnomnopnopq")
  = "84983e441c3bd26ebaae4aa1f95129e5e54670f1".
Proof. vm_compute. reflexivity. Qed.

Example resolve_dotdot :
  resolve (truediv ["srv"; "www"] "../www2/./a//b.txt") = ["srv"; "www2"; "a"; "b.txt"].
Proof. vm_compute. reflexivity. Qed.

Example with_suffix_replaces_last :
  with_suffix ["srv"; "foo.tar.gz"] ".mml" = Some ["srv"; "foo.tar.mml"].
Proof. vm_compute. reflexivity. Qed.

Example suffix_of_dotted_names :
  map (fun nm => (name_suffix nm, with_suffix ["srv"; nm] ".mml"))
      ["a..b"; "..x"; "x.."; "foo"]
  = [ (".b", Some ["srv"; "a..mml"]);
      (".x", Some ["srv"; "..mml"]);
      (EmptyString, Some ["srv"; "x...mml"]);
      (EmptyString, Some ["srv"; "foo.mml"]) ].
Proof. vm_compute. reflexivity. Qed.

Example with_suffix_of_the_root : with_suffix [] ".mml" = None.
Proof. reflexivity. Qed.

Example absolute_operand_replaces_root :
  resolve (truediv ["srv"; "www"] "/etc/passwd") = ["etc"; "passwd"].
Proof. vm_compute. reflexivity. Qed.

Example dotdot_stops_at_the_root :
  resolve (truediv [] "../../x") = ["x"].
Proof. vm_compute. reflexivity. Qed.

Example blank_strings :
  map Py.strip_truthy
      [ EmptyString; "   ";
        String (ascii_of_nat 9) (String (ascii_of_nat 10) (String (ascii_of_nat 31) " "));
        String (ascii_of_nat 194) (String (ascii_of_nat 160) EmptyString);
        " x "; String (ascii_of_nat 194) (String (ascii_of_nat 161) EmptyString) ]
  = [false; false; false; false; true; true].
Proof. vm_compute. reflexivity. Qed.

Example suffix_edge_cases :
  (suffix ["a"; ".bashrc"], suffix ["a"; "x."], suffix ["b.c"], str [], str ["a"; "b"])
  = (EmptyString, EmptyString, ".c", "/", "/a/b").
Proof. vm_compute. reflexivity. Qed.

(* ===================================================================== *)
(** ** Lemmas on the monad *)
(* ===================================================================== *)

Lemma truthy_hexdigest (data : Py.bytes) :
  Py.truthy (Sha1.hexdigest data) = true.
Proof. reflexivity. Qed.

Lemma strip_truthy_truthy (s : string) :
  Py.strip_truthy s = true -> Py.truthy s = true.
Proof. destruct s; [discriminate | reflexivity]. Qed.

Section SafeLemmas.

Context {A B : Type}.

Lemma safe_ret (a : A) : safe (ret a).
Proof. intros w. exists a. reflexivity. Qed.

Lemma safe_bind (m : M A) (k : A -> M B) :
  safe m -> (forall a, safe (k a)) -> safe (bind m k).
Proof.
  intros Hm Hk w. unfold bind.
  destruct (Hm w) as [a Ha]. destruct (m w) as [r w1]. simpl in Ha. subst r.
  apply Hk.
Qed.

Lemma safe_try_except (body : M A) (handler : Exn -> M A) :
  raises_only (fun e => is_Exception e = true) body ->
  (forall e, safe (handler e)) -> safe (try_except body handler).
Proof.
  intros Hb Hh w. unfold try_except. specialize (Hb w).
  destruct (body w) as [[a | e] w1]; [exists a; reflexivity |].
  rewrite (Hb e eq_refl). apply Hh.
Qed.

Lemma safe_try_except_TypeError (body handler : M A) :
  safe body -> safe (try_except_TypeError body handler).
Proof.
  intros Hb w. unfold try_except_TypeError.
  destruct (Hb w) as [a Ha]. destruct (body w) as [r w1]. simpl in Ha. subst r.
  exists a. reflexivity.
Qed.

Lemma safe_try_finally (body : M A) (cleanup : M unit) :
  safe body -> safe cleanup -> safe (try_finally body cleanup).
Proof.
  intros Hb Hc w. unfold try_finally.
  destruct (Hb w) as [a Ha]. destruct (body w) as [r w1]. simpl in Ha. subst r.
  destruct (Hc w1) as [u Hu]. destruct (cleanup w1) as [r2 w2]. simpl in Hu. subst r2.
  exists a. reflexivity.
Qed.

End SafeLemmas.

Section RaisesLemmas.

Context {A B : Type}.

Lemma raises_only_ret (P : Exn -> Prop) (a : A) : raises_only P (ret a).
Proof. intros w e E. discriminate E. Qed.

Lemma raises_only_safe (P : Exn -> Prop) (m : M A) : safe m -> raises_only P m.
Proof. intros Hs w e E. destruct (Hs w) as [a Ha]. congruence. Qed.

Lemma safe_raises_only (m : M A) : raises_only (fun _ => False) m -> safe m.
Proof.
  intros H w. specialize (H w). destruct (m w) as [[a | e] w1]; simpl in *.
  - exists a. reflexivity.
  - destruct (H e eq_refl).
Qed.

Lemma raises_only_weaken (P Q : Exn -> Prop) (m : M A) :
  (forall e, P e -> Q e) -> raises_only P m -> raises_only Q m.
Proof. intros HPQ Hm w e E. apply HPQ, (Hm w e E). Qed.

Lemma raises_only_bind (P : Exn -> Prop) (m : M A) (k : A -> M B) :
  raises_only P m -> (forall a, raises_only P (k a)) -> raises_only P (bind m k).
Proof.
  intros Hm Hk w e. unfold bind. specialize (Hm w).
  destruct (m w) as [[a | e0] w1]; simpl in *.
  - apply Hk.
  - intros [= <-]. apply Hm. reflexivity.
Qed.

(** What leaves [try ... except Exception] is what the body raised outside
    [Exception], when the handler does not raise. *)
Lemma raises_only_try_except (P : Exn -> Prop) (body : M A) (handler : Exn -> M A) :
  raises_only P body -> (forall e, safe (handler e)) ->
  raises_only (fun e => P e /\ is_Exception e = false) (try_except body handler).
Proof.
  intros Hb Hh w e. unfold try_except. specialize (Hb w).
  destruct (body w) as [[a | e0] w1]; simpl in *; [intros E; discriminate E |].
  destruct (is_Exception e0) eqn:He.
  - destruct (Hh e0 w1) as [a Ha]. congruence.
  - intros [= <-]. split; [apply Hb; reflexivity | exact He].
Qed.

Lemma raises_only_try_except_TypeError (P : Exn -> Prop) (body handler : M A) :
  raises_only P body -> raises_only P handler ->
  raises_only P (try_except_TypeError body handler).
Proof.
  intros Hb Hh w e. unfold try_except_TypeError. specialize (Hb w).
  destruct (body w) as [[a | e0] w1]; simpl in *; [intros E; discriminate E |].
  destruct (is_TypeError e0); [apply Hh |].
  intros [= <-]. apply Hb. reflexivity.
Qed.

Lemma raises_only_try_finally (P : Exn -> Prop) (body : M A) (cleanup : M unit) :
  raises_only P body -> safe cleanup -> raises_only P (try_finally body cleanup).
Proof.
  intros Hb Hc w e. unfold try_finally. specialize (Hb w).
  destruct (body w) as [r w1]. destruct (Hc w1) as [u Hu].
  destruct (cleanup w1) as [[u' | e'] w2]; simpl in *; [| discriminate Hu].
  apply Hb.
Qed.

End RaisesLemmas.

Section YieldsLemmas.

Context {A B : Type}.

Lemma yields_ret (P : A -> Prop) (a : A) : P a -> yields P (ret a).
Proof. intros H w a' E. simpl in E. congruence. Qed.

Lemma yields_raise (P : A -> Prop) (e : Exn) : yields P (raise e).
Proof. intros w a E. simpl in E. discriminate E. Qed.

Lemma yields_bind (P : B -> Prop) (m : M A) (k : A -> M B) :
  (forall a, yields P (k a)) -> yields P (bind m k).
Proof.
  intros Hk w b. unfold bind.
  destruct (m w) as [[a | e] w1]; [apply Hk | intros E; discriminate E].
Qed.

Lemma yields_try_except (P : A -> Prop) (body : M A) (handler : Exn -> M A) :
  yields P body -> (forall e, yields P (handler e)) ->
  yields P (try_except body handler).
Proof.
  intros Hb Hh w a. unfold try_except. specialize (Hb w).
  destruct (body w) as [[a1 | e] w1]; [apply Hb |].
  destruct (is_Exception e); [apply Hh | intros E; discriminate E].
Qed.

Lemma yields_try_finally (P : A -> Prop) (body : M A) (cleanup : M unit) :
  yields P body -> yields P (try_finally body cleanup).
Proof.
  intros Hb w a. unfold try_finally. specialize (Hb w).
  destruct (body w) as [r w1]. destruct (cleanup w1) as [[u | e] w2]; simpl in *.
  - apply Hb.
  - intros E; discriminate E.
Qed.

End YieldsLemmas.

Lemma safe_print (line : string) : safe (print line).
Proof. intros w. exists tt. reflexivity. Qed.

Lemma safe_print_exc (e : Exn) : safe (print_exc e).
Proof. intros w. exists tt. reflexivity. Qed.

Section FrameLemmas.

Context (R : relation World) `{!Reflexive R, !Transitive R}.
Context {A B : Type}.

Lemma frame_ret (a : A) : frame R (ret a).
Proof. intros w. simpl. reflexivity. Qed.

Lemma frame_raise (e : Exn) : frame R (@raise A e).
Proof. intros w. simpl. reflexivity. Qed.

Lemma frame_bind (m : M A) (k : A -> M B) :
  frame R m -> (forall a, frame R (k a)) -> frame R (bind m k).
Proof.
  intros Hm Hk w. unfold bind. specialize (Hm w).
  destruct (m w) as [[a | e] w1]; simpl in *; [| assumption].
  etransitivity; [eassumption | apply Hk].
Qed.

Lemma frame_try_except (body : M A) (handler : Exn -> M A) :
  frame R body -> (forall e, frame R (handler e)) -> frame R (try_except body handler).
Proof.
  intros Hb Hh w. unfold try_except. specialize (Hb w).
  destruct (body w) as [[a | e] w1]; simpl in *; [assumption |].
  destruct (is_Exception e); simpl; [| assumption].
  etransitivity; [eassumption | apply Hh].
Qed.

Lemma frame_try_except_TypeError (body handler : M A) :
  frame R body -> frame R handler -> frame R (try_except_TypeError body handler).
Proof.
  intros Hb Hh w. unfold try_except_TypeError. specialize (Hb w).
  destruct (body w) as [[a | e] w1]; simpl in *; [assumption |].
  destruct (is_TypeError e); simpl; [| assumption].
  etransitivity; [eassumption | apply Hh].
Qed.

Lemma frame_try_finally (body : M A) (cleanup : M unit) :
  frame R body -> frame R cleanup -> frame R (try_finally body cleanup).
Proof.
  intros Hb Hc w. unfold try_finally. specialize (Hb w).
  destruct (body w) as [r w1]. specialize (Hc w1).
  destruct (cleanup w1) as [[u | e] w2]; simpl in *;
    (etransitivity; [eassumption | assumption]).
Qed.

End FrameLemmas.

#[local] Instance same_files_refl : Reflexive same_files.
Proof. intros w. unfold same_files. auto. Qed.

#[local] Instance same_files_trans : Transitive same_files.
Proof. intros a b c (? & ? & ?) (? & ? & ?). unfold same_files. repeat split; congruence. Qed.

#[local] Instance tmp_only_refl p : Reflexive (tmp_only p).
Proof. intros w. unfold tmp_only. auto. Qed.

#[local] Instance tmp_only_trans p : Transitive (tmp_only p).
Proof.
  intros a b c (? & ? & ? & ?) (? & ? & ? & ?). unfold tmp_only.
  repeat split; try congruence. auto.
Qed.

Lemma same_files_tmp_only p w w' : same_files w w' -> tmp_only p w w'.
Proof.
  intros (Hfs & ? & ?). unfold tmp_only. rewrite Hfs. auto.
Qed.

(* ===================================================================== *)
(** ** The adapter: what each step does to the world *)
(* ===================================================================== *)

Lemma safe_frame_run {A} (R : relation World) (m : M A) :
  safe m -> frame R m ->
  forall w, exists a w', m w = (Ok a, w') /\ R w w'.
Proof.
  intros Hs Hf w. destruct (Hs w) as [a Ha]. specialize (Hf w).
  destruct (m w) as [r w']. simpl in *. subst r. eauto.
Qed.

Lemma frame_unchanged {A} (R : relation World) `{!Reflexive R} (m : M A) :
  (forall w, snd (m w) = w) -> frame R m.
Proof. intros H w. rewrite H. reflexivity. Qed.

Lemma stat_nonroot (f : FS) (p : Path) : p <> [] -> stat f p = f !! p.
Proof. destruct p; [congruence | reflexivity]. Qed.

Lemma exists_false_lookup (f : FS) (p : Path) :
  exists_ f p = false -> p <> [] /\ f !! p = None.
Proof.
  unfold exists_, stat. destruct p as [| c p]; [intros H; discriminate H |].
  destruct (lookup _ f); intros H; [discriminate H | split; [discriminate | reflexivity]].
Qed.

Lemma is_dir_insert_file (f : FS) (p : Path) data t :
  is_dir f p = false -> is_dir (<[p := File data t]> f) p = false.
Proof.
  unfold is_dir. destruct p as [| c p]; simpl; [auto |].
  rewrite lookup_insert_eq. reflexivity.
Qed.

Lemma is_dir_delete (f : FS) (p : Path) :
  is_dir f p = false -> is_dir (delete p f) p = false.
Proof.
  unfold is_dir. destruct p as [| c p]; simpl; [auto |].
  rewrite lookup_delete_eq. reflexivity.
Qed.

Lemma frame_print_same line : frame same_files (print line).
Proof. intros w. unfold same_files. simpl. auto. Qed.

Lemma frame_print_exc_same e : frame same_files (print_exc e).
Proof. intros w. unfold same_files. simpl. auto. Qed.

Section AdapterLemmas.

Context {env : Env}.

Lemma read_text_unchanged path w : snd (read_text path w) = w.
Proof.
  unfold read_text. destruct (stat (fs w) (os_path path)) as [[|] |]; try reflexivity.
  destruct (Py.utf8_valid _); reflexivity.
Qed.

Lemma read_text_raises path :
  raises_only (fun e => is_Exception e = true) (read_text path).
Proof.
  intros w e. unfold read_text.
  destruct (stat (fs w) (os_path path)) as [[|] |]; simpl;
    try (intros [= <-]; reflexivity).
  destruct (Py.utf8_valid _); simpl; [intros E; discriminate E |].
  intros [= <-]. reflexivity.
Qed.

Lemma unlink_raises path :
  raises_only (fun e => is_Exception e = true) (unlink path).
Proof.
  intros w e. unfold unlink.
  destruct (stat (fs w) (os_path path)) as [[|] |]; simpl;
    intros [= <-]; reflexivity.
Qed.

(** Reading the output file back never raises past its [except]. *)
Lemma safe_read_output tmp_path :
  safe (try_except
          (data <- read_text tmp_path ;;
           if Py.truthy data && Py.strip_truthy data then ret (Some data) else ret None)
          (fun _ => ret None)).
Proof.
  apply safe_try_except; [| intros e; apply safe_ret].
  apply raises_only_bind; [apply read_text_raises |].
  intros data. destruct (Py.truthy data && Py.strip_truthy data); apply raises_only_ret.
Qed.

Lemma frame_py_call2 fn a b : frame (tmp_only (os_path b)) (py_call2 fn a b).
Proof.
  intros w. unfold py_call2. destruct (call2 fn (fs w) a b) as [r eff]. simpl.
  destruct eff; simpl; unfold tmp_only; simpl.
  - auto.
  - rewrite delete_insert_eq. split; [reflexivity |].
    split; [apply is_dir_insert_file | auto].
  - rewrite delete_delete_eq. split; [reflexivity |].
    split; [apply is_dir_delete | auto].
Qed.

Lemma frame_unlink p : frame (tmp_only (os_path p)) (unlink p).
Proof.
  intros w. unfold unlink.
  destruct (stat (fs w) (os_path p)) as [[|]|]; simpl; try reflexivity.
  unfold tmp_only. simpl. rewrite delete_delete_eq.
  split; [reflexivity |]. split; [apply is_dir_delete | auto].
Qed.

Lemma frame_candidate_body fn mml_path tmp_path :
  frame (tmp_only (os_path tmp_path)) (candidate_body fn mml_path tmp_path).
Proof.
  unfold candidate_body.
  apply frame_bind; [apply _ | |].
  - apply frame_try_except_TypeError; [apply _ | apply frame_py_call2 |].
    apply frame_try_except_TypeError; [apply _ | | apply frame_ret; apply _].
    apply frame_unchanged; [apply _ | reflexivity].
  - intros v. destruct (nonblank_str v); [apply frame_ret; apply _ |].
    apply frame_try_except; [apply _ | | intros; apply frame_ret; apply _].
    apply frame_unchanged; [apply _ |]. intros w. unfold bind.
    pose proof (read_text_unchanged tmp_path w) as H.
    destruct (read_text tmp_path w) as [[data | e] w1]; simpl in *; subst; [| reflexivity].
    destruct (Py.truthy data && Py.strip_truthy data); reflexivity.
Qed.

Lemma safe_cleanup tmp_path : safe (cleanup tmp_path).
Proof.
  unfold cleanup. destruct tmp_path as [p |]; [| apply safe_ret].
  destruct (Py.truthy p); [| apply safe_ret].
  apply safe_try_except; [apply unlink_raises | intros e; apply safe_ret].
Qed.

(** The body of a candidate raises only what the entry point raises. *)
Lemma raises_candidate_body fn mml_path tmp_path :
  raises_only (raised_by fn mml_path) (candidate_body fn mml_path tmp_path).
Proof.
  unfold candidate_body. apply raises_only_bind.
  - apply raises_only_try_except_TypeError.
    + intros w e. unfold py_call2.
      destruct (call2 fn (fs w) mml_path tmp_path) as [r eff] eqn:Hc. simpl.
      intros ->. left. eauto.
    + apply raises_only_try_except_TypeError; [| apply raises_only_ret].
      intros w e. unfold py_call1. simpl. intros Hc. right. eauto.
  - intros v. destruct (nonblank_str v); [apply raises_only_ret |].
    apply raises_only_safe, safe_read_output.
Qed.

Lemma safe_candidate_handler fn_name (e : Exn) :
  safe (print ("[parrot] Error when calling " +:+ fn_name +:+ ": " +:+ Exn_str e) ;;
        print_exc e ;; ret (@None string)).
Proof.
  apply safe_bind; [apply safe_print |]. intros _.
  apply safe_bind; [apply safe_print_exc |]. intros _. apply safe_ret.
Qed.

(** A candidate attempt raises only what its entry point raised outside
    [Exception]. *)
Lemma raises_candidate_attempt fn_name fn mml_path :
  raises_only (fun e => raised_by fn mml_path e /\ is_Exception e = false)
              (candidate_attempt fn_name fn mml_path).
Proof.
  intros w. unfold candidate_attempt.
  pose proof (fun e (H : fst (NamedTemporaryFile w) = Raise e) => H) as Hc.
  assert (Hcreated : forall e, fst (NamedTemporaryFile w) = Raise e -> is_Exception e = true).
  { intros e. unfold NamedTemporaryFile.
    destruct (tmp_name (tmp_seq w)); simpl; [| intros [= <-]; reflexivity].
    destruct (negb _ || _); simpl; [intros [= <-]; reflexivity | intros E; discriminate E]. }
  clear Hc. destruct (NamedTemporaryFile w) as [created w1]. simpl in Hcreated.
  assert (H : raises_only
                (fun e => (raised_by fn mml_path e \/ is_Exception e = true)
                          /\ is_Exception e = false)
                (try_finally
                   (try_except
                      (match created with
                       | Ok p => candidate_body fn mml_path p
                       | Raise e => raise e
                       end)
                      (fun e =>
                         print ("[parrot] Error when calling " +:+ fn_name +:+ ": "
                                +:+ Exn_str e) ;;
                         print_exc e ;; ret None))
                   (cleanup match created with Ok p => Some p | Raise _ => None end))).
  { apply raises_only_try_finally; [| apply safe_cleanup].
    apply raises_only_try_except; [| intros e; apply safe_candidate_handler].
    destruct created as [p | e0].
    - eapply raises_only_weaken; [| apply raises_candidate_body]. auto.
    - intros w0 e [= <-]. right. apply Hcreated. reflexivity. }
  intros e He. destruct (H w1 e He) as [[Hr | Hx] Hn]; [auto | congruence].
Qed.

(** The handler of [except Exception as e] only prints. *)
Lemma frame_candidate_handler (R : relation World) `{!Reflexive R, !Transitive R}
    fn_name (e : Exn) :
  (forall w w', same_files w w' -> R w w') ->
  frame R (print ("[parrot] Error when calling " +:+ fn_name +:+ ": " +:+ Exn_str e) ;;
           print_exc e ;; ret (@None string)).
Proof.
  intros HR.
  apply frame_bind; [apply _ | intros w; apply HR, frame_print_same |].
  intros _. apply frame_bind; [apply _ | intros w; apply HR, frame_print_exc_same |].
  intros _. apply frame_ret; apply _.
Qed.

(** A candidate attempt leaves the file system as it found it: the
    temporary file it created is gone when it ends. *)
Lemma frame_candidate_attempt fn_name fn mml_path :
  frame same_files (candidate_attempt fn_name fn mml_path).
Proof.
  intros w. unfold candidate_attempt, NamedTemporaryFile.
  destruct (tmp_name (tmp_seq w)) as [nm |] eqn:Hnm; cycle 1.
  { (* no temporary file: the handler prints, nothing to clean up *)
    unfold try_finally, try_except, raise, cleanup, ret. simpl.
    unfold same_files. simpl. auto. }
  destruct (negb (Py.truthy nm) || exists_ (fs w) (os_path nm)) eqn:Hex.
  { unfold try_finally, try_except, raise, cleanup, ret. simpl.
    unfold same_files. simpl. auto. }
  apply orb_false_elim in Hex as [Htr Hex].
  apply negb_false_iff in Htr.
  apply exists_false_lookup in Hex as [Hroot Hnone].
  set (p := os_path nm) in *.
  set (w1 := mkWorld _ _ _ _ _).
  assert (Hbody : frame (tmp_only p)
            (try_finally
               (try_except (candidate_body fn mml_path nm)
                  (fun e =>
                     print ("[parrot] Error when calling " +:+ fn_name +:+ ": "
                            +:+ Exn_str e) ;;
                     print_exc e ;; ret None))
               (cleanup (Some nm)))).
  { apply frame_try_finally; [apply _ | |].
    - apply frame_try_except; [apply _ | apply frame_candidate_body |].
      intros e. apply frame_candidate_handler; [apply _ | apply _ |].
      apply same_files_tmp_only.
    - unfold cleanup. rewrite Htr.
      apply frame_try_except; [apply _ | apply frame_unlink |].
      intros e. apply frame_ret; apply _. }
  (* after the cleanup the temporary file is absent *)
  assert (Hgone : forall w2, is_dir (fs w2) p = false ->
            fs (snd (cleanup (Some nm) w2)) !! p = None).
  { intros w2 Hd. unfold cleanup. rewrite Htr. unfold try_except, unlink. fold p.
    rewrite stat_nonroot by assumption.
    unfold is_dir in Hd. rewrite stat_nonroot in Hd by assumption.
    destruct (fs w2 !! p) as [[|]|] eqn:E; simpl; try discriminate.
    - apply lookup_delete_eq.
    - assumption. }
  specialize (Hbody w1). revert Hbody Hgone. unfold try_finally.
  destruct (try_except _ _ w1) as [r w2] eqn:Hmid.
  assert (Hmidf : tmp_only p w1 w2).
  { pose proof (frame_try_except (tmp_only p)
                  (candidate_body fn mml_path nm)
                  (fun e =>
                     print ("[parrot] Error when calling " +:+ fn_name +:+ ": "
                            +:+ Exn_str e) ;;
                     print_exc e ;; ret None)
                  (frame_candidate_body fn mml_path nm)) as H.
    specialize (H (fun e => frame_candidate_handler (tmp_only p) fn_name e
                              (same_files_tmp_only p)) w1).
    rewrite Hmid in H. exact H. }
  intros Hbody Hgone.
  assert (Hd2 : is_dir (fs w2) p = false).
  { destruct Hmidf as (_ & Hd & _). apply Hd. subst w1. simpl.
    apply is_dir_insert_file. unfold is_dir. rewrite stat_nonroot by assumption.
    rewrite Hnone. reflexivity. }
  specialize (Hgone w2 Hd2).
  destruct (cleanup (Some nm) w2) as [[u | e] w3]; simpl in *;
    destruct Hbody as (Hdel & _ & Hl & Hn); subst w1; simpl in *;
    (unfold same_files; split; [| auto]);
    rewrite delete_insert_eq in Hdel;
    rewrite (delete_id _ _ Hgone) in Hdel;
    rewrite (delete_id _ _ Hnone) in Hdel; exact Hdel.
Qed.

Lemma raises_try_candidates module names mml_path :
  raises_only (module_exits module) (try_candidates module names mml_path).
Proof.
  induction names as [| fn_name rest IH]; simpl; [apply raises_only_ret |].
  destruct (module fn_name) as [[fn |] |] eqn:Hfn; try exact IH.
  apply raises_only_bind.
  - eapply raises_only_weaken; [| apply raises_candidate_attempt].
    intros e [Hr Hn]. split; [exact Hn |]. eauto.
  - intros [html |]; [apply raises_only_ret | exact IH].
Qed.

Lemma frame_try_candidates module names mml_path :
  frame same_files (try_candidates module names mml_path).
Proof.
  induction names as [| fn_name rest IH]; simpl; [apply frame_ret; apply _ |].
  destruct (module fn_name) as [[fn |] |]; try exact IH.
  apply frame_bind; [apply _ | apply frame_candidate_attempt |].
  intros [html |]; [apply frame_ret; apply _ | exact IH].
Qed.

Lemma raises_content_fallback module mml_path :
  raises_only (module_exits module) (content_fallback module mml_path).
Proof.
  unfold content_fallback.
  destruct (module "convert_mml_to_html") as [[fn |] |] eqn:Hfn;
    try apply raises_only_ret.
  eapply raises_only_weaken;
    [| apply (raises_only_try_except
                (fun e => is_Exception e = true
                          \/ exists text, raised_by fn text e))].
  - intros e [[He | [text Hr]] Hn]; [congruence |]. split; [exact Hn |]. eauto.
  - intros w e. unfold bind.
    pose proof (read_text_raises mml_path w) as Hread.
    destruct (read_text mml_path w) as [[text | e0] w1]; simpl in *.
    + unfold py_call1.
      destruct (call1 fn (fs w1) text) as [v | e1] eqn:Hc; simpl;
        [intros E; discriminate E |].
      intros [= <-]. right. exists text. right. eauto.
    + intros [= <-]. left. apply Hread. reflexivity.
  - intros e.
    apply safe_bind; [apply safe_print |]. intros _.
    apply safe_bind; [apply safe_print_exc |]. intros _. apply safe_ret.
Qed.

Lemma frame_content_fallback module mml_path :
  frame same_files (content_fallback module mml_path).
Proof.
  unfold content_fallback.
  destruct (module "convert_mml_to_html") as [[fn |] |];
    try (apply frame_ret; apply _).
  apply frame_try_except; [apply _ | |].
  - apply frame_unchanged; [apply _ |]. intros w. unfold bind.
    pose proof (read_text_unchanged mml_path w) as H.
    destruct (read_text mml_path w) as [[data | e] w1]; simpl in *; subst; [| reflexivity].
    unfold py_call1. destruct (call1 fn (fs w) data); reflexivity.
  - intros e.
    apply frame_bind; [apply _ | apply frame_print_same |]. intros _.
    apply frame_bind; [apply _ | apply frame_print_exc_same |]. intros _.
    apply frame_ret; apply _.
Qed.

End AdapterLemmas.

Section ConvertLemmas.

Context {env : Env}.

Lemma yields_candidate_body fn mml_path tmp_path :
  yields nonblank_outcome (candidate_body fn mml_path tmp_path).
Proof.
  unfold candidate_body. apply yields_bind. intros v.
  destruct (nonblank_str v) as [s |] eqn:Hv.
  - apply yields_ret. intros html [= <-].
    destruct v; simpl in Hv; try discriminate Hv.
    destruct (Py.strip_truthy s0) eqn:E; congruence.
  - apply yields_try_except; [| intros e; apply yields_ret; intros ? [=]].
    apply yields_bind. intros data.
    destruct (Py.truthy data && Py.strip_truthy data) eqn:E;
      apply yields_ret; intros html [=]. subst html.
    apply andb_true_iff in E. tauto.
Qed.

Lemma yields_candidate_attempt fn_name fn mml_path :
  yields nonblank_outcome (candidate_attempt fn_name fn mml_path).
Proof.
  intros w. unfold candidate_attempt.
  destruct (NamedTemporaryFile w) as [created w1].
  apply yields_try_finally. apply yields_try_except.
  - destruct created; [apply yields_candidate_body | apply yields_raise].
  - intros e. apply yields_bind. intros _. apply yields_bind. intros _.
    apply yields_ret. intros ? [=].
Qed.

Lemma yields_try_candidates module names mml_path :
  yields nonblank_outcome (try_candidates module names mml_path).
Proof.
  induction names as [| fn_name rest IH]; simpl.
  - apply yields_ret. intros ? [=].
  - destruct (module fn_name) as [[fn |] |]; try exact IH.
    intros w o. unfold bind.
    pose proof (yields_candidate_attempt fn_name fn mml_path w) as Hc.
    destruct (candidate_attempt fn_name fn mml_path w) as [[[html |] | e] w1]; simpl in *.
    + intros [= <-]. apply Hc. reflexivity.
    + apply IH.
    + intros E; discriminate E.
Qed.

Lemma yields_content_fallback module mml_path :
  yields nonblank_outcome (content_fallback module mml_path).
Proof.
  unfold content_fallback.
  destruct (module "convert_mml_to_html") as [[fn |] |];
    try (apply yields_ret; intros ? [=]).
  apply yields_try_except.
  - apply yields_bind. intros text. apply yields_bind. intros v.
    apply yields_ret. intros html Hv.
    destruct v; simpl in Hv; try discriminate Hv.
    destruct (Py.strip_truthy s) eqn:E; congruence.
  - intros e. apply yields_bind. intros _. apply yields_bind. intros _.
    apply yields_ret. intros ? [=].
Qed.

(** One subprocess attempt returns what the specification's
    [attempt_wins] says, and only prints. *)
Lemma subprocess_attempt_spec cmd w :
  exists w',
    subprocess_attempt cmd w = (Ok (attempt_wins (subprocess_run (fs w) cmd)), w')
    /\ same_files w w'.
Proof.
  unfold subprocess_attempt, try_except, bind, get_fs, attempt_wins.
  destruct (subprocess_run (fs w) cmd) as [proc | e] eqn:Hrun; simpl.
  - destruct (returncode proc =? 0); simpl.
    + destruct (Py.strip_truthy (stdout proc)) eqn:Hs.
      * rewrite (strip_truthy_truthy _ Hs). simpl. eexists; split; reflexivity.
      * rewrite andb_false_r. destruct (Py.truthy (stderr proc)); simpl;
          eexists; (split; [reflexivity |]); unfold same_files; simpl; auto.
    + destruct (Py.truthy (stderr proc)); simpl;
        eexists; (split; [reflexivity |]); unfold same_files; simpl; auto.
  - rewrite (subprocess_run_raises _ _ _ Hrun).
    eexists; split; [reflexivity |]. unfold same_files; simpl; auto.
Qed.

Lemma run_attempts_spec cmds w :
  exists w',
    run_attempts cmds w = (Ok (first_success (map (subprocess_run (fs w)) cmds)), w')
    /\ same_files w w'.
Proof.
  revert w. induction cmds as [| cmd rest IH]; intros w; simpl.
  - exists w. split; reflexivity.
  - unfold bind. destruct (subprocess_attempt_spec cmd w) as (w1 & -> & H1).
    destruct (attempt_wins (subprocess_run (fs w) cmd)) as [out |].
    + exists w1. split; [reflexivity | assumption].
    + destruct (IH w1) as (w2 & -> & H2).
      exists w2. destruct H1 as (Hfs & ? & ?). rewrite Hfs.
      split; [reflexivity |]. etransitivity; [| exact H2].
      unfold same_files; auto.
Qed.

Lemma attempt_wins_nonblank r : nonblank_outcome (attempt_wins r).
Proof.
  intros html. unfold attempt_wins. destruct r as [proc | e]; [| intros [=]].
  destruct (returncode proc =? 0); simpl; [| intros [=]].
  destruct (Py.strip_truthy (stdout proc)) eqn:E; intros [=]. congruence.
Qed.

Lemma first_success_nonblank outcomes : nonblank_outcome (first_success outcomes).
Proof.
  induction outcomes as [| r rest IH]; simpl; [intros ? [=] |].
  destruct (attempt_wins r) as [out |] eqn:E; [| exact IH].
  intros html [= <-]. eapply attempt_wins_nonblank; eassumption.
Qed.

(** Loading runs the converter file once if it is there, and changes
    nothing else but the log; it raises only what the file raised
    outside [Exception]. *)
Lemma load_converter_module_spec w :
  exists r w',
    _load_converter_module w = (r, w')
    /\ fs w' = fs w /\ now w' = now w
    /\ load_count w' =
        (load_count w + if exists_ (fs w) CONVERTER_PATH then 1 else 0)%nat
    /\ match r with
       | Ok (Some module) =>
           exists_ (fs w) CONVERTER_PATH = true /\ exec_module (fs w) = Ok module
       | Ok None =>
           exists_ (fs w) CONVERTER_PATH = false
           \/ exists e, exec_module (fs w) = Raise e /\ is_Exception e = true
       | Raise e =>
           exists_ (fs w) CONVERTER_PATH = true
           /\ exec_module (fs w) = Raise e /\ is_Exception e = false
       end.
Proof.
  unfold _load_converter_module, bind, get_fs, try_except.
  destruct (exists_ (fs w) CONVERTER_PATH); simpl.
  - destruct (exec_module (fs w)) as [module | e]; simpl.
    + do 2 eexists. split; [reflexivity |]. simpl. repeat split; lia.
    + destruct (is_Exception e) eqn:He; simpl;
        do 2 eexists; (split; [reflexivity |]); simpl;
        (split; [reflexivity |]); (split; [reflexivity |]); (split; [lia |]);
        eauto.
  - do 2 eexists. split; [reflexivity |]. simpl.
    split; [reflexivity |]. split; [reflexivity |]. split; [lia |]. auto.
Qed.

(** The whole conversion: it returns a document that is not blank or
    [None], or raises what the code of the converter raised outside
    [Exception]; it leaves the file system and the clock alone, and has
    executed the converter file as a module once more if it is there. *)
Lemma convert_spec mml_path w :
  exists r w',
    convert_mml_file_to_html_string mml_path w = (r, w')
    /\ fs w' = fs w /\ now w' = now w
    /\ load_count w' =
        (load_count w + if exists_ (fs w) CONVERTER_PATH then 1 else 0)%nat
    /\ match r with
       | Ok o => nonblank_outcome o
       | Raise e => converter_exits (fs w) e
       end.
Proof.
  unfold convert_mml_file_to_html_string, bind.
  destruct (load_converter_module_spec w) as (lr & w1 & -> & Hfs1 & Hn1 & Hl1 & Hload).
  destruct lr as [[module |] | e].
  - destruct Hload as [_ Hexec].
    pose proof (frame_try_candidates module file_fn_candidates mml_path w1)
      as (Hfs2 & Hl2 & Hn2).
    pose proof (raises_try_candidates module file_fn_candidates mml_path w1) as Hr2.
    pose proof (yields_try_candidates module file_fn_candidates mml_path w1) as Hy2.
    destruct (try_candidates module file_fn_candidates mml_path w1)
      as [[[html |] | e] w2]; simpl in *.
    { exists (Ok (Some html)), w2. split; [reflexivity |].
      repeat split; try congruence. apply (Hy2 _ eq_refl). }
    2:{ exists (Raise e), w2. split; [reflexivity |].
        repeat split; try congruence.
        - apply (Hr2 e eq_refl).
        - right. exists module. split; [exact Hexec | apply (Hr2 e eq_refl)]. }
    pose proof (frame_content_fallback module mml_path w2) as (Hfs3 & Hl3 & Hn3).
    pose proof (raises_content_fallback module mml_path w2) as Hr3.
    pose proof (yields_content_fallback module mml_path w2) as Hy3.
    destruct (content_fallback module mml_path w2) as [[[html |] | e] w3]; simpl in *.
    { exists (Ok (Some html)), w3. split; [reflexivity |].
      repeat split; try congruence. apply (Hy3 _ eq_refl). }
    2:{ exists (Raise e), w3. split; [reflexivity |].
        repeat split; try congruence.
        - apply (Hr3 e eq_refl).
        - right. exists module. split; [exact Hexec | apply (Hr3 e eq_refl)]. }
    unfold _run_subprocess_and_capture.
    destruct (run_attempts_spec (attempts mml_path) w3) as (w4 & -> & Hfs4 & Hl4 & Hn4).
    do 2 eexists. split; [reflexivity |].
    repeat split; try congruence. apply first_success_nonblank.
  - unfold _run_subprocess_and_capture.
    destruct (run_attempts_spec (attempts mml_path) w1) as (w4 & -> & Hfs4 & Hl4 & Hn4).
    do 2 eexists. split; [reflexivity |].
    repeat split; try congruence. apply first_success_nonblank.
  - destruct Hload as (_ & Hexec & Hn).
    exists (Raise e), w1. split; [reflexivity |].
    repeat split; try congruence. left. exact Hexec.
Qed.

End ConvertLemmas.

(* ===================================================================== *)
(** ** Strings and paths *)
(* ===================================================================== *)

Lemma prefix_append (s t : string) : String.prefix s (s +:+ t) = true.
Proof.
  induction s as [| c s IH].
  - destruct t; reflexivity.
  - change (String c s +:+ t) with (String c (s +:+ t)). simpl.
    destruct (ascii_dec c c) as [_ | Hne]; [exact IH | congruence].
Qed.

Lemma append_assoc (a b c : string) : (a +:+ b) +:+ c = a +:+ (b +:+ c).
Proof.
  induction a as [| x a IH]; [reflexivity |].
  change (String x ((a +:+ b) +:+ c) = String x (a +:+ (b +:+ c))).
  f_equal. exact IH.
Qed.

Lemma concat_snoc (sep : string) (l : list string) (x : string) :
  l <> [] -> String.concat sep (l ++ [x]) = String.concat sep l +:+ sep +:+ x.
Proof.
  induction l as [| a l IH]; intros Hne; [congruence |].
  destruct l as [| b l].
  - reflexivity.
  - change (String.concat sep ((a :: b :: l) ++ [x]))
      with (a +:+ sep +:+ String.concat sep ((b :: l) ++ [x])).
    rewrite IH by discriminate.
    change (String.concat sep (a :: b :: l))
      with (a +:+ sep +:+ String.concat sep (b :: l)).
    rewrite !append_assoc. reflexivity.
Qed.

Lemma append_nil_r (s : string) : s +:+ EmptyString = s.
Proof.
  induction s as [| c s IH]; [reflexivity |].
  change (String c (s +:+ EmptyString) = String c s). f_equal. exact IH.
Qed.

(** The joined string of a list, split after any of its elements. *)
Lemma concat_middle (sep : string) (p q : list string) (a : string) :
  String.concat sep (p ++ a :: q)
  = String.concat sep (p ++ [a])
    +:+ match q with [] => EmptyString | _ => sep +:+ String.concat sep q end.
Proof.
  induction p as [| b p IH].
  - destruct q; simpl; [rewrite append_nil_r |]; reflexivity.
  - change (String.concat sep ((b :: p) ++ a :: q))
      with (String.concat sep (b :: (p ++ a :: q))).
    change (String.concat sep ((b :: p) ++ [a]))
      with (String.concat sep (b :: (p ++ [a]))).
    destruct (p ++ a :: q) as [| c l] eqn:E1; [destruct p; discriminate E1 |].
    destruct (p ++ [a]) as [| d l'] eqn:E2; [destruct p; discriminate E2 |].
    change (String.concat sep (b :: c :: l)) with (b +:+ sep +:+ String.concat sep (c :: l)).
    change (String.concat sep (b :: d :: l')) with (b +:+ sep +:+ String.concat sep (d :: l')).
    rewrite IH, !append_assoc. reflexivity.
Qed.

Lemma prefix_refl (s : string) : String.prefix s s = true.
Proof.
  rewrite <- (append_nil_r s) at 2. apply prefix_append.
Qed.

(** The guard accepts every path that extends the root by a component. *)
Lemma str_snoc_startswith (p : Path) (x : string) :
  Py.startswith (str (p ++ [x])) (str p) = true.
Proof.
  unfold Py.startswith, str, Py.join. destruct p as [| a p].
  - simpl. destruct x; reflexivity.
  - rewrite concat_snoc by discriminate.
    rewrite <- append_assoc. apply prefix_append.
Qed.

Lemma split_slash_no_slash (s : string) :
  no_slash s = true -> Py.split_slash s = [s].
Proof.
  induction s as [| c s IH]; simpl; [reflexivity |].
  intros H. apply andb_true_iff in H as [Hc Hs].
  apply negb_true_iff in Hc. rewrite Hc, (IH Hs). reflexivity.
Qed.

Lemma simple_name_inv (s : string) :
  simple_name s = true ->
  s <> EmptyString /\ s <> "." /\ s <> ".." /\ no_slash s = true.
Proof.
  unfold simple_name. rewrite !andb_true_iff, !negb_true_iff, !String.eqb_neq. tauto.
Qed.

Lemma truediv_simple (p : Path) (s : string) :
  simple_name s = true -> truediv p s = p ++ [s].
Proof.
  intros H. apply simple_name_inv in H as (Hne & Hdot & _ & Hns).
  unfold truediv, is_abs, Py.startswith, parts_of.
  rewrite (split_slash_no_slash _ Hns).
  assert (String.prefix "/" s = false) as ->.
  { destruct s as [| c s]; [reflexivity |].
    change (no_slash (String c s)) with (negb (Ascii.eqb c "/") && no_slash s) in Hns.
    apply andb_true_iff in Hns as [Hc _]. apply negb_true_iff, Ascii.eqb_neq in Hc.
    change (String.prefix "/" (String c s))
      with (if ascii_dec "/" c then String.prefix EmptyString s else false).
    destruct (ascii_dec "/" c); [congruence | reflexivity]. }
  simpl. unfold keep_part.
  apply String.eqb_neq in Hne, Hdot. rewrite Hne, Hdot. reflexivity.
Qed.

Lemma clean_removelast (p : Path) : clean p -> clean (removelast p).
Proof.
  unfold clean. induction 1 as [| c p Hc Hp IH]; simpl; [constructor |].
  destruct p; [constructor | constructor; assumption].
Qed.

Lemma clean_resolve_step (acc : Path) (c : string) :
  clean acc -> clean (resolve_step acc c).
Proof.
  intros H. unfold resolve_step. destruct (String.eqb_spec c "..").
  - apply clean_removelast, H.
  - apply Forall_app. split; [exact H | constructor; [assumption | constructor]].
Qed.

Lemma clean_fold (l acc : Path) : clean acc -> clean (fold_left resolve_step l acc).
Proof.
  revert acc. induction l as [| c l IH]; intros acc H; simpl; [exact H |].
  apply IH, clean_resolve_step, H.
Qed.

Lemma clean_resolve (p : Path) : clean (resolve p).
Proof. apply clean_fold. constructor. Qed.

(** A resolved path followed by a plain component is already resolved. *)
Lemma resolve_snoc (p : Path) (x : string) :
  x <> ".." -> resolve (resolve p ++ [x]) = resolve p ++ [x].
Proof.
  intros Hx. pose proof (clean_resolve p) as Hc.
  generalize dependent (resolve p). intros q Hq.
  unfold resolve. rewrite fold_left_app. simpl.
  assert (forall l acc, clean l -> fold_left resolve_step l acc = acc ++ l) as Hfold.
  { induction l as [| c l IH]; intros acc Hl; simpl; [rewrite app_nil_r; reflexivity |].
    inversion Hl as [| ? ? Hc' Hl']; subst.
    rewrite IH by assumption. unfold resolve_step.
    apply String.eqb_neq in Hc'. rewrite Hc'. rewrite <- app_assoc. reflexivity. }
  rewrite Hfold by assumption. simpl. unfold resolve_step.
  apply String.eqb_neq in Hx. rewrite Hx. reflexivity.
Qed.

Lemma name_snoc (p : Path) (x : string) : name (p ++ [x]) = x.
Proof. unfold name. apply last_last. Qed.

Lemma substring_all (s : string) : String.substring 0 (String.length s) s = s.
Proof. induction s as [| c s IH]; simpl; [reflexivity | f_equal; exact IH]. Qed.

Lemma with_suffix_bare (p : Path) (x sfx : string) :
  x <> EmptyString -> name_suffix x = EmptyString ->
  with_suffix (p ++ [x]) sfx = Some (p ++ [x +:+ sfx]).
Proof.
  intros Hne Hs. unfold with_suffix. rewrite name_snoc.
  apply String.eqb_neq in Hne. rewrite Hne, Hs. simpl.
  rewrite Nat.sub_0_r, substring_all, removelast_last. reflexivity.
Qed.

(* ===================================================================== *)
(** ** The static resolver *)
(* ===================================================================== *)

(** Expose the body of the handler in terms of [root_of] and [joined_of]. *)
Ltac enter_handler :=
  unfold handle_static_request; cbv zeta;
  change (resolve (absolute cwd ?r)) with (root_of r);
  match goal with
  | |- context [resolve (truediv (root_of ?r)
                  (if String.eqb (default EmptyString (match_tail ?q)) EmptyString
                   then Py.lstrip_slash (path ?q)
                   else default EmptyString (match_tail ?q)))] =>
      change (resolve (truediv (root_of r)
                (if String.eqb (default EmptyString (match_tail q)) EmptyString
                 then Py.lstrip_slash (path q)
                 else default EmptyString (match_tail q))))
        with (joined_of q r)
  end.

Section ResolverLemmas.

Context {env : Env}.

Lemma rel_url_path_tail (request : Request) (foo : string) :
  match_tail request = Some foo -> foo <> EmptyString -> rel_url_path request = foo.
Proof.
  intros Ht Hne. unfold rel_url_path. rewrite Ht. simpl.
  apply String.eqb_neq in Hne. rewrite Hne. reflexivity.
Qed.

End ResolverLemmas.

(* ===================================================================== *)
(** ** The response builder *)
(* ===================================================================== *)

Section BuilderLemmas.

Context {env : Env}.

Lemma file_mtime_spec (p : Path) (w : World) :
  file_mtime p w =
  (Ok match getmtime (fs w) p with
      | Ok t => match utcfromtimestamp t with Ok d => Some d | Raise _ => None end
      | Raise _ => None
      end, w).
Proof.
  unfold file_mtime, try_except, bind, get_fs, getmtime, utcfromtimestamp.
  destruct (stat (fs w) p) as [[t | content t] |]; simpl; try reflexivity;
    destruct ((-62135596800 <=? t) && (t <? 253402300800)); reflexivity.
Qed.

(** [_serve_mml] in one equation: the conversion, then a response that
    depends only on its outcome, the request and the source's time; what
    the conversion raises goes through. *)
Lemma serve_mml_spec (p : Path) (request : Request) (w : World) :
  exists r w',
    convert_mml_file_to_html_string (str p) w = (r, w')
    /\ match r with
       | Ok o => nonblank_outcome o
       | Raise e => converter_exits (fs w) e
       end
    /\ fs w' = fs w /\ now w' = now w
    /\ _serve_mml p request w =
       (match r with
        | Ok o =>
            Ok match o with
               | None => mkResponse 500 (Some "MML conversion failed") None [] None
               | Some html =>
                   let body_bytes := Py.encode_utf8 html in
                   let hs := mml_headers body_bytes (last_modified_time w p) in
                   if match headers_get (req_headers request) "If-None-Match" with
                      | Some v =>
                          Py.truthy v && String.eqb v (compute_etag_bytes body_bytes)
                      | None => false
                      end
                   then mkResponse 304 None None hs None
                   else mkResponse 200 None (Some body_bytes) hs None
               end
        | Raise e => Raise e
        end, w').
Proof.
  destruct (convert_spec (str p) w) as (r & w' & Hc & Hfs & Hnow & _ & Hout).
  exists r, w'. repeat (split; [assumption |]).
  unfold _serve_mml, bind. rewrite Hc.
  destruct r as [[html |] | e]; try reflexivity.
  rewrite file_mtime_spec. unfold last_modified_time, mml_headers.
  rewrite Hfs.
  destruct (getmtime (fs w) p) as [t | e]; simpl.
  - destruct (utcfromtimestamp t); simpl; [| unfold datetime_now; rewrite Hnow];
      destruct (headers_get (req_headers request) "If-None-Match") as [v |];
      try destruct (Py.truthy v && _); reflexivity.
  - unfold datetime_now. rewrite Hnow.
    destruct (headers_get (req_headers request) "If-None-Match") as [v |];
      try destruct (Py.truthy v && _); reflexivity.
Qed.

Lemma serve_file_spec (p : Path) (request : Request) (w : World) content t :
  stat (fs w) p = Some (File content t) ->
  _serve_file p request w =
  (Ok (if match headers_get (req_headers request) "If-None-Match" with
          | Some v => String.eqb v (compute_etag_bytes content)
          | None => false
          end
       then mkResponse 304 None None (file_headers p content) None
       else mkResponse 200 None (Some content) (file_headers p content) None), w).
Proof.
  intros Hst. unfold _serve_file, bind, read_file_bytes. rewrite Hst.
  unfold file_headers.
  destruct (headers_get (req_headers request) "If-None-Match") as [v |];
    [destruct (String.eqb v _) |]; reflexivity.
Qed.

Lemma serve_file_inv (p : Path) (request : Request) (w w' : World) (r : Response) :
  _serve_file p request w = (Ok r, w') ->
  exists content t, stat (fs w) p = Some (File content t).
Proof.
  unfold _serve_file, bind, read_file_bytes.
  destruct (stat (fs w) p) as [[t | content t] |]; intros H; try discriminate H.
  eauto.
Qed.

Lemma repeat_request_const {A} (m : M A) (a : A) (n : nat) (P : World -> Prop) :
  (forall w, P w -> exists w', m w = (Ok a, w') /\ P w') ->
  forall w, P w -> exists w', repeat_request m n w = (Ok (replicate n a), w') /\ P w'.
Proof.
  intros Hm. induction n as [| n IH]; intros w Hw; simpl.
  - exists w. split; [reflexivity | assumption].
  - unfold bind. destruct (Hm w Hw) as (w1 & -> & H1).
    destruct (IH w1 H1) as (w2 & -> & H2).
    exists w2. split; [reflexivity | assumption].
Qed.

End BuilderLemmas.

(** Once the candidate loop has given up, the text of the source goes to
    [convert_mml_to_html] and the document it returns is the result. *)
Lemma content_fallback_after_candidates {env : Env}
    (module : PyModule) (content_fn : PyFunction) (mml_path text html : string) (w : World) :
  exists_ (fs w) CONVERTER_PATH = true ->
  exec_module (fs w) = Ok module ->
  module "convert_mml_to_html" = Some (Callable content_fn) ->
  (forall w1, fs w1 = fs w ->
              fst (try_candidates module file_fn_candidates mml_path w1) = Ok None) ->
  fst (read_text mml_path w) = Ok text ->
  call1 content_fn (fs w) text = Ok (VStr html) ->
  Py.strip_truthy html = true ->
  fst (convert_mml_file_to_html_string mml_path w) = Ok (Some html).
Proof.
  intros Hex Hload Hfn Hloop Hread Hcall Hnb.
  unfold convert_mml_file_to_html_string, bind at 1.
  unfold _load_converter_module, bind at 1, get_fs. cbv beta iota.
  rewrite Hex. change (negb true) with false. cbv iota.
  unfold try_except at 1. rewrite Hload. cbv beta iota.
  set (w1 := mkWorld (fs w) (tmp_seq w) (log w) (S (load_count w)) (now w)).
  unfold bind at 1.
  pose proof (frame_try_candidates module file_fn_candidates mml_path w1) as Hf.
  specialize (Hloop w1 eq_refl).
  destruct (try_candidates module file_fn_candidates mml_path w1) as [r w2].
  simpl in Hloop, Hf. subst r. destruct Hf as (Hfs2 & _).
  unfold bind at 1. unfold content_fallback. rewrite Hfn.
  assert (Hread2 : read_text mml_path w2 = (Ok text, w2)).
  { pose proof (read_text_unchanged mml_path w2) as Hsame.
    unfold read_text in *. rewrite Hfs2. simpl fs.
    destruct (stat (fs w) (os_path mml_path)) as [[t | content t] |];
      simpl in Hread; try discriminate Hread.
    destruct (Py.utf8_valid content); simpl in Hread; [| discriminate Hread].
    injection Hread as ->. reflexivity. }
  unfold try_except, bind. rewrite Hread2.
  unfold py_call1. rewrite Hfs2. simpl fs.
  rewrite Hcall. simpl. rewrite Hnb. reflexivity.
Qed.

(** But a converter whose only entry point is a one-argument
    [convert_mml_to_html] never gets that far when the function returns a
    document for any text: the candidate loop calls it with the path of
    the source, and the result of the conversion is what it returns on
    that path. *)
Lemma content_only_converter_called_with_path {env : Env}
    (module : PyModule) (content_fn : PyFunction) (mml_path nm html : string)
    (w : World) :
  exists_ (fs w) CONVERTER_PATH = true ->
  exec_module (fs w) = Ok module ->
  module "compile_mml_to_html" = None ->
  module "convert_file" = None ->
  module "convert_mml_to_html" = Some (Callable content_fn) ->
  fst (NamedTemporaryFile w) = Ok nm ->
  (forall f a b, exists msg, call2 content_fn f a b = (Raise (TypeError msg), Untouched)) ->
  call1 content_fn (<[os_path nm := File [] (now w)]> (fs w)) mml_path = Ok (VStr html) ->
  Py.strip_truthy html = true ->
  fst (convert_mml_file_to_html_string mml_path w) = Ok (Some html).
Proof.
  intros Hex Hload H1 H2 H3 Htmp Hc2 Hc1 Hnb.
  unfold convert_mml_file_to_html_string, bind at 1.
  unfold _load_converter_module, bind at 1, get_fs. cbv beta iota.
  rewrite Hex. change (negb true) with false. cbv iota.
  unfold try_except at 1. rewrite Hload. cbv beta iota.
  set (w1 := mkWorld (fs w) (tmp_seq w) (log w) (S (load_count w)) (now w)).
  unfold file_fn_candidates, try_candidates. rewrite H1, H2, H3.
  unfold bind at 1. unfold bind at 1.
  assert (Hrun : exists w2, candidate_attempt "convert_mml_to_html" content_fn mml_path w1
                            = (Ok (Some html), w2)).
  { unfold candidate_attempt.
    unfold NamedTemporaryFile in *. simpl fs in *. simpl tmp_seq. simpl now.
    destruct (tmp_name (tmp_seq w)) as [nm' |]; [| discriminate Htmp].
    destruct (negb (Py.truthy nm') || exists_ (fs w) (os_path nm'));
      [discriminate Htmp |].
    simpl in Htmp. injection Htmp as ->.
    unfold try_finally, try_except at 1, candidate_body, bind at 1.
    unfold try_except_TypeError at 1, py_call2. simpl fs.
    destruct (Hc2 (<[os_path nm := File [] (now w)]> (fs w)) mml_path nm) as [msg ->].
    simpl is_TypeError. cbv iota. simpl apply_effect.
    unfold try_except_TypeError, py_call1. simpl fs. rewrite Hc1.
    unfold nonblank_str. rewrite Hnb. unfold ret at 1. cbv beta iota.
    destruct (cleanup (Some nm) _) as [[u | e] w2] eqn:Hcl.
    - eexists. reflexivity.
    - pose proof (safe_cleanup (Some nm)) as Hs. exfalso.
      match type of Hcl with cleanup _ ?w0 = _ => destruct (Hs w0) as [u Hu] end.
      rewrite Hcl in Hu. discriminate Hu. }
  destruct Hrun as [w2 ->]. reflexivity.
Qed.

(* ===================================================================== *)
(** ** The traversal guard *)
(* ===================================================================== *)

(** The guard lets every descendant of the root through. *)
Lemma descendant_passes_guard (root p : Path) :
  descendant_of root p = true -> Py.startswith (str p) (str root) = true.
Proof.
  intros Hd.
  assert (Hk : exists k, p = root ++ k).
  { revert p Hd. induction root as [| r root IH]; intros p Hd; [exists p; reflexivity |].
    destruct p as [| c p]; [discriminate Hd |]. simpl in Hd.
    apply andb_true_iff in Hd as [Hc Hd]. apply String.eqb_eq in Hc as ->.
    destruct (IH p Hd) as [k ->]. exists k. reflexivity. }
  destruct Hk as [k ->]. unfold Py.startswith, str, Py.join.
  destruct k as [| a q]; [rewrite app_nil_r; apply prefix_refl |].
  rewrite concat_middle.
  destruct root as [| r root].
  - apply prefix_append.
  - rewrite concat_snoc by discriminate.
    rewrite !append_assoc, <- append_assoc. apply prefix_append.
Qed.

(** It also lets through every path below a sibling of the root whose
    name begins with the name of the root. *)
Lemma name_extension_passes_guard (parent q : Path) (r y : string) :
  Py.startswith (str (parent ++ (r +:+ y) :: q)) (str (parent ++ [r])) = true.
Proof.
  unfold Py.startswith, str, Py.join.
  rewrite (concat_middle "/" parent q (r +:+ y)).
  assert (H : String.concat "/" (parent ++ [r +:+ y])
              = String.concat "/" (parent ++ [r]) +:+ y).
  { destruct parent as [| b parent]; [reflexivity |].
    rewrite !concat_snoc by discriminate. rewrite !append_assoc. reflexivity. }
  rewrite H, !append_assoc, <- append_assoc. apply prefix_append.
Qed.

Lemma name_extension_not_descendant (parent q : Path) (r y : string) :
  y <> EmptyString -> descendant_of (parent ++ [r]) (parent ++ (r +:+ y) :: q) = false.
Proof.
  intros Hy. induction parent as [| b parent IH]; simpl.
  - apply andb_false_intro1. apply String.eqb_neq. intros H.
    apply Hy. rewrite <- (append_nil_r r) in H at 1.
    apply (inj (String.app r)) in H. congruence.
  - rewrite String.eqb_refl. exact IH.
Qed.

(** A request that resolves to a regular file passing the guard is
    answered with that file, wherever the file is. *)
Lemma guarded_file_is_served {env : Env}
    (request : Request) (filesystem_root : string) (listing : bool) (w : World)
    (content : Py.bytes) (t : Z) :
  let root := root_of filesystem_root in
  let joined := joined_of request filesystem_root in
  Py.startswith (str joined) (str root) = true ->
  stat (fs w) joined = Some (File content t) ->
  suffix joined <> EmptyString ->
  suffix joined <> ".mml" ->
  handle_static_request request filesystem_root listing w
  = _serve_file joined request w.
Proof.
  intros root joined Hguard Hstat Hs1 Hs2.
  enter_handler. fold root joined. rewrite Hguard.
  change (negb true) with false. cbv iota.
  unfold bind at 1. unfold get_fs. cbv beta iota.
  unfold is_dir, exists_, is_file. rewrite Hstat.
  apply String.eqb_neq in Hs1, Hs2. rewrite Hs1, Hs2. reflexivity.
Qed.

(** So a file in a sibling directory of the root whose name begins with
    the root's name is served, although it is not below the root. *)
Lemma sibling_file_is_served {env : Env}
    (request : Request) (filesystem_root : string) (listing : bool) (w : World)
    (parent q : Path) (r y : string) (content : Py.bytes) (t : Z) :
  root_of filesystem_root = parent ++ [r] ->
  joined_of request filesystem_root = parent ++ (r +:+ y) :: q ->
  y <> EmptyString ->
  stat (fs w) (parent ++ (r +:+ y) :: q) = Some (File content t) ->
  suffix (parent ++ (r +:+ y) :: q) <> EmptyString ->
  suffix (parent ++ (r +:+ y) :: q) <> ".mml" ->
  descendant_of (root_of filesystem_root) (joined_of request filesystem_root) = false
  /\ handle_static_request request filesystem_root listing w
     = _serve_file (parent ++ (r +:+ y) :: q) request w
  /\ (headers_get (req_headers request) "If-None-Match" = None ->
      handle_static_request request filesystem_root listing w
      = (Ok (mkResponse 200 None (Some content)
               (file_headers (parent ++ (r +:+ y) :: q) content) None), w)).
Proof.
  intros Hroot Hjoined Hy Hstat Hs1 Hs2.
  assert (Hnd : descendant_of (root_of filesystem_root)
                  (joined_of request filesystem_root) = false).
  { rewrite Hroot, Hjoined. apply name_extension_not_descendant, Hy. }
  assert (Hserve : handle_static_request request filesystem_root listing w
                   = _serve_file (parent ++ (r +:+ y) :: q) request w).
  { rewrite <- Hjoined. apply guarded_file_is_served with (content := content) (t := t).
    - rewrite Hroot, Hjoined. apply name_extension_passes_guard.
    - rewrite Hjoined. exact Hstat.
    - rewrite Hjoined. exact Hs1.
    - rewrite Hjoined. exact Hs2. }
  split; [exact Hnd |]. split; [exact Hserve |].
  intros Hinm. rewrite Hserve, (serve_file_spec _ _ _ _ _ Hstat), Hinm. reflexivity.
Qed.

(* ===================================================================== *)
(** ** The claims *)
(* ===================================================================== *)

(** C1 (failing input). The guard compares the strings of the two paths:
    with root [/srv/www], the request [/../www2/secret.txt] resolves to
    [/srv/www2/secret.txt], which is not below the root but whose string
    starts with the root's, and the handler answers 200 with the bytes of
    that file instead of 403. *)
Theorem traversal_into_sibling_of_root_is_served :
  let request := Sample.get "../www2/secret.txt" [] in
  root_of (env := Sample.env_failing) "/srv/www" = ["srv"; "www"]
  /\ joined_of (env := Sample.env_failing) request "/srv/www"
     = ["srv"; "www2"; "secret.txt"]
  /\ descendant_of ["srv"; "www"] ["srv"; "www2"; "secret.txt"] = false
  /\ stat Sample.site ["srv"; "www2"; "secret.txt"]
     = Some (File (Py.encode_utf8 "secret") 0)
  /\ handle_static_request (env := Sample.env_failing) request "/srv/www" false
       Sample.world0
     = (Ok (mkResponse 200 None (Some (Py.encode_utf8 "secret"))
              [ ("Content-Type", "text/plain");
                ("ETag", "e5e9fa1ba31ecd1ae84f75caaa474f3a663f05f4");
                ("Cache-Control", "public, max-age=60") ] None),
        Sample.world0).
Proof. repeat split; vm_compute; reflexivity. Qed.

(** C2 (counterexample). Two conversions of the same file in a row: the
    converter file has been executed once after the first and twice after
    the second. *)
Lemma second_conversion_loads_again :
  let convert := convert_mml_file_to_html_string (env := Sample.env_file_writer)
                   "/srv/www/foo.mml" in
  let after_first := snd (convert Sample.world0) in
  let after_second := snd (convert after_first) in
  load_count Sample.world0 = 0%nat
  /\ load_count after_first = 1%nat
  /\ load_count after_second = 2%nat
  /\ load_count after_second <> load_count after_first.
Proof.
  repeat split; try (vm_compute; reflexivity).
  vm_compute. intros H. discriminate H.
Qed.

(** C2 (as amended). Nothing is cached: every call of the conversion
    executes the converter file afresh, so a run of conversions has
    executed it once per call when the file is there (and never when it
    is not). *)
Theorem convert_loads_on_every_call {env : Env} (paths : list string) (w : World) :
  load_count (snd (convert_each paths w))
  = (load_count w
     + if exists_ (fs w) CONVERTER_PATH then length paths else 0)%nat.
Proof.
  revert w. induction paths as [| p rest IH]; intros w; simpl.
  - destruct (exists_ (fs w) CONVERTER_PATH); lia.
  - destruct (convert_spec p w) as (r & w1 & -> & Hfs & _ & Hl & _).
    specialize (IH w1). rewrite Hfs in IH.
    destruct (convert_each rest w1) as [rs w2]; simpl in *.
    rewrite IH, Hl. destruct (exists_ (fs w) CONVERTER_PATH); lia.
Qed.

(** C3 (counterexample). [docs.mml] and [docs.html] both exist under the
    root, and so does the directory [docs], which has no index: the
    request [/docs] is answered 404, not by the conversion of
    [docs.mml]. *)
Lemma directory_shadows_bare_path :
  let request := Sample.get "docs" [] in
  let answer :=
    handle_static_request (env := Sample.env_file_writer) request "/srv/www" false
      Sample.world0 in
  let converted :=
    _serve_mml (env := Sample.env_file_writer) ["srv"; "www"; "docs.mml"] request
      Sample.world0 in
  exists_ Sample.site ["srv"; "www"; "docs.mml"] = true
  /\ exists_ Sample.site ["srv"; "www"; "docs.html"] = true
  /\ name_suffix "docs" = EmptyString
  /\ answer = (Ok (mkResponse 404 (Some "Not Found") None [] None), Sample.world0)
  /\ fst converted
     = Ok (mkResponse 200 None (Some (Py.encode_utf8 "<p>manual</p>"))
             [ ("Content-Type", "text/html; charset=utf-8");
               ("ETag", "db9cd79de993d61cac22f39a804d7f4077bb5dfb");
               ("Cache-Control", "no-cache");
               ("Last-Modified", "Thu, 01 Jan 1970 00:00:00 GMT") ] None)
  /\ fst answer <> fst converted.
Proof.
  repeat split; try (vm_compute; reflexivity).
  vm_compute. intros H. discriminate H.
Qed.

(** C3 (as amended). The [.mml] sibling is preferred to the [.html] one at
    each of the three places where the resolver chooses between them, and
    whether or not the [.html] sibling exists:
    - bare path: for a plain extensionless name [foo] such that [foo.mml]
      exists under the root and [/foo] is not itself a directory, the
      request [/foo] is answered by [_serve_mml] on [foo.mml];
    - directory index: a directory that has [index.mml] is answered by
      [_serve_mml] on it;
    - last resort: a path with an extension that does not exist, and whose
      [.mml] sibling does, is answered by [_serve_mml] on the sibling. *)
Theorem mml_preferred_over_html {env : Env}
    (request : Request) (filesystem_root : string) (listing : bool) (w : World) :
  let root := root_of filesystem_root in
  let joined := joined_of request filesystem_root in
  (forall foo,
      match_tail request = Some foo ->
      simple_name foo = true ->
      name_suffix foo = EmptyString ->
      exists_ (fs w) (root ++ [foo +:+ ".mml"]) = true ->
      is_dir (fs w) (root ++ [foo]) = false ->
      handle_static_request request filesystem_root listing w
      = _serve_mml (root ++ [foo +:+ ".mml"]) request w)
  /\ (Py.startswith (str joined) (str root) = true ->
      is_dir (fs w) joined = true ->
      exists_ (fs w) (joined ++ ["index.mml"]) = true ->
      handle_static_request request filesystem_root listing w
      = _serve_mml (joined ++ ["index.mml"]) request w)
  /\ (forall p,
      Py.startswith (str joined) (str root) = true ->
      suffix joined <> EmptyString ->
      exists_ (fs w) joined = false ->
      with_suffix joined ".mml" = Some p ->
      exists_ (fs w) p = true ->
      handle_static_request request filesystem_root listing w
      = _serve_mml p request w).
Proof.
  intros root joined. split; [| split].
  - intros foo Htail Hsimple Hsfx Hmml Hdir.
    pose proof (simple_name_inv _ Hsimple) as (Hne & _ & Hdd & _).
    assert (Hj : joined = root ++ [foo]).
    { unfold joined, joined_of. rewrite (rel_url_path_tail _ _ Htail Hne).
      rewrite truediv_simple by assumption. apply resolve_snoc, Hdd. }
    enter_handler.
    fold root joined. rewrite Hj, str_snoc_startswith. change (negb true) with false. cbv iota.
    unfold bind at 1. unfold get_fs. cbv beta iota.
    rewrite Hdir. unfold suffix. rewrite name_snoc, Hsfx.
    rewrite String.eqb_refl.
    rewrite !with_suffix_bare by assumption.
    rewrite Hmml. reflexivity.
  - intros Hguard Hdir Hidx.
    enter_handler.
    fold root joined. rewrite Hguard. change (negb true) with false. cbv iota.
    unfold bind at 1. unfold get_fs. cbv beta iota.
    rewrite Hdir.
    assert (Ht : truediv joined "index.mml" = joined ++ ["index.mml"]) by reflexivity.
    change (map (truediv joined) ["index.mml"; "index.html"])
      with [truediv joined "index.mml"; truediv joined "index.html"].
    rewrite Ht. unfold List.find. rewrite Hidx.
    unfold suffix. rewrite name_snoc.
    change (name_suffix "index.mml") with ".mml".
    change (String.eqb ".mml" EmptyString) with false. cbv iota.
    rewrite String.eqb_refl, Hidx. reflexivity.
  - intros p Hguard Hsfx Hex Hws Hp.
    enter_handler.
    fold root joined. rewrite Hguard. change (negb true) with false. cbv iota.
    unfold bind at 1. unfold get_fs. cbv beta iota.
    assert (Hdir : is_dir (fs w) joined = false).
    { unfold is_dir. unfold exists_ in Hex. destruct (stat (fs w) joined); [discriminate | reflexivity]. }
    rewrite Hdir.
    apply String.eqb_neq in Hsfx. rewrite Hsfx.
    rewrite Hex, andb_false_r. simpl andb. cbv iota.
    rewrite Hws, Hp. reflexivity.
Qed.




(** C5. A request whose [If-None-Match] is the ETag of the resolved body
    gets 304, no body and the header set of the 200 response, for static
    files and for converted documents, however often it is repeated while
    the body stays the same; the comparison is plain string equality, so
    any other value (a wildcard, a weak validator) gets the 200
    response. *)
Theorem conditional_get_not_modified {env : Env} :
  (forall p request content t w n,
      stat (fs w) p = Some (File content t) ->
      headers_get (req_headers request) "If-None-Match"
      = Some (compute_etag_bytes content) ->
      let r304 := mkResponse 304 None None (file_headers p content) None in
      let r200 := mkResponse 200 None (Some content) (file_headers p content) None in
      repeat_request (_serve_file p request) n w = (Ok (replicate n r304), w)
      /\ payload r304 = [] /\ headers r304 = headers r200
      /\ (forall request0,
             match headers_get (req_headers request0) "If-None-Match" with
             | Some v => v <> compute_etag_bytes content
             | None => True
             end ->
             _serve_file p request0 w = (Ok r200, w)))
  /\ (forall p request html w w',
      convert_mml_file_to_html_string (str p) w = (Ok (Some html), w') ->
      headers_get (req_headers request) "If-None-Match"
      = Some (compute_etag_bytes (Py.encode_utf8 html)) ->
      let hs := mml_headers (Py.encode_utf8 html) (last_modified_time w p) in
      let r304 := mkResponse 304 None None hs None in
      let r200 := mkResponse 200 None (Some (Py.encode_utf8 html)) hs None in
      _serve_mml p request w = (Ok r304, w')
      /\ payload r304 = [] /\ headers r304 = headers r200
      /\ (forall request0,
             match headers_get (req_headers request0) "If-None-Match" with
             | Some v => v <> compute_etag_bytes (Py.encode_utf8 html)
             | None => True
             end ->
             _serve_mml p request0 w = (Ok r200, w')))
  /\ (forall p request html w n,
      (forall w1, fs w1 = fs w -> now w1 = now w ->
                  fst (convert_mml_file_to_html_string (str p) w1) = Ok (Some html)) ->
      headers_get (req_headers request) "If-None-Match"
      = Some (compute_etag_bytes (Py.encode_utf8 html)) ->
      let hs := mml_headers (Py.encode_utf8 html) (last_modified_time w p) in
      exists w',
        repeat_request (_serve_mml p request) n w
        = (Ok (replicate n (mkResponse 304 None None hs None)), w')).
Proof.
  split; [| split].
  - intros p request content t w n Hst Hinm r304 r200.
    split; [| split; [reflexivity | split; [reflexivity |]]].
    + assert (Hstep : forall w1, w1 = w ->
                exists w2, _serve_file p request w1 = (Ok r304, w2) /\ w2 = w).
      { intros w1 ->. exists w. split; [| reflexivity].
        rewrite (serve_file_spec _ _ _ _ _ Hst), Hinm, String.eqb_refl. reflexivity. }
      destruct (repeat_request_const _ r304 n (fun w1 => w1 = w) Hstep w eq_refl)
        as (w' & Hrun & ->).
      exact Hrun.
    + intros request0 H0. rewrite (serve_file_spec _ _ _ _ _ Hst).
      destruct (headers_get (req_headers request0) "If-None-Match") as [v |];
        [| reflexivity].
      apply String.eqb_neq in H0. rewrite H0. reflexivity.
  - intros p request html w w' Hc Hinm hs r304 r200.
    split; [| split; [reflexivity | split; [reflexivity |]]].
    + destruct (serve_mml_spec p request w) as (o & w1 & Hc1 & _ & _ & _ & ->).
      rewrite Hc in Hc1. injection Hc1 as <- <-. cbv zeta.
      rewrite Hinm, String.eqb_refl.
      unfold compute_etag_bytes. rewrite truthy_hexdigest. reflexivity.
    + intros request0 H0.
      destruct (serve_mml_spec p request0 w) as (o & w1 & Hc1 & _ & _ & _ & ->).
      rewrite Hc in Hc1. injection Hc1 as <- <-. cbv zeta.
      destruct (headers_get (req_headers request0) "If-None-Match") as [v |];
        [| reflexivity].
      apply String.eqb_neq in H0. rewrite H0, andb_false_r. reflexivity.
  - intros p request html w n Hstable Hinm hs.
    assert (Hstep : forall w1, fs w1 = fs w /\ now w1 = now w ->
              exists w2, _serve_mml p request w1
                         = (Ok (mkResponse 304 None None hs None), w2)
                         /\ (fs w2 = fs w /\ now w2 = now w)).
    { intros w1 [Hfs Hnow].
      destruct (serve_mml_spec p request w1) as (o & w2 & Hc & _ & Hfs2 & Hnow2 & ->).
      specialize (Hstable w1 Hfs Hnow). rewrite Hc in Hstable. simpl in Hstable.
      subst o. exists w2. cbv zeta.
      rewrite Hinm, String.eqb_refl.
      unfold compute_etag_bytes at 1. rewrite truthy_hexdigest. simpl andb. cbv iota.
      split; [| split; congruence].
      unfold hs, last_modified_time. rewrite Hfs, Hnow. reflexivity. }
    destruct (repeat_request_const _ _ n _ Hstep w (conj eq_refl eq_refl))
      as (w' & Hrun & _).
    exists w'. exact Hrun.
Qed.

(** C6. A candidate attempt that created its temporary file ends in a
    world where that file no longer exists and the file system is what it
    was before the attempt, whatever the entry point returned, wrote or
    raised. The attempt returns, unless the entry point raised outside
    [Exception]: that exception is what the attempt raises, once the file
    is removed. *)
Theorem temporary_file_always_removed {env : Env}
    (fn_name : string) (fn : PyFunction) (mml_path : string) (w : World) (nm : string) :
  fst (NamedTemporaryFile w) = Ok nm ->
  exists_ (fs (snd (NamedTemporaryFile w))) (os_path nm) = true
  /\ exists r w',
       candidate_attempt fn_name fn mml_path w = (r, w')
       /\ exists_ (fs w') (os_path nm) = false
       /\ fs w' = fs w
       /\ match r with
          | Ok _ => True
          | Raise e => raised_by fn mml_path e /\ is_Exception e = false
          end.
Proof.
  intros Hcreated.
  pose proof (frame_candidate_attempt fn_name fn mml_path w) as (Hfs & _).
  pose proof (raises_candidate_attempt fn_name fn mml_path w) as Hraise.
  destruct (candidate_attempt fn_name fn mml_path w) as [r w'] eqn:Hrun.
  simpl in Hfs, Hraise.
  unfold NamedTemporaryFile in *.
  destruct (tmp_name (tmp_seq w)) as [nm' |]; [| discriminate Hcreated].
  destruct (negb (Py.truthy nm') || exists_ (fs w) (os_path nm')) eqn:Hex;
    [discriminate Hcreated |].
  simpl in Hcreated. injection Hcreated as ->.
  apply orb_false_elim in Hex as [_ Hex].
  split.
  - simpl. destruct (exists_false_lookup _ _ Hex) as [Hroot _].
    unfold exists_. rewrite stat_nonroot by assumption.
    rewrite lookup_insert_eq. reflexivity.
  - exists r, w'. rewrite Hfs. repeat split; auto.
    destruct r as [o | e]; [exact I | apply (Hraise e eq_refl)].
Qed.

Lemma first_success_Some (outcomes : list (Result CompletedProcess)) (out : string) :
  first_success outcomes = Some out <->
  exists before r after,
    outcomes = before ++ r :: after
    /\ Forall (fun x => attempt_wins x = None) before
    /\ attempt_wins r = Some out.
Proof.
  induction outcomes as [| r rest IH]; simpl.
  - split; [intros H; discriminate H |].
    intros (before & r & after & H & _). destruct before; discriminate H.
  - destruct (attempt_wins r) as [o |] eqn:Hr.
    + split.
      * intros [= <-]. exists [], r, rest.
        split; [reflexivity | split; [constructor | assumption]].
      * intros (before & r' & after & H & Hb & Hw).
        destruct before as [| b before]; simpl in H; injection H as -> ->.
        -- congruence.
        -- inversion Hb; congruence.
    + rewrite IH. split.
      * intros (before & r' & after & -> & Hb & Hw).
        exists (r :: before), r', after.
        split; [reflexivity | split; [constructor; assumption | assumption]].
      * intros (before & r' & after & H & Hb & Hw).
        destruct before as [| b before]; simpl in H; injection H as -> ->.
        -- congruence.
        -- inversion Hb; subst. exists before, r', after. auto.
Qed.

Lemma first_success_None (outcomes : list (Result CompletedProcess)) :
  first_success outcomes = None <->
  Forall (fun x => attempt_wins x = None) outcomes.
Proof.
  induction outcomes as [| r rest IH]; simpl.
  - split; [constructor | reflexivity].
  - destruct (attempt_wins r) as [o |] eqn:Hr.
    + split; [intros H; discriminate H | intros H; inversion H; congruence].
    + rewrite IH. split; [intros H; constructor; assumption | intros H; inversion H; assumption].
Qed.

(** C7. The subprocess strategy runs the three commands in the order
    [--stdout], [-], no flag; it returns, without raising, the standard
    output of the first attempt that exits with status zero and a
    standard output that is not blank; an attempt that raises (a timeout
    is one), exits with another status or prints nothing useful only
    moves on; [None] comes back exactly when all attempts fail, and the
    standard error of an attempt never changes the outcome. *)
Theorem subprocess_first_success_wins {env : Env} (mml_path : string) (w : World) :
  let outcomes := map (subprocess_run (fs w)) (attempts mml_path) in
  attempts mml_path
  = [ [sys_executable; str CONVERTER_PATH; mml_path; "--stdout"];
      [sys_executable; str CONVERTER_PATH; mml_path; "-"];
      [sys_executable; str CONVERTER_PATH; mml_path] ]
  /\ (exists w',
        _run_subprocess_and_capture mml_path w = (Ok (first_success outcomes), w')
        /\ same_files w w')
  /\ (forall out,
        first_success outcomes = Some out <->
        exists before r after,
          outcomes = before ++ r :: after
          /\ Forall (fun x => attempt_wins x = None) before
          /\ attempt_wins r = Some out)
  /\ (first_success outcomes = None <->
      Forall (fun x => attempt_wins x = None) outcomes)
  /\ (forall rc out err err',
        attempt_wins (Ok (mkCompletedProcess rc out err))
        = attempt_wins (Ok (mkCompletedProcess rc out err'))).
Proof.
  intros outcomes. split; [reflexivity |]. split; [apply run_attempts_spec |].
  split; [intros out; apply first_success_Some |].
  split; [apply first_success_None | reflexivity].
Qed.

(** C8. A 200 response for a converted document has [Content-Type]
    [text/html; charset=utf-8], [Cache-Control] [no-cache] and a
    [Last-Modified] that formats the modification time of the MML source,
    or the clock when that time is not available; a 200 response for a
    static file has the [Content-Type] guessed from its name and
    [Cache-Control] [public, max-age=60]. *)
Theorem ok_response_headers {env : Env} :
  (forall p request w r w',
      _serve_mml p request w = (Ok r, w') ->
      status r = 200 ->
      headers_get (headers r) "Content-Type" = Some "text/html; charset=utf-8"
      /\ headers_get (headers r) "Cache-Control" = Some "no-cache"
      /\ headers_get (headers r) "Last-Modified"
         = Some (strftime (last_modified_time w p))
      /\ (forall t, file_mtime p w = (Ok (Some t), w) -> last_modified_time w p = t)
      /\ (file_mtime p w = (Ok None, w) -> last_modified_time w p = now w))
  /\ (forall p request w r w',
      _serve_file p request w = (Ok r, w') ->
      status r = 200 ->
      headers_get (headers r) "Content-Type" = Some (guess_mime_type (str p))
      /\ headers_get (headers r) "Cache-Control" = Some "public, max-age=60").
Proof.
  split.
  - intros p request w r w' Hserve Hst.
    destruct (serve_mml_spec p request w) as (o' & w1 & _ & _ & _ & _ & Hs).
    rewrite Hs in Hserve. destruct o' as [o | e]; [| discriminate Hserve].
    injection Hserve as <- _.
    assert (Htime :
      (forall t, file_mtime p w = (Ok (Some t), w) -> last_modified_time w p = t)
      /\ (file_mtime p w = (Ok None, w) -> last_modified_time w p = now w)).
    { rewrite file_mtime_spec. unfold last_modified_time.
      destruct (getmtime (fs w) p) as [t0 | e].
      - destruct (utcfromtimestamp t0); split; intros; congruence.
      - split; intros; congruence. }
    destruct o as [html |]; [| discriminate Hst].
    cbv zeta in *.
    destruct (match headers_get _ _ with Some _ => _ | None => _ end);
      [discriminate Hst |].
    repeat (split; [reflexivity |]). exact Htime.
  - intros p request w r w' Hserve Hst.
    destruct (serve_file_inv _ _ _ _ _ Hserve) as (content & t & Hstat).
    rewrite (serve_file_spec _ _ _ _ _ Hstat) in Hserve.
    injection Hserve as <- _.
    destruct (match headers_get _ _ with Some _ => _ | None => _ end);
      split; reflexivity.
Qed.

(** C9 (failing input). A converter that only has the content-based
    [convert_mml_to_html(text)]: its name is also one of the file-path
    candidates, so the candidate loop calls it with the path of the
    source, and the document returned is the conversion of the path, not
    of the file's text, which is what the content-based fallback yields. *)
Theorem content_only_converter_gets_the_path :
  let mml_path := "/srv/www/foo.mml" in
  fst (read_text (env := Sample.env_content_only) mml_path Sample.world0) = Ok "hello"
  /\ fst (content_fallback (env := Sample.env_content_only) Sample.content_only
            mml_path Sample.world0)
     = Ok (Some "<p>hello</p>")
  /\ fst (convert_mml_file_to_html_string (env := Sample.env_content_only)
            mml_path Sample.world0)
     = Ok (Some "<p>/srv/www/foo.mml</p>").
Proof. repeat split; vm_compute; reflexivity. Qed.

(** C10. [guess_mime_type] is a total function whose result is never the
    empty string: the guessed type when there is a non-empty one, the
    fallback otherwise; so the [Content-Type] of every response of
    [_serve_file] is not empty. *)
Theorem guess_mime_type_never_empty {env : Env} :
  (forall path,
      guess_mime_type path <> EmptyString
      /\ (forall mime, guess_type path = Some mime -> mime <> EmptyString ->
                       guess_mime_type path = mime)
      /\ (guess_type path = None \/ guess_type path = Some EmptyString ->
          guess_mime_type path = "application/octet-stream"))
  /\ (forall p request w r w',
      _serve_file p request w = (Ok r, w') ->
      headers_get (headers r) "Content-Type" = Some (guess_mime_type (str p))
      /\ guess_mime_type (str p) <> EmptyString).
Proof.
  assert (Hne : forall path, guess_mime_type path <> EmptyString).
  { intros path. unfold guess_mime_type.
    destruct (guess_type path) as [[| c m] |]; simpl; discriminate. }
  split.
  - intros path. split; [apply Hne |]. unfold guess_mime_type. split.
    + intros mime -> Hm. destruct mime; [congruence | reflexivity].
    + intros [-> | ->]; reflexivity.
  - intros p request w r w' Hserve. split; [| apply Hne].
    destruct (serve_file_inv _ _ _ _ _ Hserve) as (content & t & Hst).
    rewrite (serve_file_spec _ _ _ _ _ Hst) in Hserve.
    injection Hserve as <- _.
    destruct (match headers_get _ _ with Some _ => _ | None => _ end); reflexivity.
Qed.

(* ===================================================================== *)
(** ** Witnesses *)
(* ===================================================================== *)

(** Witness of C3: [foo.mml] and [foo.html] exist and [/foo] is no
    directory, so [/foo] is answered from [foo.mml]; the root has both
    [index.mml] and [index.html], so [/] is answered from [index.mml];
    [/foo.txt] does not exist, so it is answered from [foo.mml] too. *)
Lemma mml_preferred_over_html_witness :
  let serve := _serve_mml (env := Sample.env_file_writer) in
  let handle request :=
    handle_static_request (env := Sample.env_file_writer) request "/srv/www" false
      Sample.world0 in
  exists_ Sample.site ["srv"; "www"; "foo.html"] = true
  /\ exists_ Sample.site ["srv"; "www"; "index.html"] = true
  /\ handle (Sample.get "foo" [])
     = serve ["srv"; "www"; "foo.mml"] (Sample.get "foo" []) Sample.world0
  /\ handle (Sample.get EmptyString [])
     = serve ["srv"; "www"; "index.mml"] (Sample.get EmptyString []) Sample.world0
  /\ handle (Sample.get "foo.txt" [])
     = serve ["srv"; "www"; "foo.mml"] (Sample.get "foo.txt" []) Sample.world0.
Proof.
  split; [vm_compute; reflexivity |]. split; [vm_compute; reflexivity |].
  split; [| split].
  - apply (proj1 (mml_preferred_over_html (env := Sample.env_file_writer)
                    (Sample.get "foo" []) "/srv/www" false Sample.world0) "foo");
      vm_compute; reflexivity.
  - apply (proj1 (proj2 (mml_preferred_over_html (env := Sample.env_file_writer)
                           (Sample.get EmptyString []) "/srv/www" false Sample.world0)));
      vm_compute; reflexivity.
  - apply (proj2 (proj2 (mml_preferred_over_html (env := Sample.env_file_writer)
                           (Sample.get "foo.txt" []) "/srv/www" false Sample.world0))
             ["srv"; "www"; "foo.mml"]);
      vm_compute; try reflexivity. intros H; discriminate H.
Defined.


(** Witness of C5: three conditional requests for [style.css] in a row,
    and two for [/foo.mml], converted by running the converter script. *)
Lemma conditional_get_not_modified_witness :
  repeat_request
    (_serve_file (env := Sample.env_failing) ["srv"; "www"; "style.css"]
       (Sample.get "style.css"
          [("If-None-Match", "36d9698b562ce792acafef5e693a64bd4ca9377e")]))
    3%nat Sample.world0
  = (Ok (replicate 3%nat
           (mkResponse 304 None None
              [ ("Content-Type", "text/css");
                ("ETag", "36d9698b562ce792acafef5e693a64bd4ca9377e");
                ("Cache-Control", "public, max-age=60") ] None)),
     Sample.world0)
  /\ exists w',
       repeat_request
         (_serve_mml (env := Sample.env_script) ["srv"; "www"; "foo.mml"]
            (Sample.get "foo.mml"
               [("If-None-Match", "21f527c91a4fd00eec9fbfd8bab90169b2fbe10f")]))
         2%nat Sample.world0
       = (Ok (replicate 2%nat
                (mkResponse 304 None None
                   [ ("Content-Type", "text/html; charset=utf-8");
                     ("ETag", "21f527c91a4fd00eec9fbfd8bab90169b2fbe10f");
                     ("Cache-Control", "no-cache");
                     ("Last-Modified", "Fri, 02 Jan 1970 00:00:00 GMT") ] None)),
          w').
Proof.
  split.
  - refine (proj1 (proj1 (conditional_get_not_modified (env := Sample.env_failing))
                     ["srv"; "www"; "style.css"] _ (Py.encode_utf8 "p { }") 0
                     Sample.world0 3%nat _ _));
      vm_compute; reflexivity.
  - refine (proj2 (proj2 (conditional_get_not_modified (env := Sample.env_script)))
              ["srv"; "www"; "foo.mml"] _ "<p>hello</p>" Sample.world0 2%nat _ _).
    + intros [f ts lg lc nw] Hfs Hnow. simpl in Hfs, Hnow. subst f nw.
      vm_compute. reflexivity.
    + vm_compute. reflexivity.
Defined.

(** Witness of C6, one attempt for each way out of the [try] block: the
    entry point returns the document; it writes the document to the
    temporary file; it accepts neither two arguments nor one; it raises
    after it has begun to write; it ends in [sys.exit]. *)
Lemma temporary_file_always_removed_witness :
  let tmp := os_path (env := Sample.env_file_writer) "/tmp/tmpk3v9x1.html" in
  let attempt fn :=
    candidate_attempt (env := Sample.env_file_writer) "convert_file" fn
      "/srv/www/foo.mml" Sample.world0 in
  let removed fn :=
    exists r w', attempt fn = (r, w')
                 /\ exists_ (fs w') tmp = false /\ fs w' = fs Sample.world0
                 /\ match r with
                    | Ok _ => True
                    | Raise e => raised_by fn "/srv/www/foo.mml" e
                                 /\ is_Exception e = false
                    end in
  (fst (attempt Sample.returning_fn) = Ok (Some "<p>hello</p>")
   /\ removed Sample.returning_fn)
  /\ (fst (attempt Sample.writer_fn) = Ok (Some "<p>hello</p>")
      /\ removed Sample.writer_fn)
  /\ (fst (attempt Sample.nullary_fn) = Ok None /\ removed Sample.nullary_fn)
  /\ (fst (attempt Sample.crashing_fn) = Ok None /\ removed Sample.crashing_fn)
  /\ (fst (attempt Sample.exiting_fn) = Raise (SystemExit "1")
      /\ removed Sample.exiting_fn).
Proof.
  repeat split; try (vm_compute; reflexivity);
    apply (temporary_file_always_removed (env := Sample.env_file_writer));
    vm_compute; reflexivity.
Defined.

(** Witness of C7: the converter can only be run as a script; the first
    command fails with a message on standard error, the second times
    out, the third wins. *)
Lemma subprocess_first_success_wins_witness :
  fst (_run_subprocess_and_capture (env := Sample.env_script) "/srv/www/foo.mml"
         Sample.world0)
  = Ok (Some "<p>hello</p>").
Proof.
  destruct (proj1 (proj2 (subprocess_first_success_wins (env := Sample.env_script)
                            "/srv/www/foo.mml" Sample.world0)))
    as (w' & -> & _).
  vm_compute. reflexivity.
Defined.

(** Witness of C8: the 200 response for [/foo], converted from
    [foo.mml], whose modification time is one day after the epoch, and
    the 200 response for [/style.css]. *)
Lemma ok_response_headers_witness :
  let r := mkResponse 200 None (Some (Py.encode_utf8 "<p>hello</p>"))
             [ ("Content-Type", "text/html; charset=utf-8");
               ("ETag", "21f527c91a4fd00eec9fbfd8bab90169b2fbe10f");
               ("Cache-Control", "no-cache");
               ("Last-Modified", "Fri, 02 Jan 1970 00:00:00 GMT") ] None in
  let r' := mkResponse 200 None (Some (Py.encode_utf8 "p { }"))
              [ ("Content-Type", "text/css");
                ("ETag", "36d9698b562ce792acafef5e693a64bd4ca9377e");
                ("Cache-Control", "public, max-age=60") ] None in
  fst (_serve_mml (env := Sample.env_file_writer) ["srv"; "www"; "foo.mml"]
         (Sample.get "foo" []) Sample.world0) = Ok r
  /\ headers_get (headers r) "Last-Modified"
     = Some (strftime (Env := Sample.env_file_writer)
               (last_modified_time Sample.world0 ["srv"; "www"; "foo.mml"]))
  /\ fst (_serve_file (env := Sample.env_file_writer) ["srv"; "www"; "style.css"]
            (Sample.get "style.css" []) Sample.world0) = Ok r'
  /\ headers_get (headers r') "Cache-Control" = Some "public, max-age=60".
Proof.
  split; [vm_compute; reflexivity |]. split; [| split; [vm_compute; reflexivity |]].
  - refine (proj1 (proj2 (proj2
              (proj1 (ok_response_headers (env := Sample.env_file_writer))
                 ["srv"; "www"; "foo.mml"] (Sample.get "foo" []) Sample.world0 _
                 (snd (_serve_mml (env := Sample.env_file_writer)
                         ["srv"; "www"; "foo.mml"] (Sample.get "foo" []) Sample.world0))
                 _ _))));
      vm_compute; reflexivity.
  - refine (proj2 (proj2 (ok_response_headers (env := Sample.env_file_writer))
                     ["srv"; "www"; "style.css"] (Sample.get "style.css" [])
                     Sample.world0 _ Sample.world0 _ _));
      vm_compute; reflexivity.
Defined.

(** Witness of C10: a file without a known extension is served as
    [application/octet-stream]. *)
Lemma guess_mime_type_never_empty_witness :
  guess_mime_type (env := Sample.env_failing) "/srv/www/foo.mml"
  = "application/octet-stream"
  /\ headers_get
       (headers (mkResponse 200 None (Some (Py.encode_utf8 "hello"))
                   [ ("Content-Type", "application/octet-stream");
                     ("ETag", "aaf4c61ddcc5e8a2dabede0f3b482cd9aea9434d");
                     ("Cache-Control", "public, max-age=60") ] None))
       "Content-Type"
     = Some (guess_mime_type (env := Sample.env_failing) "/srv/www/foo.mml").
Proof.
  split.
  - apply (proj2 (proj2 (proj1 (guess_mime_type_never_empty (env := Sample.env_failing))
                           "/srv/www/foo.mml"))).
    left. vm_compute. reflexivity.
  - refine (proj1 (proj2 (guess_mime_type_never_empty (env := Sample.env_failing))
                     ["srv"; "www"; "foo.mml"] (Sample.get "foo.mml" []) Sample.world0
                     _ Sample.world0 _)).
    vm_compute. reflexivity.
Defined.

(* ===================================================================== *)
(** ** The resolver and the handler *)
(* ===================================================================== *)

Section ResolverProperties.

Context {env : Env}.

(** The handler is its resolver followed by the response builder. *)
Lemma handle_static_request_resolves (request : Request) (filesystem_root : string)
    (listing : bool) (w : World) :
  handle_static_request request filesystem_root listing w
  = answer (resolve_target request filesystem_root listing (fs w)) request w.
Proof.
  enter_handler. unfold resolve_target.
  destruct (negb (Py.startswith _ _)); [reflexivity |].
  unfold bind at 1. unfold get_fs. cbv beta iota.
  set (joined := joined_of request filesystem_root).
  change (map (truediv joined) ["index.mml"; "index.html"])
    with [truediv joined "index.mml"; truediv joined "index.html"].
  change (truediv joined "index.mml") with (joined ++ ["index.mml"]).
  change (truediv joined "index.html") with (joined ++ ["index.html"]).
  unfold List.find, resolve_bare, resolve_candidate, probe_siblings, listing_items.
  change (String.eqb ".mml" ".mml") with true.
  change (String.eqb ".html" ".mml") with false.
  cbv beta iota.
  repeat (match goal with
          | |- (if ?b then _ else _) _ = _ => destruct b eqn:?
          | |- (match (if ?b then _ else _) with _ => _ end) _ = _ =>
              destruct b eqn:?
          | |- (match with_suffix ?p ?s with _ => _ end) _ = _ =>
              destruct (with_suffix p s) eqn:?
          end; cbv beta iota;
          repeat match goal with
                 | H : ?x = true |- context [?x] => rewrite H
                 | H : ?x = false |- context [?x] => rewrite H
                 end; cbv beta iota);
    reflexivity.
Qed.

End ResolverProperties.

(* ===================================================================== *)
(** ** Suffixes *)
(* ===================================================================== *)

Lemma length_append (a b : string) :
  String.length (a +:+ b) = (String.length a + String.length b)%nat.
Proof.
  induction a as [| c a IH]; [reflexivity |].
  change (S (String.length (a +:+ b)) = S (String.length a + String.length b)).
  f_equal. exact IH.
Qed.

Lemma substring_append_right (a b : string) :
  String.substring (String.length a) (String.length b) (a +:+ b) = b.
Proof.
  induction a as [| c a IH]; [apply substring_all | exact IH].
Qed.

Lemma length_substring (n m : nat) (s : string) :
  (n + m <= String.length s)%nat -> String.length (String.substring n m s) = m.
Proof.
  revert n m. induction s as [| c s IH]; intros n m H; simpl in H.
  - assert (n = 0%nat) by lia. assert (m = 0%nat) by lia. subst. reflexivity.
  - destruct n as [| n]; simpl.
    + destruct m as [| m]; [reflexivity |]. simpl. f_equal. apply IH. lia.
    + apply IH. lia.
Qed.

Lemma rfind_append_ext (stem ext : string) :
  Py.rfind "." ext = Some 0%nat ->
  Py.rfind "." (stem +:+ ext) = Some (String.length stem).
Proof.
  intros H. induction stem as [| c stem IH]; [exact H |].
  change (Py.rfind "." (String c stem +:+ ext))
    with (match Py.rfind "." (stem +:+ ext) with
          | Some i => Some (S i)
          | None => if Ascii.eqb c "." then Some 0%nat else None
          end).
  rewrite IH. reflexivity.
Qed.

(** A name that ends in an extension has that extension as its suffix. *)
Lemma name_suffix_append (stem ext : string) :
  stem <> EmptyString ->
  Py.rfind "." ext = Some 0%nat ->
  (2 <= String.length ext)%nat ->
  name_suffix (stem +:+ ext) = ext.
Proof.
  intros Hne Hdot Hlen. unfold name_suffix.
  rewrite (rfind_append_ext _ _ Hdot), length_append.
  assert (0 < String.length stem)%nat by (destruct stem; [congruence | simpl; lia]).
  assert (H1 : (0 <? String.length stem)%nat = true) by (apply Nat.ltb_lt; lia).
  assert (H2 : (String.length stem <? String.length stem + String.length ext - 1)%nat = true)
    by (apply Nat.ltb_lt; lia).
  rewrite H1, H2. simpl andb. cbv iota.
  replace (String.length stem + String.length ext - String.length stem)%nat
    with (String.length ext) by lia.
  apply substring_append_right.
Qed.

Lemma rfind_bound (c : ascii) (s : string) (i : nat) :
  Py.rfind c s = Some i -> (i < String.length s)%nat.
Proof.
  revert i. induction s as [| a s IH]; intros i H; simpl in H; [discriminate H |].
  destruct (Py.rfind c s) as [j |].
  - injection H as <-. specialize (IH j eq_refl). simpl. lia.
  - destruct (Ascii.eqb a c); [| discriminate H]. injection H as <-. simpl. lia.
Qed.

(** The stem [with_suffix] keeps is never empty. *)
Lemma stem_nonempty (nm : string) :
  nm <> EmptyString ->
  String.substring 0 (String.length nm - String.length (name_suffix nm)) nm
  <> EmptyString.
Proof.
  intros Hne. unfold name_suffix.
  destruct (Py.rfind "." nm) as [i |] eqn:Hr.
  - destruct ((0 <? i)%nat && (i <? String.length nm - 1)%nat) eqn:Hc.
    + apply andb_true_iff in Hc as [H0 H1].
      apply Nat.ltb_lt in H0, H1.
      rewrite length_substring by lia.
      replace (String.length nm - (String.length nm - i))%nat with i by lia.
      intros Heq. apply (f_equal String.length) in Heq.
      rewrite length_substring in Heq by lia. simpl in Heq. lia.
    + simpl. rewrite Nat.sub_0_r, substring_all. exact Hne.
  - simpl. rewrite Nat.sub_0_r, substring_all. exact Hne.
Qed.

Lemma with_suffix_inv (p q : Path) (ext : string) :
  with_suffix p ext = Some q ->
  name p <> EmptyString
  /\ exists stem, stem <> EmptyString /\ q = removelast p ++ [stem +:+ ext].
Proof.
  unfold with_suffix. destruct (String.eqb_spec (name p) EmptyString) as [| Hne];
    [intros H; discriminate H |].
  intros [= <-]. split; [exact Hne |].
  eexists. split; [apply stem_nonempty, Hne | reflexivity].
Qed.

Lemma with_suffix_Some (p : Path) (ext : string) :
  name p <> EmptyString -> exists q, with_suffix p ext = Some q.
Proof.
  intros Hne. unfold with_suffix. apply String.eqb_neq in Hne. rewrite Hne. eauto.
Qed.

(** The result of [with_suffix] has the suffix it was given. *)
Lemma suffix_with_suffix (p q : Path) (ext : string) :
  Py.rfind "." ext = Some 0%nat ->
  (2 <= String.length ext)%nat ->
  with_suffix p ext = Some q ->
  suffix q = ext /\ name q <> EmptyString.
Proof.
  intros Hdot Hlen Hws.
  destruct (with_suffix_inv _ _ _ Hws) as (_ & stem & Hstem & ->).
  unfold suffix. rewrite name_snoc. split.
  - apply name_suffix_append; assumption.
  - destruct stem; [congruence | discriminate].
Qed.

(* ===================================================================== *)
(** ** What the resolver picks *)
(* ===================================================================== *)

Section TargetProperties.

Context {env : Env}.

Lemma probe_siblings_cases (f : FS) (p : Path) (t : Target) :
  probe_siblings f p = t ->
  match t with
  | Converted q => suffix q = ".mml" /\ exists_ f q = true
  | StaticFile q => suffix q = ".html" /\ exists_ f q = true
  | Fault _ => name p = EmptyString
  | NotFound => True
  | Forbidden | Listing _ => False
  end.
Proof.
  unfold probe_siblings. intros <-.
  destruct (with_suffix p ".mml") as [m |] eqn:Hm.
  - destruct (exists_ f m) eqn:Em.
    + split; [| exact Em]. eapply suffix_with_suffix; [| | exact Hm]; [reflexivity | simpl; lia].
    + destruct (with_suffix p ".html") as [h |] eqn:Hh.
      * destruct (exists_ f h) eqn:Eh; [| exact I].
        split; [| exact Eh].
        eapply suffix_with_suffix; [| | exact Hh]; [reflexivity | simpl; lia].
      * destruct (with_suffix_inv _ _ _ Hm) as [Hne _].
        destruct (with_suffix_Some p ".html" Hne) as [q Hq]. congruence.
  - destruct (String.eqb_spec (name p) EmptyString) as [E | Hne]; [exact E |].
    destruct (with_suffix_Some p ".mml" Hne) as [q Hq]. congruence.
Qed.

Lemma resolve_candidate_cases (f : FS) (p : Path) (t : Target) :
  resolve_candidate f p = t ->
  match t with
  | Converted q => suffix q = ".mml" /\ exists_ f q = true
  | StaticFile q =>
      suffix q <> ".mml" /\ exists_ f q = true
      /\ (is_file f q = true \/ suffix q = ".html")
  | Fault _ => name p = EmptyString
  | NotFound => True
  | Forbidden | Listing _ => False
  end.
Proof.
  unfold resolve_candidate. intros <-.
  destruct (String.eqb_spec (suffix p) ".mml") as [Hs | Hs]; simpl.
  - destruct (exists_ f p) eqn:Ep; [split; assumption |]. simpl.
    pose proof (probe_siblings_cases f p _ eq_refl) as H.
    destruct (probe_siblings f p); try exact H.
    destruct H as [H1 H2].
      split; [rewrite H1; discriminate | split; [exact H2 | right; exact H1]].
  - destruct (exists_ f p && is_file f p) eqn:Ep.
    + apply andb_true_iff in Ep as [Ep Ef].
      split; [assumption | split; [assumption | left; assumption]].
    + pose proof (probe_siblings_cases f p _ eq_refl) as H.
      destruct (probe_siblings f p); try exact H.
      destruct H as [H1 H2].
      split; [rewrite H1; discriminate | split; [exact H2 | right; exact H1]].
Qed.

Lemma resolve_bare_cases (f : FS) (p : Path) (t : Target) :
  resolve_bare f p = t ->
  match t with
  | Converted q => suffix q = ".mml" /\ exists_ f q = true
  | StaticFile q =>
      suffix q <> ".mml" /\ exists_ f q = true
      /\ (is_file f q = true \/ suffix q = ".html")
  | Fault _ => name p = EmptyString
  | NotFound => True
  | Forbidden | Listing _ => False
  end.
Proof.
  unfold resolve_bare. intros <-.
  destruct (String.eqb (suffix p) EmptyString);
    [| apply resolve_candidate_cases; reflexivity].
  destruct (with_suffix p ".mml") as [m |] eqn:Hm.
  - destruct (with_suffix p ".html") as [h |] eqn:Hh.
    + destruct (exists_ f m) eqn:Em.
      * split; [| exact Em].
        eapply suffix_with_suffix; [| | exact Hm]; [reflexivity | simpl; lia].
      * destruct (exists_ f h) eqn:Eh.
        -- pose proof (resolve_candidate_cases f h _ eq_refl) as H.
           destruct (resolve_candidate f h); try exact H.
           exfalso. destruct (suffix_with_suffix p h ".html") as [_ Hn];
             [reflexivity | simpl; lia | exact Hh | congruence].
        -- apply resolve_candidate_cases; reflexivity.
    + destruct (with_suffix_inv _ _ _ Hm) as [Hne _].
      destruct (with_suffix_Some p ".html" Hne) as [q Hq]. congruence.
  - destruct (String.eqb_spec (name p) EmptyString) as [E | Hne]; [exact E |].
    destruct (with_suffix_Some p ".mml" Hne) as [q Hq]. congruence.
Qed.

Lemma resolve_target_cases (request : Request) (filesystem_root : string)
    (listing : bool) (f : FS) (t : Target) :
  resolve_target request filesystem_root listing f = t ->
  match t with
  | Converted q => suffix q = ".mml" /\ exists_ f q = true
  | StaticFile q =>
      suffix q <> ".mml" /\ exists_ f q = true
      /\ (is_file f q = true \/ suffix q = ".html")
  | Fault _ =>
      is_dir f (joined_of request filesystem_root) = false
      /\ name (joined_of request filesystem_root) = EmptyString
  | Forbidden =>
      Py.startswith (str (joined_of request filesystem_root))
        (str (root_of filesystem_root)) = false
  | _ =>
      Py.startswith (str (joined_of request filesystem_root))
        (str (root_of filesystem_root)) = true
  end.
Proof.
  unfold resolve_target. intros <-.
  set (joined := joined_of request filesystem_root).
  destruct (Py.startswith (str joined) _) eqn:Hg; simpl negb; cbv iota;
    [| reflexivity].
  destruct (is_dir f joined) eqn:Hd.
  - destruct (exists_ f (joined ++ ["index.mml"])) eqn:E1.
    { pose proof (resolve_bare_cases f (joined ++ ["index.mml"]) _ eq_refl) as H.
      destruct (resolve_bare f (joined ++ ["index.mml"]));
        try exact H; try reflexivity; try contradiction.
      rewrite name_snoc in H. discriminate H. }
    destruct (exists_ f (joined ++ ["index.html"])) eqn:E2.
    { pose proof (resolve_bare_cases f (joined ++ ["index.html"]) _ eq_refl) as H.
      destruct (resolve_bare f (joined ++ ["index.html"]));
        try exact H; try reflexivity; try contradiction.
      rewrite name_snoc in H. discriminate H. }
    destruct listing; reflexivity.
  - pose proof (resolve_bare_cases f joined _ eq_refl) as H.
    destruct (resolve_bare f joined);
      try exact H; try reflexivity; try contradiction.
    split; [reflexivity | exact H].
Qed.

End TargetProperties.

(* ===================================================================== *)
(** ** Components of real paths *)
(* ===================================================================== *)

Lemma split_slash_no_slash_parts (s : string) :
  Forall (fun c => no_slash c = true) (Py.split_slash s).
Proof.
  induction s as [| a s IH]; simpl.
  - constructor; [reflexivity | constructor].
  - destruct (Ascii.eqb a "/") eqn:Ha.
    + constructor; [reflexivity | exact IH].
    + destruct (Py.split_slash s) as [| x xs]; [constructor; [| constructor] |].
      * simpl. rewrite Ha. reflexivity.
      * inversion IH; subst. constructor; [| assumption].
        simpl. rewrite Ha. simpl. assumption.
Qed.

Lemma parts_of_ok (s : string) : Forall part_ok (parts_of s).
Proof.
  unfold parts_of. pose proof (split_slash_no_slash_parts s) as H.
  induction H as [| c l Hc Hl IH]; simpl; [constructor |].
  destruct (keep_part c) eqn:Hk; [| exact IH].
  constructor; [| exact IH]. split; [| exact Hc].
  unfold keep_part in Hk. apply andb_true_iff in Hk as [Hk _].
  apply negb_true_iff, String.eqb_neq in Hk. exact Hk.
Qed.

Lemma Forall_removelast {A} (P : A -> Prop) (l : list A) :
  Forall P l -> Forall P (removelast l).
Proof.
  induction 1 as [| x l Hx Hl IH]; simpl; [constructor |].
  destruct l; [constructor | constructor; assumption].
Qed.

Lemma resolve_ok (p : Path) : Forall part_ok p -> Forall part_ok (resolve p).
Proof.
  unfold resolve.
  assert (H : forall l acc, Forall part_ok l -> Forall part_ok acc ->
                            Forall part_ok (fold_left resolve_step l acc)).
  { induction l as [| c l IH]; intros acc Hl Hacc; simpl; [exact Hacc |].
    inversion Hl; subst. apply IH; [assumption |]. unfold resolve_step.
    destruct (String.eqb c "..").
    - apply Forall_removelast, Hacc.
    - apply Forall_app. split; [exact Hacc | constructor; [assumption | constructor]]. }
  intros Hp. apply H; [exact Hp | constructor].
Qed.

Section RealPaths.

Context {env : Env}.

Lemma root_of_ok (filesystem_root : string) :
  Forall part_ok cwd -> Forall part_ok (root_of filesystem_root).
Proof.
  intros Hcwd. unfold root_of, absolute. apply resolve_ok, Forall_app.
  split; [destruct (is_abs filesystem_root); [constructor | exact Hcwd] | apply parts_of_ok].
Qed.

Lemma joined_of_ok (request : Request) (filesystem_root : string) :
  Forall part_ok cwd -> Forall part_ok (joined_of request filesystem_root).
Proof.
  intros Hcwd. unfold joined_of, truediv. apply resolve_ok.
  destruct (is_abs (rel_url_path request)); [apply parts_of_ok |].
  apply Forall_app. split; [apply root_of_ok, Hcwd | apply parts_of_ok].
Qed.

End RealPaths.

Lemma name_ok (p : Path) : Forall part_ok p -> p <> [] -> name p <> EmptyString.
Proof.
  intros Hp Hne. unfold name.
  destruct (exists_last Hne) as (l & c & ->). rewrite last_last.
  apply Forall_app in Hp as [_ Hc]. inversion Hc as [| ? ? [H _] _]; subst. exact H.
Qed.

Lemma not_dir_nonroot (f : FS) (p : Path) : is_dir f p = false -> p <> [].
Proof. intros H ->. discriminate H. Qed.

(* ===================================================================== *)
(** ** The guard, exactly *)
(* ===================================================================== *)

Lemma prefix_cons (a b : ascii) (s t : string) :
  String.prefix (String a s) (String b t) = true <-> a = b /\ String.prefix s t = true.
Proof.
  simpl. destruct (ascii_dec a b) as [-> | Hne].
  - tauto.
  - split; [intros H; discriminate H | intros [H _]; contradiction].
Qed.

Lemma no_slash_cons (c : ascii) (s : string) :
  no_slash (String c s) = true <-> c <> "/"%char /\ no_slash s = true.
Proof.
  simpl. rewrite andb_true_iff, negb_true_iff, Ascii.eqb_neq. tauto.
Qed.

(** What may follow a component in the string of a path: nothing, or a
    slash and the rest. *)
Lemma concat_cons (c : string) (q : list string) :
  String.concat "/" (c :: q) = c +:+ path_tail q.
Proof.
  destruct q; simpl; [rewrite append_nil_r |]; reflexivity.
Qed.

Lemma prefix_within_component (r c : string) (q : list string) :
  no_slash r = true ->
  String.prefix r (c +:+ path_tail q) = true ->
  exists y, c = r +:+ y.
Proof.
  revert c. induction r as [| a r IH]; intros c Hr H.
  - exists c. reflexivity.
  - apply no_slash_cons in Hr as [Ha Hr].
    destruct c as [| b c].
    + change (EmptyString +:+ path_tail q) with (path_tail q) in H.
      destruct q as [| x q]; [discriminate H |].
      change (path_tail (x :: q)) with (String "/" (String.concat "/" (x :: q))) in H.
      apply prefix_cons in H as [H _]. contradiction.
    + change (String b c +:+ path_tail q) with (String b (c +:+ path_tail q)) in H.
      apply prefix_cons in H as [-> H].
      destruct (IH c Hr H) as [y ->]. exists y. reflexivity.
Qed.

Lemma prefix_across_component (r c R : string) (q : list string) :
  no_slash r = true -> no_slash c = true ->
  String.prefix (r +:+ String "/" R) (c +:+ path_tail q) = true ->
  r = c /\ String.prefix (String "/" R) (path_tail q) = true.
Proof.
  revert c. induction r as [| a r IH]; intros c Hr Hc H.
  - destruct c as [| b c]; [split; [reflexivity | exact H] |].
    change (EmptyString +:+ String "/" R) with (String "/" R) in H.
    change (String b c +:+ path_tail q) with (String b (c +:+ path_tail q)) in H.
    apply prefix_cons in H as [<- _]. apply no_slash_cons in Hc as [Hc _]. contradiction.
  - apply no_slash_cons in Hr as [Ha Hr].
    change (String a r +:+ String "/" R) with (String a (r +:+ String "/" R)) in H.
    destruct c as [| b c].
    + change (EmptyString +:+ path_tail q) with (path_tail q) in H.
      destruct q as [| x q]; [discriminate H |].
      change (path_tail (x :: q)) with (String "/" (String.concat "/" (x :: q))) in H.
      apply prefix_cons in H as [H _]. contradiction.
    + change (String b c +:+ path_tail q) with (String b (c +:+ path_tail q)) in H.
      apply prefix_cons in H as [-> H]. apply no_slash_cons in Hc as [_ Hc].
      destruct (IH c Hr Hc H) as [-> H']. split; [reflexivity | exact H'].
Qed.

Lemma concat_prefix_cases (root joined : Path) :
  Forall part_ok root -> Forall part_ok joined -> root <> [] ->
  String.prefix (String.concat "/" root) (String.concat "/" joined) = true ->
  descendant_of root joined = true \/ name_extension root joined.
Proof.
  revert joined. induction root as [| r root IH]; intros joined Hroot Hjoined Hne H;
    [congruence |].
  inversion Hroot as [| ? ? [Hr0 Hr] Hroot']; subst.
  destruct joined as [| c q].
  { exfalso. rewrite concat_cons in H. simpl in H.
    destruct r; [congruence | discriminate H]. }
  inversion Hjoined as [| ? ? [Hc0 Hc] Hq]; subst.
  rewrite !concat_cons in H.
  destruct root as [| r2 root].
  - change (path_tail []) with EmptyString in H. rewrite append_nil_r in H.
    destruct (prefix_within_component r c q Hr H) as [y ->].
    destruct (String.eqb_spec y EmptyString) as [-> | Hy].
    + left. simpl. rewrite append_nil_r, String.eqb_refl. reflexivity.
    + right. exists [], r, y, q. auto.
  - change (path_tail (r2 :: root)) with (String "/" (String.concat "/" (r2 :: root))) in H.
    destruct (prefix_across_component r c _ q Hr Hc H) as [-> H'].
    destruct q as [| c2 q]; [discriminate H' |].
    change (path_tail (c2 :: q)) with (String "/" (String.concat "/" (c2 :: q))) in H'.
    apply prefix_cons in H' as [_ H'].
    destruct (IH (c2 :: q) Hroot' Hq ltac:(discriminate) H') as [Hd | Hx].
    + left. simpl. rewrite String.eqb_refl. exact Hd.
    + right. destruct Hx as (parent & r' & y & q' & Hy & E1 & E2).
      exists (c :: parent), r', y, q'. rewrite E1, E2. auto.
Qed.

(** The guard lets a path through exactly when it is the root or below
    it, or when it is, or is below, a sibling of the root whose name
    begins with the name of the root. *)
Lemma guard_exact (root joined : Path) :
  Forall part_ok root -> Forall part_ok joined ->
  Py.startswith (str joined) (str root) = true
  <-> descendant_of root joined = true \/ name_extension root joined.
Proof.
  intros Hroot Hjoined. split.
  - intros H. destruct root as [| r root]; [left; reflexivity |].
    apply concat_prefix_cases; [assumption | assumption | discriminate |].
    unfold Py.startswith, str, Py.join in H.
    change ("/" +:+ ?s) with (String "/" s) in H.
    apply prefix_cons in H as [_ H]. exact H.
  - intros [H | (parent & r & y & q & _ & -> & ->)].
    + apply descendant_passes_guard, H.
    + apply name_extension_passes_guard.
Qed.

(* ===================================================================== *)
(** ** The handler, case by case *)
(* ===================================================================== *)

Section HandlerProperties.

Context {env : Env}.

Lemma resolve_target_forbidden (request : Request) (filesystem_root : string)
    (listing : bool) (f : FS) :
  Py.startswith (str (joined_of request filesystem_root))
    (str (root_of filesystem_root)) = false ->
  resolve_target request filesystem_root listing f = Forbidden.
Proof.
  intros Hg. unfold resolve_target.
  fold (joined_of request filesystem_root). fold (root_of filesystem_root).
  rewrite Hg. reflexivity.
Qed.

Lemma handler_cases (request : Request) (filesystem_root : string)
    (listing : bool) (w : World) :
  Forall part_ok cwd ->
  let root := root_of filesystem_root in
  let joined := joined_of request filesystem_root in
  let handled := handle_static_request request filesystem_root listing w in
  (Py.startswith (str joined) (str root) = false
   /\ handled = (Ok (mkResponse 403 (Some "Forbidden") None [] None), w))
  \/ (Py.startswith (str joined) (str root) = true
      /\ (handled = (Ok (mkResponse 404 (Some "Not Found") None [] None), w)
          \/ (exists items,
                 handled = (Ok (mkResponse 200 (Some (listing_body (path request) items))
                                           None [] (Some "text/html")), w))
          \/ (exists p, suffix p = ".mml" /\ exists_ (fs w) p = true
                        /\ handled = _serve_mml p request w)
          \/ (exists p, suffix p <> ".mml" /\ exists_ (fs w) p = true
                        /\ (is_file (fs w) p = true \/ suffix p = ".html")
                        /\ handled = _serve_file p request w))).
Proof.
  intros Hcwd root joined handled. unfold handled.
  rewrite handle_static_request_resolves.
  destruct (Py.startswith (str joined) (str root)) eqn:Hg.
  2:{ left. split; [reflexivity |].
      unfold joined, root in Hg.
      rewrite (resolve_target_forbidden _ _ listing (fs w) Hg). reflexivity. }
  right. split; [reflexivity |].
  pose proof (resolve_target_cases request filesystem_root listing (fs w) _ eq_refl) as H.
  destruct (resolve_target request filesystem_root listing (fs w)) as [| | items | p | p | e];
    simpl answer.
  - fold joined root in H. congruence.
  - left. reflexivity.
  - right. left. exists items. reflexivity.
  - right. right. left. exists p. destruct H. auto.
  - right. right. right. exists p. destruct H as (? & ? & ?). auto.
  - destruct H as [Hd Hn]. exfalso.
    apply (name_ok (joined_of request filesystem_root));
      [apply joined_of_ok, Hcwd | apply (not_dir_nonroot (fs w)), Hd | exact Hn].
Qed.

End HandlerProperties.

(* ===================================================================== *)
(** ** More on suffixes and directories *)
(* ===================================================================== *)

Lemma substring_append_left (a b : string) :
  String.substring 0 (String.length a) (a +:+ b) = a.
Proof.
  induction a as [| c a IH]; [destruct b; reflexivity |].
  change (String c (String.substring 0 (String.length a) (a +:+ b)) = String c a).
  f_equal. exact IH.
Qed.

Lemma removelast_snoc {A} (l : list A) (x : A) : removelast (l ++ [x]) = l.
Proof. apply removelast_last. Qed.

(** Changing the suffix twice is changing it once. *)
Lemma with_suffix_twice (p q : Path) (ext ext' : string) :
  Py.rfind "." ext = Some 0%nat ->
  (2 <= String.length ext)%nat ->
  with_suffix p ext = Some q ->
  with_suffix q ext' = with_suffix p ext'.
Proof.
  intros Hdot Hlen Hws. unfold with_suffix in *.
  destruct (String.eqb_spec (name p) EmptyString) as [| Hne]; [discriminate Hws |].
  injection Hws as <-.
  pose proof (stem_nonempty _ Hne) as Hstem.
  set (stem := String.substring 0 _ (name p)) in *.
  rewrite name_snoc, removelast_snoc.
  destruct (String.eqb_spec (stem +:+ ext) EmptyString) as [E | _].
  { destruct stem; [congruence | discriminate E]. }
  rewrite (name_suffix_append _ _ Hstem Hdot Hlen), length_append.
  replace (String.length stem + String.length ext - String.length ext)%nat
    with (String.length stem) by lia.
  rewrite substring_append_left. reflexivity.
Qed.

Lemma exists_not_dir_is_file (f : FS) (p : Path) :
  is_dir f p = false -> is_file f p = exists_ f p.
Proof.
  unfold is_dir, is_file, exists_. destruct (stat f p) as [[] |]; congruence.
Qed.

(** A path that is not a directory ends in 404 exactly when neither it nor
    its two siblings exist. *)
Lemma resolve_bare_not_found (f : FS) (p m h : Path) :
  with_suffix p ".mml" = Some m ->
  with_suffix p ".html" = Some h ->
  is_dir f p = false ->
  resolve_bare f p = NotFound
  <-> exists_ f p = false /\ exists_ f m = false /\ exists_ f h = false.
Proof.
  intros Hm Hh Hd.
  assert (Hprobe : forall q, with_suffix q ".mml" = Some m -> with_suffix q ".html" = Some h ->
            probe_siblings f q = NotFound <-> exists_ f m = false /\ exists_ f h = false).
  { intros q Hqm Hqh. unfold probe_siblings. rewrite Hqm, Hqh.
    destruct (exists_ f m); [split; [discriminate | intros [H _]; discriminate H] |].
    destruct (exists_ f h); [split; [discriminate | intros [_ H]; discriminate H] |].
    tauto. }
  assert (Hcand : resolve_candidate f p = NotFound
                  <-> exists_ f p = false /\ exists_ f m = false /\ exists_ f h = false).
  { unfold resolve_candidate. rewrite (exists_not_dir_is_file _ _ Hd).
    destruct (exists_ f p).
    - rewrite andb_true_r. simpl.
      destruct (String.eqb (suffix p) ".mml");
        (split; [discriminate | intros [H _]; discriminate H]).
    - rewrite andb_false_r. simpl. rewrite (Hprobe p Hm Hh). tauto. }
  unfold resolve_bare. rewrite Hm, Hh.
  destruct (String.eqb (suffix p) EmptyString); [| exact Hcand].
  destruct (exists_ f m) eqn:Em.
  { split; [discriminate | intros (_ & H & _); discriminate H]. }
  destruct (exists_ f h) eqn:Eh; [| exact Hcand].
  split; [| intros (_ & _ & H); discriminate H].
  intros H. exfalso.
  destruct (suffix_with_suffix p h ".html" eq_refl ltac:(simpl; lia) Hh) as [Hs _].
  unfold resolve_candidate in H. rewrite Hs in H.
  change (String.eqb ".html" ".mml") with false in H. simpl in H.
  rewrite Eh in H. simpl in H.
  destruct (is_file f h); [discriminate H |].
  assert (Hhm : with_suffix h ".mml" = Some m)
    by (rewrite (with_suffix_twice p h ".html" ".mml" eq_refl ltac:(simpl; lia) Hh); exact Hm).
  assert (Hhh : with_suffix h ".html" = Some h)
    by (rewrite (with_suffix_twice p h ".html" ".html" eq_refl ltac:(simpl; lia) Hh); exact Hh).
  apply (Hprobe h Hhm Hhh) in H as [_ H]. congruence.
Qed.

(** The entries of a directory: the paths of the file system one component
    below it, each once. *)
Lemma iterdir_spec (f : FS) (p q : Path) :
  In q (iterdir f p) <-> exists c n, q = p ++ [c] /\ f !! q = Some n.
Proof.
  unfold iterdir. rewrite filter_In, in_map_iff. split.
  - intros [([k n] & Hk & Hin) Hq]. simpl in Hk. subst k.
    apply list_elem_of_In, elem_of_map_to_list in Hin.
    destruct q as [| c0 q0]; [discriminate Hq |].
    apply bool_decide_eq_true in Hq.
    assert (Hne : c0 :: q0 <> []) by discriminate.
    destruct (exists_last Hne) as (l & c & E). rewrite E in *.
    rewrite removelast_snoc in Hq. subst l. eauto.
  - intros (c & n & -> & Hn). split.
    + exists (p ++ [c], n). split; [reflexivity |].
      apply list_elem_of_In, elem_of_map_to_list. exact Hn.
    + destruct (p ++ [c]) eqn:E; [destruct p; discriminate E |].
      rewrite <- E. apply bool_decide_eq_true. apply removelast_snoc.
Qed.

Lemma iterdir_NoDup (f : FS) (p : Path) : List.NoDup (iterdir f p).
Proof.
  unfold iterdir. apply List.NoDup_filter, NoDup_ListNoDup, NoDup_fst_map_to_list.
Qed.

(* ===================================================================== *)
(** ** What the static handler answers *)
(* ===================================================================== *)

Section HandlerTheorems.

Context {env : Env}.

Lemma serve_file_run (p : Path) (request : Request) (w : World) :
  _serve_file p request w =
  match stat (fs w) p with
  | Some (File content _) =>
      (Ok (if match headers_get (req_headers request) "If-None-Match" with
              | Some v => String.eqb v (compute_etag_bytes content)
              | None => false
              end
           then mkResponse 304 None None (file_headers p content) None
           else mkResponse 200 None (Some content) (file_headers p content) None), w)
  | Some (Dir _) => (Raise (OSError "Is a directory"), w)
  | None => (Raise (OSError "No such file or directory"), w)
  end.
Proof.
  destruct (stat (fs w) p) as [[t | content t] |] eqn:Hs.
  - unfold _serve_file, bind, read_file_bytes. rewrite Hs. reflexivity.
  - apply (serve_file_spec p request w content t Hs).
  - unfold _serve_file, bind, read_file_bytes. rewrite Hs. reflexivity.
Qed.

(** X1. Every payload the handler sends is the content of an existing regular
    file whose suffix is not [.mml], or the encoding of the conversion of
    an existing path whose suffix is [.mml]. *)
Theorem response_body_origin (request : Request) (filesystem_root : string)
    (listing : bool) (w w' : World) (r : Response) (b : Py.bytes) :
  Forall part_ok cwd ->
  handle_static_request request filesystem_root listing w = (Ok r, w') ->
  body r = Some b ->
  (exists p t, stat (fs w) p = Some (File b t) /\ suffix p <> ".mml" /\ w' = w)
  \/ (exists p html,
        suffix p = ".mml" /\ exists_ (fs w) p = true
        /\ convert_mml_file_to_html_string (str p) w = (Ok (Some html), w')
        /\ b = Py.encode_utf8 html).
Proof.
  intros Hcwd Hrun Hb.
  destruct (handler_cases request filesystem_root listing w Hcwd)
    as [[_ H] | [_ [H | [[items H] | [(p & Hs & He & H) | (p & Hs & He & _ & H)]]]]];
    rewrite Hrun in H.
  - injection H as -> _. discriminate Hb.
  - injection H as -> _. discriminate Hb.
  - injection H as -> _. discriminate Hb.
  - right. destruct (serve_mml_spec p request w) as (o' & w1 & Hc & _ & _ & _ & Hserve).
    rewrite Hserve in H. destruct o' as [o | e]; [| discriminate H].
    injection H as -> ->.
    destruct o as [html |]; [| discriminate Hb].
    exists p, html. repeat split; try assumption.
    destruct (match headers_get (req_headers request) "If-None-Match" with
              | Some v => _ | None => _ end); [discriminate Hb |].
    simpl in Hb. congruence.
  - left. rewrite serve_file_run in H.
    destruct (stat (fs w) p) as [[t | content t] |] eqn:Hstat; try discriminate H.
    injection H as -> ->. exists p, t.
    destruct (match headers_get (req_headers request) "If-None-Match" with
              | Some v => _ | None => _ end); [discriminate Hb |].
    simpl in Hb. injection Hb as <-. auto.
Qed.

(** A path that does not exist, whose [.mml] sibling does not exist
    either and whose [.html] sibling is a directory: the resolver settles
    on the directory. *)
Lemma html_directory_sibling_at (request : Request) (filesystem_root : string)
    (listing : bool) (w : World) (m h : Path) :
  let root := root_of filesystem_root in
  let joined := joined_of request filesystem_root in
  Py.startswith (str joined) (str root) = true ->
  exists_ (fs w) joined = false ->
  with_suffix joined ".mml" = Some m ->
  exists_ (fs w) m = false ->
  with_suffix joined ".html" = Some h ->
  is_dir (fs w) h = true ->
  handle_static_request request filesystem_root listing w
  = (Raise (OSError "Is a directory"), w).
Proof.
  intros root joined Hg Hex Hm Em Hh Hd.
  assert (Eh : exists_ (fs w) h = true).
  { unfold is_dir, exists_ in *. destruct (stat (fs w) h) as [[] |]; congruence. }
  assert (Fh : is_file (fs w) h = false).
  { unfold is_dir, is_file in *. destruct (stat (fs w) h) as [[] |]; congruence. }
  assert (Hdj : is_dir (fs w) joined = false).
  { unfold is_dir, exists_ in *. destruct (stat (fs w) joined) as [[] |]; congruence. }
  assert (Fj : is_file (fs w) joined = false).
  { unfold is_file, exists_ in *. destruct (stat (fs w) joined) as [[] |]; congruence. }
  assert (Hprobe : forall q, with_suffix q ".mml" = Some m ->
                             with_suffix q ".html" = Some h ->
                             probe_siblings (fs w) q = StaticFile h).
  { intros q Hqm Hqh. unfold probe_siblings. rewrite Hqm, Em, Hqh, Eh. reflexivity. }
  assert (Ht : resolve_target request filesystem_root listing (fs w) = StaticFile h).
  { unfold resolve_target. fold root joined. rewrite Hg, Hdj.
    change (negb true) with false. cbv iota.
    unfold resolve_bare. rewrite Hm, Hh, Em, Eh.
    assert (Hc : resolve_candidate (fs w) joined = StaticFile h).
    { unfold resolve_candidate. rewrite Hex, andb_false_r. simpl.
      apply Hprobe; assumption. }
    destruct (String.eqb (suffix joined) EmptyString); [| exact Hc].
    unfold resolve_candidate.
    destruct (suffix_with_suffix joined h ".html" eq_refl ltac:(simpl; lia) Hh) as [-> _].
    change (String.eqb ".html" ".mml") with false. rewrite Eh, Fh. simpl.
    apply Hprobe.
    - rewrite (with_suffix_twice joined h ".html" ".mml" eq_refl ltac:(simpl; lia) Hh).
      exact Hm.
    - rewrite (with_suffix_twice joined h ".html" ".html" eq_refl ltac:(simpl; lia) Hh).
      exact Hh. }
  rewrite handle_static_request_resolves, Ht. simpl answer.
  rewrite serve_file_run.
  unfold is_dir in Hd. destruct (stat (fs w) h) as [[t | content t] |];
    try discriminate Hd. reflexivity.
Qed.

(** X2. A request [/foo] for a plain extensionless name, where neither
    [foo] nor [foo.mml] exists under the root and [foo.html] is a
    directory, is not answered with 404: the handler settles on the
    directory and raises the error of reading it, and nothing has
    changed. *)
Theorem html_directory_sibling_raises (request : Request) (filesystem_root : string)
    (listing : bool) (w : World) (foo : string) :
  let root := root_of filesystem_root in
  match_tail request = Some foo ->
  simple_name foo = true ->
  name_suffix foo = EmptyString ->
  exists_ (fs w) (root ++ [foo]) = false ->
  exists_ (fs w) (root ++ [foo +:+ ".mml"]) = false ->
  is_dir (fs w) (root ++ [foo +:+ ".html"]) = true ->
  handle_static_request request filesystem_root listing w
  = (Raise (OSError "Is a directory"), w).
Proof.
  intros root Htail Hsimple Hsfx Hex Hm Hh.
  pose proof (simple_name_inv _ Hsimple) as (Hne & _ & Hdd & _).
  assert (Hj : joined_of request filesystem_root = root ++ [foo]).
  { unfold joined_of. rewrite (rel_url_path_tail _ _ Htail Hne).
    rewrite truediv_simple by assumption. apply resolve_snoc, Hdd. }
  apply (html_directory_sibling_at request filesystem_root listing w
           (root ++ [foo +:+ ".mml"]) (root ++ [foo +:+ ".html"]));
    rewrite ?Hj; try assumption.
  - apply str_snoc_startswith.
  - apply with_suffix_bare; assumption.
  - apply with_suffix_bare; assumption.
Qed.

(** X3. Among the responses the handler returns, the 403 ones are
    exactly those for paths that are neither at or below the root nor
    below a sibling of the root whose name extends the root's; a 403
    response is the plain [Forbidden] one and comes with no change. *)
Theorem forbidden_exactly_outside (request : Request) (filesystem_root : string)
    (listing : bool) (w w' : World) (r : Response) :
  Forall part_ok cwd ->
  let root := root_of filesystem_root in
  let joined := joined_of request filesystem_root in
  handle_static_request request filesystem_root listing w = (Ok r, w') ->
  (status r = 403
   <-> ~ (descendant_of root joined = true \/ name_extension root joined))
  /\ (status r = 403 ->
      r = mkResponse 403 (Some "Forbidden") None [] None /\ w' = w).
Proof.
  intros Hcwd root joined Hrun.
  pose proof (guard_exact root joined (root_of_ok _ Hcwd) (joined_of_ok _ _ Hcwd)) as Hg.
  destruct (handler_cases request filesystem_root listing w Hcwd)
    as [[Hguard H] | [Hguard H]]; fold root joined in Hguard.
  - rewrite Hrun in H. injection H as -> ->.
    split; [| auto]. split; [| reflexivity].
    intros _ Hin. apply Hg in Hin. congruence.
  - assert (Hst : status r <> 403).
    { rewrite Hrun in H.
      destruct H as [H | [[items H] | [(p & _ & _ & H) | (p & _ & _ & _ & H)]]].
      + injection H as -> _. discriminate.
      + injection H as -> _. discriminate.
      + destruct (serve_mml_spec p request w) as (o' & w1 & _ & _ & _ & _ & Hserve).
        rewrite Hserve in H. destruct o' as [o | e]; [| discriminate H].
        injection H as -> _.
        destruct o; [| discriminate].
        destruct (match headers_get (req_headers request) "If-None-Match" with
                  | Some v => _ | None => _ end); discriminate.
      + rewrite serve_file_run in H.
        destruct (stat (fs w) p) as [[t | content t] |]; try discriminate H.
        injection H as -> _.
        destruct (match headers_get (req_headers request) "If-None-Match" with
                  | Some v => _ | None => _ end); discriminate. }
    split; [| intros E; contradiction].
    split; [intros E; contradiction |].
    intros Hout. exfalso. apply Hout, Hg, Hguard.
Qed.

Lemma answer_status (t : Target) (request : Request) (w w' : World) (r : Response) :
  answer t request w = (Ok r, w') ->
  match t with
  | Forbidden => status r = 403
  | NotFound => status r = 404
  | Fault _ => False
  | _ => status r = 200 \/ status r = 304 \/ status r = 500
  end.
Proof.
  destruct t as [| | items | p | p | e]; simpl answer; intros H;
    try (injection H as <- _; simpl; auto; fail).
  - destruct (serve_mml_spec p request w) as (o' & w1 & _ & _ & _ & _ & Hserve).
    rewrite Hserve in H. destruct o' as [o | e]; [| discriminate H].
    injection H as <- _.
    destruct o; [| simpl; auto].
    destruct (match headers_get (req_headers request) "If-None-Match" with
              | Some v => _ | None => _ end); simpl; auto.
  - rewrite serve_file_run in H.
    destruct (stat (fs w) p) as [[t | content t] |]; try discriminate H.
    injection H as <- _.
    destruct (match headers_get (req_headers request) "If-None-Match" with
              | Some v => _ | None => _ end); simpl; auto.
  - discriminate H.
Qed.

(** X4. For a path that passes the guard and is not a directory, a
    response the handler returns is the 404 one exactly when neither the
    path nor its [.mml] and [.html] siblings exist; it then comes with no
    change. *)
Theorem not_found_exactly (request : Request) (filesystem_root : string)
    (listing : bool) (w w' : World) (r : Response) (m h : Path) :
  let root := root_of filesystem_root in
  let joined := joined_of request filesystem_root in
  Py.startswith (str joined) (str root) = true ->
  is_dir (fs w) joined = false ->
  with_suffix joined ".mml" = Some m ->
  with_suffix joined ".html" = Some h ->
  handle_static_request request filesystem_root listing w = (Ok r, w') ->
  (status r = 404
   <-> exists_ (fs w) joined = false /\ exists_ (fs w) m = false
       /\ exists_ (fs w) h = false)
  /\ (status r = 404 ->
      r = mkResponse 404 (Some "Not Found") None [] None /\ w' = w).
Proof.
  intros root joined Hg Hd Hm Hh Hrun.
  assert (Ht : resolve_target request filesystem_root listing (fs w)
               = resolve_bare (fs w) joined).
  { unfold resolve_target. fold root joined. rewrite Hg, Hd. reflexivity. }
  pose proof (resolve_bare_not_found (fs w) joined m h Hm Hh Hd) as Hnf.
  rewrite handle_static_request_resolves, Ht in Hrun.
  pose proof (answer_status _ _ _ _ _ Hrun) as Hst.
  destruct (resolve_bare (fs w) joined) as [| | items | p | p | e] eqn:Hb.
  - pose proof (resolve_bare_cases (fs w) joined _ Hb) as []. 
  - simpl in Hrun. injection Hrun as <- <-.
    split; [| auto]. split; [intros _; apply Hnf; reflexivity | reflexivity].
  - pose proof (resolve_bare_cases (fs w) joined _ Hb) as [].
  - split.
    + split; [intros E; destruct Hst as [H | [H | H]]; congruence |].
      intros H. apply Hnf in H. discriminate H.
    + intros E. destruct Hst as [H | [H | H]]; congruence.
  - split.
    + split; [intros E; destruct Hst as [H | [H | H]]; congruence |].
      intros H. apply Hnf in H. discriminate H.
    + intros E. destruct Hst as [H | [H | H]]; congruence.
  - destruct Hst.
Qed.

(** X5. A directory without an index: 404 when listings are off; when they
    are on, a page whose items are the entries directly below the
    directory, each once, directories with a trailing slash. *)
Theorem directory_without_index (request : Request) (filesystem_root : string)
    (listing : bool) (w : World) :
  let root := root_of filesystem_root in
  let joined := joined_of request filesystem_root in
  Py.startswith (str joined) (str root) = true ->
  is_dir (fs w) joined = true ->
  exists_ (fs w) (joined ++ ["index.mml"]) = false ->
  exists_ (fs w) (joined ++ ["index.html"]) = false ->
  exists entries,
    List.NoDup entries
    /\ (forall q, In q entries <-> exists c n, q = joined ++ [c] /\ fs w !! q = Some n)
    /\ handle_static_request request filesystem_root listing w
       = (Ok (if listing
              then mkResponse 200
                     (Some (listing_body (path request)
                              (map (fun q => name q +:+
                                             (if is_dir (fs w) q then "/" else EmptyString))
                                   entries)))
                     None [] (Some "text/html")
              else mkResponse 404 (Some "Not Found") None [] None), w).
Proof.
  intros root joined Hg Hd H1 H2.
  exists (iterdir (fs w) joined).
  split; [apply iterdir_NoDup |]. split; [apply iterdir_spec |].
  rewrite handle_static_request_resolves. unfold resolve_target.
  fold root joined. rewrite Hg, Hd, H1, H2.
  destruct listing; reflexivity.
Qed.

(** X6. A regular file at or below the root whose name has an extension other
    than [.mml] is served as it is, whatever siblings it has. *)
Theorem existing_file_served_as_is (request : Request) (filesystem_root : string)
    (listing : bool) (w : World) (content : Py.bytes) (t : Z) :
  let root := root_of filesystem_root in
  let joined := joined_of request filesystem_root in
  descendant_of root joined = true ->
  stat (fs w) joined = Some (File content t) ->
  suffix joined <> EmptyString ->
  suffix joined <> ".mml" ->
  handle_static_request request filesystem_root listing w
  = (Ok (if match headers_get (req_headers request) "If-None-Match" with
            | Some v => String.eqb v (compute_etag_bytes content)
            | None => false
            end
         then mkResponse 304 None None (file_headers joined content) None
         else mkResponse 200 None (Some content) (file_headers joined content) None), w).
Proof.
  intros root joined Hdesc Hstat Hs1 Hs2.
  rewrite (guarded_file_is_served request filesystem_root listing w content t
             (descendant_passes_guard _ _ Hdesc) Hstat Hs1 Hs2).
  apply (serve_file_spec _ _ _ _ _ Hstat).
Qed.

(** X7. An extensionless regular file whose [.mml] sibling does not exist is
    shadowed by its [.html] sibling: the sibling is served when it is a
    regular file, the file itself only when there is no such sibling. *)
Theorem extensionless_file_and_html_sibling (request : Request)
    (filesystem_root : string) (listing : bool) (w : World)
    (m h : Path) (content : Py.bytes) (t : Z) :
  let root := root_of filesystem_root in
  let joined := joined_of request filesystem_root in
  Py.startswith (str joined) (str root) = true ->
  stat (fs w) joined = Some (File content t) ->
  suffix joined = EmptyString ->
  with_suffix joined ".mml" = Some m ->
  with_suffix joined ".html" = Some h ->
  exists_ (fs w) m = false ->
  (is_file (fs w) h = true ->
   handle_static_request request filesystem_root listing w = _serve_file h request w)
  /\ (exists_ (fs w) h = false ->
      handle_static_request request filesystem_root listing w
      = _serve_file joined request w).
Proof.
  intros root joined Hg Hstat Hs Hm Hh Em.
  assert (Hd : is_dir (fs w) joined = false) by (unfold is_dir; rewrite Hstat; reflexivity).
  assert (Ht : resolve_target request filesystem_root listing (fs w)
               = resolve_bare (fs w) joined).
  { unfold resolve_target. fold root joined. rewrite Hg, Hd. reflexivity. }
  rewrite handle_static_request_resolves, Ht.
  unfold resolve_bare. rewrite Hs, Hm, Hh, Em.
  change (String.eqb EmptyString EmptyString) with true. cbv iota.
  split.
  - intros Hf.
    assert (He : exists_ (fs w) h = true).
    { unfold is_file, exists_ in *. destruct (stat (fs w) h) as [[] |]; congruence. }
    rewrite He. unfold resolve_candidate.
    destruct (suffix_with_suffix joined h ".html" eq_refl ltac:(simpl; lia) Hh) as [-> _].
    change (String.eqb ".html" ".mml") with false. rewrite He, Hf. reflexivity.
  - intros He. rewrite He. unfold resolve_candidate. rewrite Hs.
    change (String.eqb EmptyString ".mml") with false.
    assert (Hex : exists_ (fs w) joined = true) by (unfold exists_; rewrite Hstat; reflexivity).
    assert (Hfl : is_file (fs w) joined = true) by (unfold is_file; rewrite Hstat; reflexivity).
    rewrite Hex, Hfl. reflexivity.
Qed.

(** X8. Only a conversion changes anything: unless the request is
    answered by [_serve_mml] on an existing path whose suffix is [.mml],
    the world after the request is the world before it, whether the
    handler returns or raises: no file touched, nothing printed, the
    converter neither loaded nor run. *)
Theorem only_conversions_change_the_world (request : Request)
    (filesystem_root : string) (listing : bool) (w : World) :
  snd (handle_static_request request filesystem_root listing w) = w
  \/ exists p,
       suffix p = ".mml" /\ exists_ (fs w) p = true
       /\ handle_static_request request filesystem_root listing w
          = _serve_mml p request w.
Proof.
  rewrite handle_static_request_resolves.
  pose proof (resolve_target_cases request filesystem_root listing (fs w) _ eq_refl) as H.
  destruct (resolve_target request filesystem_root listing (fs w))
    as [| | items | p | p | e]; simpl answer; try (left; reflexivity).
  - right. exists p. destruct H. auto.
  - left. rewrite serve_file_run.
    destruct (stat (fs w) p) as [[t | content t] |]; reflexivity.
Qed.

End HandlerTheorems.

(* ===================================================================== *)
(** ** The adapter: which strategy answers *)
(* ===================================================================== *)

Section AdapterTheorems.

Context {env : Env}.







End AdapterTheorems.

(* ===================================================================== *)
(** ** utils.py *)
(* ===================================================================== *)

Lemma hex_digit_is_hex (x : Z) : is_hex_digit (Sha1.hex_digit x) = true.
Proof.
  unfold Sha1.hex_digit.
  assert (H : 0 <= Z.land x 15 < 16).
  { change 15 with (Z.ones 4). rewrite Z.land_ones by lia. apply Z.mod_pos_bound. lia. }
  set (d := Z.land x 15) in *.
  assert (Hd : d = 0 \/ d = 1 \/ d = 2 \/ d = 3 \/ d = 4 \/ d = 5 \/ d = 6 \/ d = 7
               \/ d = 8 \/ d = 9 \/ d = 10 \/ d = 11 \/ d = 12 \/ d = 13 \/ d = 14
               \/ d = 15) by lia.
  repeat (destruct Hd as [-> | Hd]; [reflexivity |]). subst d. rewrite Hd. reflexivity.
Qed.

(** X11. An ETag is always forty lowercase hexadecimal digits. *)
Theorem etag_is_forty_hex_digits (data : Py.bytes) :
  String.length (compute_etag_bytes data) = 40%nat
  /\ Forall (fun c => is_hex_digit c = true)
            (list_ascii_of_string (compute_etag_bytes data)).
Proof.
  unfold compute_etag_bytes, Sha1.hexdigest, Sha1.hex8.
  split; [reflexivity |].
  cbn [list_ascii_of_string].
  repeat (apply Forall_cons; split; [apply hex_digit_is_hex |]).
  apply Forall_nil. exact I.
Qed.

(** X12. [file_mtime] never raises and changes nothing: it gives the
    modification time of an existing path whose time stamp is a date of
    the years 1 to 9999, and [None] in every other case. *)
Theorem file_mtime_total (p : Path) (w : World) :
  exists o,
    file_mtime p w = (Ok o, w)
    /\ forall d, o = Some d
                 <-> getmtime (fs w) p = Ok d
                     /\ -62135596800 <= d < 253402300800.
Proof.
  eexists. split; [apply file_mtime_spec |].
  intros d. unfold utcfromtimestamp.
  destruct (getmtime (fs w) p) as [t | e].
  - destruct ((-62135596800 <=? t) && (t <? 253402300800)) eqn:E.
    + apply andb_true_iff in E as [E1 E2].
      apply Z.leb_le in E1. apply Z.ltb_lt in E2.
      split; [intros [= <-]; auto | intros [[= <-] _]; reflexivity].
    + split; [intros H; discriminate H |].
      intros [[= <-] [H1 H2]]. apply Z.leb_le in H1. apply Z.ltb_lt in H2.
      rewrite H1, H2 in E. discriminate E.
  - split; [intros H; discriminate H | intros [H _]; discriminate H].
Qed.

(* ===================================================================== *)
(** ** Streaming *)
(* ===================================================================== *)

Lemma chunk_size_positive : (0 < CHUNK_SIZE)%nat.
Proof. unfold CHUNK_SIZE. lia. Qed.

Lemma firstn_nil_inv {A} (n : nat) (l : list A) :
  (0 < n)%nat -> firstn n l = [] -> l = [].
Proof. destruct n; [lia |]. destruct l; [reflexivity | intros _ H; discriminate H]. Qed.

(** Cutting a body into chunks loses nothing, and every chunk but the
    last is full. *)
Lemma chunks_of_spec (fuel size : nat) (data : Py.bytes) :
  (0 < size)%nat -> (length data < fuel)%nat ->
  let chunks := chunks_of fuel size data in
  concat chunks = data
  /\ Forall (fun c => c <> [] /\ (length c <= size)%nat) chunks
  /\ (forall pre c post, chunks = pre ++ c :: post -> post <> [] -> length c = size).
Proof.
  intros Hsize. revert data. induction fuel as [| fuel IH]; intros data Hlen; [lia |].
  simpl chunks_of. destruct (firstn size data) as [| b chunk] eqn:Hc.
  - apply (firstn_nil_inv _ _ Hsize) in Hc. subst data.
    simpl. split; [reflexivity |]. split; [constructor |].
    intros pre c post H. destruct pre; discriminate H.
  - assert (Hskip : (length (skipn size data) < fuel)%nat).
    { rewrite length_skipn. destruct data; [destruct size; discriminate Hc |]. simpl in *. lia. }
    destruct (IH (skipn size data) Hskip) as (Hcat & Hall & Hfull).
    split; [| split].
    + rewrite <- (firstn_skipn size data) at 2. rewrite Hc. simpl. rewrite Hcat. reflexivity.
    + constructor; [| exact Hall]. split; [discriminate |].
      rewrite <- Hc, length_firstn. lia.
    + intros pre c post H Hpost. destruct pre as [| c0 pre]; simpl in H.
      * injection H as <- Hrest.
        rewrite <- Hc, length_firstn.
        destruct (Nat.le_gt_cases size (length data)) as [| Hshort]; [lia |].
        exfalso. rewrite Hrest in Hcat, Hall. rewrite skipn_all2 in Hcat by lia.
        destruct post as [| c1 post]; [congruence |].
        inversion Hall as [| ? ? [Hne _] _]; subst.
        simpl in Hcat. destruct c1; [congruence | discriminate Hcat].
      * injection H as _ Hrest. apply (Hfull pre c post Hrest Hpost).
Qed.

Lemma stream_loop_step (fuel : nat) (rest : Py.bytes) (response : StreamResponse) :
  stream_loop (S fuel) rest response =
  match firstn CHUNK_SIZE rest with
  | [] => Some (Ok tt, response)
  | chunk =>
      match response_write response chunk with
      | Raise e => Some (Raise e, response)
      | Ok response' => stream_loop fuel (skipn CHUNK_SIZE rest) response'
      end
  end.
Proof. simpl stream_loop. destruct (firstn CHUNK_SIZE rest); reflexivity. Qed.

Lemma chunks_of_step (fuel size : nat) (data : Py.bytes) :
  chunks_of (S fuel) size data =
  match firstn size data with
  | [] => []
  | chunk => chunk :: chunks_of fuel size (skipn size data)
  end.
Proof. reflexivity. Qed.

(** The loop of [stream_file] ends, having written the chunks of the body
    in order until the transport refuses one. *)
Lemma stream_loop_spec (fuel : nat) (rest : Py.bytes) (response : StreamResponse) :
  (length rest < fuel)%nat ->
  let chunks := chunks_of fuel CHUNK_SIZE rest in
  stream_loop fuel rest response =
  Some match writes_left response with
       | None =>
           (Ok tt, mkStreamResponse (sent response ++ chunks) (eof_sent response) None)
       | Some k =>
           if (length chunks <=? k)%nat
           then (Ok tt, mkStreamResponse (sent response ++ chunks) (eof_sent response)
                          (Some (k - length chunks)%nat))
           else (Raise (OSError "Cannot write to closing transport"),
                 mkStreamResponse (sent response ++ firstn k chunks)
                                  (eof_sent response) (Some 0%nat))
       end.
Proof.
  revert rest response. induction fuel as [| fuel IH]; intros rest response Hlen; [lia |].
  cbv zeta. rewrite stream_loop_step, chunks_of_step.
  destruct (firstn CHUNK_SIZE rest) as [| b chunk] eqn:Hc.
  - rewrite app_nil_r. destruct response as [s e [k |]]; simpl; [| reflexivity].
    rewrite Nat.sub_0_r. reflexivity.
  - assert (Hskip : (length (skipn CHUNK_SIZE rest) < fuel)%nat).
    { rewrite length_skipn. destruct rest as [| x rest].
      - rewrite firstn_nil in Hc. discriminate Hc.
      - pose proof chunk_size_positive. simpl length in *. lia. }
    unfold response_write. destruct response as [s e [[| k] |]]; cbn [writes_left sent eof_sent].
    + rewrite app_nil_r. reflexivity.
    + rewrite (IH _ _ Hskip). cbn [writes_left sent eof_sent length].
      rewrite <- app_assoc. simpl app at 1.
      change (S (length (chunks_of fuel CHUNK_SIZE (skipn CHUNK_SIZE rest))) <=? S k)%nat
        with (length (chunks_of fuel CHUNK_SIZE (skipn CHUNK_SIZE rest)) <=? k)%nat.
      destruct (length (chunks_of fuel CHUNK_SIZE (skipn CHUNK_SIZE rest)) <=? k)%nat;
        [reflexivity |].
      rewrite <- app_assoc. reflexivity.
    + rewrite (IH _ _ Hskip). cbn [writes_left sent eof_sent].
      rewrite <- app_assoc. reflexivity.
Qed.

(** X13. On a connection that stays open, [stream_file] ends normally, having
    written the whole file in order, in non-empty chunks of at most
    [CHUNK_SIZE] bytes of which all but the last are full, and then the
    end of the body. *)
Theorem stream_file_sends_the_file (response : StreamResponse) (p : Path) (w : World)
    (content : Py.bytes) (t : Z) :
  stat (fs w) p = Some (File content t) ->
  writes_left response = None ->
  exists chunks,
    stream_file response p w
    = Some (Ok tt, mkStreamResponse (sent response ++ chunks) true None)
    /\ concat chunks = content
    /\ Forall (fun c => c <> [] /\ (length c <= CHUNK_SIZE)%nat) chunks
    /\ (forall pre c post,
          chunks = pre ++ c :: post -> post <> [] -> length c = CHUNK_SIZE).
Proof.
  intros Hstat Hlive. exists (file_chunks content). split.
  - unfold stream_file. rewrite Hstat.
    rewrite stream_loop_spec by lia. rewrite Hlive. reflexivity.
  - apply chunks_of_spec; [apply chunk_size_positive | lia].
Qed.

(** X14. When the client goes away after [k] writes, [stream_file] raises: the
    first [k] chunks of the file were written and no more, and the end of
    the body was not sent. *)
Theorem stream_file_stops_at_the_first_failure (response : StreamResponse) (p : Path)
    (w : World) (content : Py.bytes) (t : Z) (k : nat) :
  stat (fs w) p = Some (File content t) ->
  writes_left response = Some k ->
  (k <= length (file_chunks content))%nat ->
  stream_file response p w
  = Some (Raise (OSError "Cannot write to closing transport"),
          mkStreamResponse (sent response ++ firstn k (file_chunks content))
                           (eof_sent response) (Some 0%nat)).
Proof.
  intros Hstat Hk Hle. unfold stream_file. rewrite Hstat.
  rewrite stream_loop_spec by lia. rewrite Hk.
  fold (file_chunks content).
  destruct (Nat.leb_spec (length (file_chunks content)) k) as [Hge | Hlt].
  - assert (k = length (file_chunks content)) by lia. subst k.
    unfold response_write_eof. cbn [writes_left sent eof_sent].
    rewrite Nat.sub_diag, firstn_all. reflexivity.
  - reflexivity.
Qed.

(* ===================================================================== *)
(** ** server.py *)
(* ===================================================================== *)

Lemma resolve_Forall (P : string -> Prop) (p : Path) :
  Forall P p -> Forall P (resolve p).
Proof.
  unfold resolve.
  assert (H : forall l acc, Forall P l -> Forall P acc ->
                            Forall P (fold_left resolve_step l acc)).
  { induction l as [| c l IH]; intros acc Hl Hacc; simpl; [exact Hacc |].
    inversion Hl; subst. apply IH; [assumption |]. unfold resolve_step.
    destruct (String.eqb c "..").
    - apply Forall_removelast, Hacc.
    - apply Forall_app. split; [exact Hacc | constructor; [assumption | constructor]]. }
  intros Hp. apply H; [exact Hp | constructor].
Qed.

Lemma resolve_clean (p : Path) : clean p -> resolve p = p.
Proof.
  induction p as [| x p IH] using rev_ind; intros Hc; [reflexivity |].
  apply Forall_app in Hc as [Hp Hx]. inversion Hx; subst.
  rewrite <- (IH Hp) at 1. rewrite resolve_snoc by assumption. rewrite (IH Hp). reflexivity.
Qed.

Lemma split_slash_component (c rest : string) :
  no_slash c = true ->
  Py.split_slash (c +:+ String "/" rest) = c :: Py.split_slash rest.
Proof.
  induction c as [| a c IH]; intros Hc; [reflexivity |].
  apply no_slash_cons in Hc as [Ha Hc].
  change (String a c +:+ String "/" rest) with (String a (c +:+ String "/" rest)).
  simpl Py.split_slash. rewrite (IH Hc).
  destruct (Ascii.eqb_spec a "/") as [-> | _]; [contradiction | reflexivity].
Qed.

Lemma split_slash_concat (p : Path) :
  p <> [] -> Forall (fun c => no_slash c = true) p ->
  Py.split_slash (String.concat "/" p) = p.
Proof.
  induction p as [| c q IH]; intros Hne Hp; [congruence |].
  inversion Hp as [| ? ? Hc Hq]; subst.
  destruct q as [| c' q]; [apply split_slash_no_slash, Hc |].
  change (String.concat "/" (c :: c' :: q))
    with (c +:+ String "/" (String.concat "/" (c' :: q))).
  rewrite (split_slash_component _ _ Hc), IH; [reflexivity | discriminate | exact Hq].
Qed.

(** The string of a path of plain names reads back as the path. *)
Lemma parts_of_str (p : Path) :
  Forall (fun c => simple_name c = true) p -> parts_of (str p) = p.
Proof.
  intros Hp. unfold parts_of, str, Py.join.
  change ("/" +:+ String.concat "/" p) with (String "/" (String.concat "/" p)).
  change (Py.split_slash (String "/" (String.concat "/" p)))
    with (EmptyString :: Py.split_slash (String.concat "/" p)).
  change (List.filter keep_part (EmptyString :: Py.split_slash (String.concat "/" p)))
    with (List.filter keep_part (Py.split_slash (String.concat "/" p))).
  destruct p as [| c q]; [reflexivity |].
  rewrite split_slash_concat; [| discriminate |].
  - apply forallb_filter_id. apply forallb_forall. intros x Hx.
    rewrite Forall_forall in Hp. specialize (Hp x (proj2 (list_elem_of_In _ _) Hx)).
    apply simple_name_inv in Hp as (H1 & H2 & _ & _).
    unfold keep_part. apply String.eqb_neq in H1, H2. rewrite H1, H2. reflexivity.
  - eapply Forall_impl; [exact Hp |]. intros x Hx.
    apply simple_name_inv in Hx. tauto.
Qed.

Section ServerTheorems.

Context {env : Env}.

Lemma root_of_simple (filesystem_root : string) :
  Forall (fun c => simple_name c = true) cwd ->
  Forall (fun c => simple_name c = true) (root_of filesystem_root).
Proof.
  intros Hcwd.
  assert (Hok : Forall part_ok cwd).
  { eapply Forall_impl; [exact Hcwd |]. intros c Hc.
    apply simple_name_inv in Hc. split; tauto. }
  pose proof (root_of_ok filesystem_root Hok) as H1.
  pose proof (clean_resolve (absolute cwd filesystem_root)) as H2.
  assert (H3 : Forall (fun c => c <> ".") (root_of filesystem_root)).
  { unfold root_of. apply resolve_Forall. unfold absolute. apply Forall_app. split.
    - destruct (is_abs filesystem_root); [constructor |].
      eapply Forall_impl; [exact Hcwd |]. intros c Hc.
      apply simple_name_inv in Hc. tauto.
    - unfold parts_of. apply Forall_forall. intros c Hc.
      apply list_elem_of_In, filter_In in Hc as [_ Hk].
      unfold keep_part in Hk. apply andb_true_iff in Hk as [_ Hk].
      apply negb_true_iff, String.eqb_neq in Hk. exact Hk. }
  fold (root_of filesystem_root) in H2. unfold clean in H2.
  rewrite Forall_forall in *. intros c Hc.
  destruct (H1 c Hc) as [Ha Hb]. specialize (H2 c Hc). specialize (H3 c Hc).
  unfold simple_name. apply String.eqb_neq in Ha, H2, H3.
  rewrite Ha, H2, H3, Hb. reflexivity.
Qed.

(** The canonical root is a fixed point: resolving its own string gives
    it back. *)
Lemma root_of_str_root_of (filesystem_root : string) :
  Forall (fun c => simple_name c = true) cwd ->
  root_of (str (root_of filesystem_root)) = root_of filesystem_root.
Proof.
  intros Hcwd. pose proof (root_of_simple filesystem_root Hcwd) as Hs.
  set (p := root_of filesystem_root) in *.
  unfold root_of at 1, absolute.
  assert (Habs : is_abs (str p) = true)
    by (unfold is_abs, Py.startswith, str; apply prefix_append).
  rewrite Habs, (parts_of_str p Hs). simpl app.
  apply resolve_clean. eapply Forall_impl; [exact Hs |].
  intros c Hc. apply simple_name_inv in Hc. tauto.
Qed.

Lemma handler_depends_on_root_of (request : Request) (r1 r2 : string)
    (listing : bool) (w : World) :
  root_of r1 = root_of r2 ->
  handle_static_request request r1 listing w
  = handle_static_request request r2 listing w.
Proof.
  intros H. rewrite !handle_static_request_resolves.
  unfold resolve_target, joined_of. rewrite H. reflexivity.
Qed.

(** X15. A server built for a root directory answers every request that has
    no route as [handle_static_request] answers it for that root and that
    listing setting; an exception of the static handler goes on to the
    framework. *)
Theorem server_delegates_to_static_handler (host : string) (port : Z)
    (filesystem_root : string) (listing : bool) (w : World) :
  Forall (fun c => simple_name c = true) cwd ->
  exists self w1,
    Server.__init__ host port filesystem_root listing w = (Ok self, w1)
    /\ fs w1 = fs w
    /\ forall req w2,
         Server._catch_all self req w2
         = match handle_static_request (Server.request req) filesystem_root listing w2 with
           | (Ok r, w3) => (Server.Responded (Server.Plain r), w3)
           | (Raise e, w3) => (Server.Propagated e, w3)
           end.
Proof.
  intros Hcwd. do 2 eexists. split; [reflexivity |]. split; [reflexivity |].
  intros req w2. unfold Server._catch_all. cbn [Server._routes Server.root Server.enable_dir_listing].
  rewrite lookup_empty.
  fold (root_of filesystem_root).
  rewrite (handler_depends_on_root_of (Server.request req)
             (str (root_of filesystem_root)) filesystem_root listing w2
             (root_of_str_root_of filesystem_root Hcwd)).
  reflexivity.
Qed.

(** X16. Registering a route: from then on the handler answers the requests
    for exactly that path, for every method and whatever list of methods
    was given, with the method in upper case; what it returns or raises
    becomes the answer as [_catch_all] maps it (an instance of
    [Exception] is logged and answered with 500, any other exception
    goes on to the framework); every other path is answered as before. *)
Theorem route_registers_for_every_method (self : Server.HTTPServer) (route_path : string)
    (methods : option (list string)) (fn : Server.HandlerType) (w : World) :
  exists self' w1,
    Server.route self route_path methods fn w = (Ok self', w1)
    /\ fs w1 = fs w
    /\ (forall req w2,
          path (Server.request req) = route_path ->
          let called :=
            fn (Server.upper (Server.method req)) route_path (Server.request req) w2 in
          match fst called with
          | Server.ReturnsResponse r =>
              Server._catch_all self' req w2 = (Server.Responded r, snd called)
          | Server.ReturnsValue repr =>
              Server._catch_all self' req w2
              = (Server.Responded (Server.Plain (mkResponse 200 (Some repr) None [] None)),
                 snd called)
          | Server.RaisesHTTP st =>
              Server._catch_all self' req w2 = (Server.PropagatedHTTP st, snd called)
          | Server.RaisesError e =>
              if is_Exception e then
                exists w3,
                  Server._catch_all self' req w2
                  = (Server.Responded
                       (Server.Plain (mkResponse 500 (Some "Internal Server Error")
                                                 None [] None)), w3)
                  /\ fs w3 = fs (snd called)
                  /\ log w3 = Traceback e :: Printed "[parrot] Route handler error"
                                :: log (snd called)
              else Server._catch_all self' req w2 = (Server.Propagated e, snd called)
          end)
    /\ (forall req w2,
          path (Server.request req) <> route_path ->
          Server._catch_all self' req w2 = Server._catch_all self req w2).
Proof.
  do 2 eexists. split; [reflexivity |]. split; [reflexivity |]. split.
  - intros req w2 Hp called. unfold Server._catch_all.
    cbn [Server._routes]. rewrite Hp, lookup_insert_eq. fold called.
    destruct called as [[r | repr | st | e] w3]; cbn [fst snd]; try reflexivity.
    destruct (is_Exception e); [| reflexivity].
    eexists. split; [reflexivity |]. split; reflexivity.
  - intros req w2 Hp. unfold Server._catch_all.
    cbn [Server._routes Server.root Server.enable_dir_listing].
    rewrite lookup_insert_ne by congruence. reflexivity.
Qed.


End ServerTheorems.

(* ===================================================================== *)
(** ** Witnesses of the further properties *)
(* ===================================================================== *)

(** [/page.txt] on the second site: the payload is the text file, though
    [page.mml] lies next to it. *)
Lemma response_body_origin_witness :
  let w := SampleTree.world1 in
  (exists p t, stat (fs w) p = Some (File (Py.encode_utf8 "text") t)
               /\ suffix p <> ".mml" /\ w = w)
  \/ (exists p html,
        suffix p = ".mml" /\ exists_ (fs w) p = true
        /\ convert_mml_file_to_html_string (env := Sample.env_file_writer) (str p) w
           = (Ok (Some html), w)
        /\ Py.encode_utf8 "text" = Py.encode_utf8 html).
Proof.
  eapply (response_body_origin (env := Sample.env_file_writer)
            (Sample.get "page.txt" []) "/srv/www" false SampleTree.world1).
  - repeat constructor. intros H; discriminate H.
  - vm_compute. reflexivity.
  - reflexivity.
Defined.

(** [/pics] on the second site, where [pics.html] is a directory. *)
Lemma html_directory_sibling_raises_witness :
  handle_static_request (env := Sample.env_file_writer)
    (Sample.get "pics" []) "/srv/www" false SampleTree.world1
  = (Raise (OSError "Is a directory"), SampleTree.world1).
Proof.
  apply (html_directory_sibling_raises (env := Sample.env_file_writer)
           (Sample.get "pics" []) "/srv/www" false SampleTree.world1 "pics");
    vm_compute; reflexivity.
Defined.

(** [/../../etc/passwd] leaves the root: the response is the 403 one. *)
Lemma forbidden_exactly_outside_witness :
  let request := Sample.get "../../etc/passwd" [] in
  let root := root_of (env := Sample.env_file_writer) "/srv/www" in
  let joined := joined_of (env := Sample.env_file_writer) request "/srv/www" in
  let r := mkResponse 403 (Some "Forbidden") None [] None in
  (status r = 403
   <-> ~ (descendant_of root joined = true \/ name_extension root joined))
  /\ (status r = 403 ->
      r = mkResponse 403 (Some "Forbidden") None [] None
      /\ Sample.world0 = Sample.world0).
Proof.
  apply (forbidden_exactly_outside (env := Sample.env_file_writer)
           (Sample.get "../../etc/passwd" []) "/srv/www" false
           Sample.world0 Sample.world0).
  - repeat constructor. intros H; discriminate H.
  - vm_compute. reflexivity.
Defined.

(** [/missing.txt] on the second site. *)
Lemma not_found_exactly_witness :
  let f := fs SampleTree.world1 in
  let r := mkResponse 404 (Some "Not Found") None [] None in
  (status r = 404
   <-> exists_ f ["srv"; "www"; "missing.txt"] = false
       /\ exists_ f ["srv"; "www"; "missing.mml"] = false
       /\ exists_ f ["srv"; "www"; "missing.html"] = false)
  /\ (status r = 404 ->
      r = mkResponse 404 (Some "Not Found") None [] None
      /\ SampleTree.world1 = SampleTree.world1).
Proof.
  apply (not_found_exactly (env := Sample.env_file_writer)
           (Sample.get "missing.txt" []) "/srv/www" false
           SampleTree.world1 SampleTree.world1 _
           ["srv"; "www"; "missing.mml"] ["srv"; "www"; "missing.html"]);
    vm_compute; reflexivity.
Defined.

(** [/assets] on the second site, with listings on. *)
Lemma directory_without_index_witness :
  let w := SampleTree.world1 in
  let joined := ["srv"; "www"; "assets"] in
  exists entries,
    List.NoDup entries
    /\ (forall q, In q entries <-> exists c n, q = joined ++ [c] /\ fs w !! q = Some n)
    /\ handle_static_request (env := Sample.env_file_writer)
         (Sample.get "assets" []) "/srv/www" true w
       = (Ok (mkResponse 200
                (Some (listing_body "/assets"
                         (map (fun q => name q +:+
                                        (if is_dir (fs w) q then "/" else EmptyString))
                              entries)))
                None [] (Some "text/html")), w).
Proof.
  apply (directory_without_index (env := Sample.env_file_writer)
           (Sample.get "assets" []) "/srv/www" true SampleTree.world1);
    vm_compute; reflexivity.
Defined.

(** [/page.txt] on the second site, next to [page.mml]. *)
Lemma existing_file_served_as_is_witness :
  handle_static_request (env := Sample.env_file_writer)
    (Sample.get "page.txt" []) "/srv/www" false SampleTree.world1
  = (Ok (mkResponse 200 None (Some (Py.encode_utf8 "text"))
           (file_headers (env := Sample.env_file_writer)
              ["srv"; "www"; "page.txt"] (Py.encode_utf8 "text")) None),
     SampleTree.world1).
Proof.
  apply (existing_file_served_as_is (env := Sample.env_file_writer)
           (Sample.get "page.txt" []) "/srv/www" false SampleTree.world1
           (Py.encode_utf8 "text") 0).
  - vm_compute. reflexivity.
  - vm_compute. reflexivity.
  - vm_compute. intros H; discriminate H.
  - vm_compute. intros H; discriminate H.
Defined.

(** [/notes] is answered from [notes.html], [/LICENSE] from the file
    itself. *)
Lemma extensionless_file_and_html_sibling_witness :
  let handle request :=
    handle_static_request (env := Sample.env_file_writer) request "/srv/www" false
      SampleTree.world1 in
  let serve := _serve_file (env := Sample.env_file_writer) in
  handle (Sample.get "notes" [])
  = serve ["srv"; "www"; "notes.html"] (Sample.get "notes" []) SampleTree.world1
  /\ handle (Sample.get "LICENSE" [])
     = serve ["srv"; "www"; "LICENSE"] (Sample.get "LICENSE" []) SampleTree.world1.
Proof.
  split.
  - apply (proj1 (extensionless_file_and_html_sibling (env := Sample.env_file_writer)
                    (Sample.get "notes" []) "/srv/www" false SampleTree.world1
                    ["srv"; "www"; "notes.mml"] ["srv"; "www"; "notes.html"]
                    (Py.encode_utf8 "plain notes") 0
                    ltac:(vm_compute; reflexivity) ltac:(vm_compute; reflexivity)
                    ltac:(vm_compute; reflexivity) ltac:(vm_compute; reflexivity)
                    ltac:(vm_compute; reflexivity) ltac:(vm_compute; reflexivity))).
    vm_compute. reflexivity.
  - apply (proj2 (extensionless_file_and_html_sibling (env := Sample.env_file_writer)
                    (Sample.get "LICENSE" []) "/srv/www" false SampleTree.world1
                    ["srv"; "www"; "LICENSE.mml"] ["srv"; "www"; "LICENSE.html"]
                    (Py.encode_utf8 "MIT") 0
                    ltac:(vm_compute; reflexivity) ltac:(vm_compute; reflexivity)
                    ltac:(vm_compute; reflexivity) ltac:(vm_compute; reflexivity)
                    ltac:(vm_compute; reflexivity) ltac:(vm_compute; reflexivity))).
    vm_compute. reflexivity.
Defined.



(** Streaming [LICENSE] on an open connection. *)
Lemma stream_file_sends_the_file_witness :
  exists chunks,
    stream_file (mkStreamResponse [] false None) ["srv"; "www"; "LICENSE"]
      SampleTree.world1
    = Some (Ok tt, mkStreamResponse ([] ++ chunks) true None)
    /\ concat chunks = Py.encode_utf8 "MIT"
    /\ Forall (fun c => c <> [] /\ (length c <= CHUNK_SIZE)%nat) chunks
    /\ (forall pre c post,
          chunks = pre ++ c :: post -> post <> [] -> length c = CHUNK_SIZE).
Proof.
  apply (stream_file_sends_the_file (mkStreamResponse [] false None)
           ["srv"; "www"; "LICENSE"] SampleTree.world1 (Py.encode_utf8 "MIT") 0).
  - vm_compute. reflexivity.
  - reflexivity.
Defined.

(** Streaming [LICENSE] to a client that is already gone. *)
Lemma stream_file_stops_at_the_first_failure_witness :
  stream_file (mkStreamResponse [] false (Some 0%nat)) ["srv"; "www"; "LICENSE"]
    SampleTree.world1
  = Some (Raise (OSError "Cannot write to closing transport"),
          mkStreamResponse ([] ++ firstn 0 (file_chunks (Py.encode_utf8 "MIT")))
                           false (Some 0%nat)).
Proof.
  apply (stream_file_stops_at_the_first_failure (mkStreamResponse [] false (Some 0%nat))
           ["srv"; "www"; "LICENSE"] SampleTree.world1 (Py.encode_utf8 "MIT") 0 0%nat).
  - vm_compute. reflexivity.
  - reflexivity.
  - lia.
Defined.

(** A server for [/srv/www] in the sample deployment. *)
Lemma server_delegates_to_static_handler_witness :
  exists self w1,
    Server.__init__ (env := Sample.env_file_writer) "127.0.0.1" 8080 "/srv/www" false
      Sample.world0 = (Ok self, w1)
    /\ fs w1 = fs Sample.world0
    /\ forall req w2,
         Server._catch_all (env := Sample.env_file_writer) self req w2
         = match handle_static_request (env := Sample.env_file_writer)
                   (Server.request req) "/srv/www" false w2 with
           | (Ok r, w3) => (Server.Responded (Server.Plain r), w3)
           | (Raise e, w3) => (Server.Propagated e, w3)
           end.
Proof.
  apply (server_delegates_to_static_handler (env := Sample.env_file_writer)).
  repeat constructor.
Defined.

(** Registering [/api/ping] for [GET]: a [post] request is answered by
    the handler, and [/style.css] as before. *)
Lemma route_registers_for_every_method_witness :
  let post url := Server.mkHttpRequest "post" (mkRequest None url []) in
  exists self' w1,
    Server.route SampleServer.server "/api/ping" (Some ["GET"]) SampleServer.ping
      Sample.world0 = (Ok self', w1)
    /\ Server._catch_all (env := Sample.env_file_writer) self' (post "/api/ping")
         Sample.world0
       = (Server.Responded (Server.Plain SampleServer.pong), Sample.world0)
    /\ Server._catch_all (env := Sample.env_file_writer) self' (post "/style.css")
         Sample.world0
       = Server._catch_all (env := Sample.env_file_writer) SampleServer.server
           (post "/style.css") Sample.world0.
Proof.
  intros post.
  destruct (route_registers_for_every_method (env := Sample.env_file_writer)
              SampleServer.server "/api/ping" (Some ["GET"]) SampleServer.ping
              Sample.world0) as (self' & w1 & Hroute & _ & Hsame & Hother).
  exists self', w1. split; [exact Hroute |]. split.
  - exact (Hsame (post "/api/ping") Sample.world0 eq_refl).
  - apply Hother. intros H; discriminate H.
Defined.

